(** * PixelForge Nexus: authorization model, project actions, document
      versioning and user management

    The development embeds
    - the permission predicate of formal-methods/authorization-model.tla,
    - the server actions of src/actions/projects.ts, documents.ts and
      users.ts together with the Zod schemas of src/lib/validations.ts,
    - the member actions of src/actions/members.ts, the request
      middleware, the controls of the project page and the row policies
      of the recursion fix,
    over an explicit model of the Supabase database, auth service and
    storage bucket the actions talk to. *)

From Stdlib Require Import String Ascii List ZArith NArith Bool Lia DecimalString.
From Stdlib Require Import Permutation Sorted.
Import ListNotations.
Local Open Scope string_scope.
Local Open Scope list_scope.

(* ===================================================================== *)
(** * 1. Data model (src/types/database.ts)                               *)
(* ===================================================================== *)

Definition Uuid := string.

Inductive AppRole : Type := admin | project_lead | developer.

Inductive ProjectStatus : Type := active | completed.

Definition AppRole_eqb (a b : AppRole) : bool :=
  match a, b with
  | admin, admin | project_lead, project_lead | developer, developer => true
  | _, _ => false
  end.

Definition role_name (r : AppRole) : string :=
  match r with
  | admin => "admin"
  | project_lead => "project_lead"
  | developer => "developer"
  end.

Definition status_name (s : ProjectStatus) : string :=
  match s with active => "active" | completed => "completed" end.

(** [z.enum(['admin', 'project_lead', 'developer'])] and the Postgres enum
    [project_status]. *)
Definition parse_role (s : string) : option AppRole :=
  if s =? "admin" then Some admin
  else if s =? "project_lead" then Some project_lead
  else if s =? "developer" then Some developer
  else None.

Definition parse_status (s : string) : option ProjectStatus :=
  if s =? "active" then Some active
  else if s =? "completed" then Some completed
  else None.

Record Profile : Type := {
  pr_id : Uuid;
  pr_full_name : string;
  pr_email : string
}.

(** A row of [user_roles]. *)
Record UserRole : Type := {
  ur_user_id : Uuid;
  ur_role : AppRole
}.

Record Project : Type := {
  p_id : Uuid;
  p_name : string;
  p_description : string;
  p_deadline : string;
  p_status : ProjectStatus;
  p_created_by : Uuid;
  p_lead_id : option Uuid;
  p_created_at : Z
}.

Record ProjectMember : Type := {
  pm_id : Uuid;
  pm_project_id : Uuid;
  pm_user_id : Uuid;
  pm_assigned_at : Z
}.

Record Document : Type := {
  d_id : Uuid;
  d_project_id : Uuid;
  d_title : string;
  d_current_version : Z;
  d_created_by : Uuid
}.

Record DocumentVersion : Type := {
  v_document_id : Uuid;
  v_version : Z;
  v_storage_path : string;
  v_file_name : string;
  v_file_size : N;
  v_mime_type : string;
  v_uploaded_by : Uuid
}.

(** An account of the auth service ([auth.users]). *)
Record AuthUser : Type := {
  au_id : Uuid;
  au_email : string;
  au_full_name : string
}.

(** A browser [File] as the actions read it: name, size in bytes, type. *)
Record File : Type := {
  f_name : string;
  f_size : N;
  f_type : string
}.

Record Database : Type := {
  auth_users : list AuthUser;
  profiles : list Profile;
  user_roles : list UserRole;
  projects : list Project;
  project_members : list ProjectMember;
  documents : list Document;
  document_versions : list DocumentVersion
}.

(** Field updates, written out once. *)
Definition set_auth_users (l : list AuthUser) (d : Database) : Database :=
  {| auth_users := l; profiles := profiles d; user_roles := user_roles d;
     projects := projects d; project_members := project_members d;
     documents := documents d; document_versions := document_versions d |}.

Definition set_user_roles (l : list UserRole) (d : Database) : Database :=
  {| auth_users := auth_users d; profiles := profiles d; user_roles := l;
     projects := projects d; project_members := project_members d;
     documents := documents d; document_versions := document_versions d |}.

Definition set_projects (l : list Project) (d : Database) : Database :=
  {| auth_users := auth_users d; profiles := profiles d;
     user_roles := user_roles d;
     projects := l; project_members := project_members d;
     documents := documents d; document_versions := document_versions d |}.

Definition set_project_members (l : list ProjectMember) (d : Database)
  : Database :=
  {| auth_users := auth_users d; profiles := profiles d;
     user_roles := user_roles d;
     projects := projects d; project_members := l;
     documents := documents d; document_versions := document_versions d |}.

Definition set_documents (l : list Document) (d : Database) : Database :=
  {| auth_users := auth_users d; profiles := profiles d;
     user_roles := user_roles d;
     projects := projects d; project_members := project_members d;
     documents := l; document_versions := document_versions d |}.

Definition set_document_versions (l : list DocumentVersion) (d : Database)
  : Database :=
  {| auth_users := auth_users d; profiles := profiles d;
     user_roles := user_roles d;
     projects := projects d; project_members := project_members d;
     documents := documents d; document_versions := l |}.

Definition opt_eqb (a : option string) (b : string) : bool :=
  match a with Some x => x =? b | None => false end.

(** PostgREST [.single()]: the row when exactly one row matches. *)
Definition single {A : Type} (rows : list A) : option A :=
  match rows with
  | [x] => Some x
  | _ => None
  end.

(* ===================================================================== *)
(** * 2. The permission predicate (formal-methods/authorization-model.tla) *)
(* ===================================================================== *)

Inductive Action : Type := create | read | update | delete.

Inductive Resource : Type :=
| res_projects | res_project_members | res_documents
| res_document_versions | res_users.

(** The context record: [ctx.project_id], [ctx.document_id]. *)
Record Ctx : Type := { project_id : Uuid; document_id : Uuid }.

Inductive Decision : Type := Allow | Deny.

Section Authorization.

Variable st : Database.

(** The rows of [user_roles] a user has. *)
Definition role_rows (u : Uuid) : list UserRole :=
  filter (fun r => ur_user_id r =? u) (user_roles st).

(** [RoleOf(u) == userRoles[u]]; [None] is the value "none".  The role
    of a user is read as the actions read it,
    [from('user_roles').select('role').eq('user_id', u).single()]. *)
Definition RoleOf (u : Uuid) : option AppRole :=
  option_map ur_role (single (role_rows u)).

Definition has_role (u : Uuid) (r : AppRole) : bool :=
  match RoleOf u with Some r' => AppRole_eqb r' r | None => false end.

Definition IsAdmin (u : Uuid) : bool := has_role u admin.
Definition IsProjectLead (u : Uuid) : bool := has_role u project_lead.
Definition IsDeveloper (u : Uuid) : bool := has_role u developer.
Definition HasNoRole (u : Uuid) : bool :=
  match RoleOf u with None => true | Some _ => false end.

Definition ProjectsLedBy (u : Uuid) : list Project :=
  filter (fun p => opt_eqb (p_lead_id p) u) (projects st).

Definition ProjectIdsLedBy (u : Uuid) : list Uuid :=
  map p_id (ProjectsLedBy u).

Definition ProjectIdsMemberOf (u : Uuid) : list Uuid :=
  map pm_project_id
      (filter (fun m => pm_user_id m =? u) (project_members st)).

Definition IsLeadOf (u pid : Uuid) : bool :=
  existsb (fun p => (p_id p =? pid) && opt_eqb (p_lead_id p) u)
          (projects st).

Definition IsMemberOf (u pid : Uuid) : bool :=
  existsb (fun m => (pm_project_id m =? pid) && (pm_user_id m =? u))
          (project_members st).

Definition mem (x : Uuid) (l : list Uuid) : bool :=
  existsb (fun y => y =? x) l.

Definition DocumentsInLeadProjects (u : Uuid) : list Document :=
  filter (fun doc => mem (d_project_id doc) (ProjectIdsLedBy u))
         (documents st).

Definition DocumentsInMemberProjects (u : Uuid) : list Document :=
  filter (fun doc => mem (d_project_id doc) (ProjectIdsMemberOf u))
         (documents st).

Definition DocIdsInLeadProjects (u : Uuid) : list Uuid :=
  map d_id (DocumentsInLeadProjects u).

Definition DocIdsInMemberProjects (u : Uuid) : list Uuid :=
  map d_id (DocumentsInMemberProjects u).

Definition is_read (a : Action) : bool :=
  match a with read => true | _ => false end.

Definition is_update (a : Action) : bool :=
  match a with update => true | _ => false end.

(** [HasPermission(u, action, resource, ctx)], disjunct by disjunct. *)
Definition HasPermission (u : Uuid) (a : Action) (r : Resource) (c : Ctx)
  : bool :=
  IsAdmin u
  || (IsProjectLead u &&
      match r with
      | res_projects =>
          (is_read a &&
             (IsLeadOf u (project_id c) || IsMemberOf u (project_id c)))
          || (is_update a && IsLeadOf u (project_id c))
      | res_project_members => IsLeadOf u (project_id c)
      | res_documents => IsLeadOf u (project_id c)
      | res_document_versions =>
          mem (document_id c) (DocIdsInLeadProjects u)
      | res_users => false
      end)
  || (IsDeveloper u && is_read a &&
      match r with
      | res_projects => IsMemberOf u (project_id c)
      | res_project_members => IsMemberOf u (project_id c)
      | res_documents => IsMemberOf u (project_id c)
      | res_document_versions =>
          mem (document_id c) (DocIdsInMemberProjects u)
      | res_users => false
      end).

(** The decision of the Permission Engine. *)
Definition Decide (u : Uuid) (a : Action) (r : Resource) (c : Ctx)
  : Decision :=
  if HasPermission u a r c then Allow else Deny.

End Authorization.

(* ===================================================================== *)
(** * 3. The world the actions run in                                     *)
(* ===================================================================== *)

(** Write requests sent to the database, the auth service and the
    storage bucket, in the order they are issued. *)
Inductive Request : Type :=
| ReqInsertProject (p : Project)
| ReqUpdateProject (id : Uuid)
| ReqDeleteProject (id : Uuid)
| ReqInsertDocument (d : Document)
| ReqDeleteDocument (id : Uuid)
| ReqInsertVersion (v : DocumentVersion)
| ReqCreateDocumentVersion (v : DocumentVersion)
| ReqUpload (path : string) (f : File)
| ReqCreateUser (email : string)
| ReqInsertRole (r : UserRole)
| ReqUpsertRole (r : UserRole)
| ReqDeleteRoles (user_id : Uuid).

Record World : Type := {
  db : Database;
  bucket : list (string * File);
  requests : list Request
}.

Definition with_db (d : Database) (w : World) : World :=
  {| db := d; bucket := bucket w; requests := requests w |}.

Definition with_bucket (b : list (string * File)) (w : World) : World :=
  {| db := db w; bucket := b; requests := requests w |}.

(** Places where a call to an external service can fail for a reason of
    its own (network, constraint of a table not modelled, quota).  These
    are the calls whose [error] the actions inspect, and the clean-up
    delete of [uploadDocument], whose result is dropped. *)
Inductive Site : Type :=
| at_select_role | at_select_projects | at_select_project
| at_select_profiles | at_select_document
| at_insert_project | at_update_project | at_delete_project
| at_insert_document | at_insert_version | at_create_document_version
| at_cleanup_document
| at_upload | at_sign_url
| at_create_user | at_insert_role | at_upsert_role | at_delete_roles.

(** What a run takes from outside the world: the clock, the identifier
    the store gives the next row or account, the failures of the external
    calls, and the library functions the schemas and actions call
    (Zod's email check, [new Date(s)], [Date.prototype.toISOString]). *)
Record Env : Type := {
  env_now : Z;
  env_new_id : Uuid;
  env_fault : Site -> option string;
  env_is_email : string -> bool;
  env_date_parse : string -> option Z;
  env_toISOString : Z -> string
}.

(** The [{ data, error }] pair every Supabase call resolves to. *)
Inductive Response (A : Type) : Type :=
| Data (a : A)
| Error (message : string).
Arguments Data {A} a.
Arguments Error {A} message.

(** What a server action returns: [{ success: true, ... }] or
    [{ data }] or [{ url }]; [{ error }]; or an exception escapes. *)
Inductive Outcome (A : Type) : Type :=
| Success (a : A)
| Failure (error : string)
| Thrown (exn : string).
Arguments Success {A} a.
Arguments Failure {A} error.
Arguments Thrown {A} exn.

(** Actions thread the world. *)
Definition Act (A : Type) : Type := World -> A * World.

Definition ret {A : Type} (a : A) : Act A := fun w => (a, w).

Definition bind {A B : Type} (m : Act A) (k : A -> Act B) : Act B :=
  fun w => let (a, w1) := m w in k a w1.

Notation "x <- m ;; k" := (bind m (fun x => k))
  (at level 61, m at next level, right associativity).
Notation "m ;;; k" := (bind m (fun _ => k))
  (at level 61, right associativity).

(** The world after a request has been logged. *)
Definition logged (q : Request) (w : World) : World :=
  {| db := db w; bucket := bucket w; requests := requests w ++ [q] |}.

Definition send (q : Request) : Act unit := fun w => (tt, logged q w).

Definition denied : string := "AuthorizationError: permission denied".

Definition project_ctx (pid : Uuid) : Ctx :=
  {| project_id := pid; document_id := "" |}.

Definition document_ctx (pid did : Uuid) : Ctx :=
  {| project_id := pid; document_id := did |}.

(* --------------------------------------------------------------------- *)
(** ** 3.0 The row policies of the recursion fix
       (supabase/migrations, RLS recursion fix patch)                    *)
(* --------------------------------------------------------------------- *)

Section Policies.

(** The database, [auth.uid()] and [auth.jwt() ->> 'user_role']. *)
Variables (st : Database) (uid : Uuid) (user_role : option string).

Definition get_my_project_ids : list Uuid :=
  map pm_project_id
      (filter (fun m => pm_user_id m =? uid) (project_members st)).

Definition get_my_led_project_ids : list Uuid :=
  map p_id (filter (fun p => opt_eqb (p_lead_id p) uid) (projects st)).

(** [SELECT d.id FROM documents d JOIN projects p ON d.project_id = p.id
     WHERE p.lead_id = auth.uid()]. *)
Definition get_my_led_document_ids : list Uuid :=
  flat_map (fun d =>
              map (fun _ => d_id d)
                  (filter (fun p => (d_project_id d =? p_id p)
                                    && opt_eqb (p_lead_id p) uid)
                          (projects st)))
           (documents st).

Definition claims (role : string) : bool := opt_eqb user_role role.

(** "Developers can view assigned projects", FOR SELECT. *)
Definition developers_view_projects (p : Project) : bool :=
  claims "developer" && mem (p_id p) get_my_project_ids.

(** "Project leads can view assigned projects", FOR SELECT. *)
Definition leads_view_projects (p : Project) : bool :=
  claims "project_lead" && mem (p_id p) get_my_project_ids.

(** "Project leads can manage members of their projects", FOR ALL. *)
Definition leads_manage_members (m : ProjectMember) : bool :=
  claims "project_lead" && mem (pm_project_id m) get_my_led_project_ids.

(** "Developers can view members of their projects", FOR SELECT. *)
Definition members_view_members (m : ProjectMember) : bool :=
  mem (pm_project_id m) get_my_project_ids.

(** "Project leads can manage documents of their projects", FOR ALL. *)
Definition leads_manage_documents (d : Document) : bool :=
  mem (d_project_id d) get_my_led_project_ids.

(** "Members can view documents of their projects", FOR SELECT. *)
Definition members_view_documents (d : Document) : bool :=
  mem (d_project_id d) get_my_project_ids.

(** "Project leads can manage versions of their project docs", FOR ALL. *)
Definition leads_manage_versions (v : DocumentVersion) : bool :=
  mem (v_document_id v) get_my_led_document_ids.

(** "Members can view versions of their project docs", FOR SELECT. *)
Definition members_view_versions (v : DocumentVersion) : bool :=
  mem (v_document_id v)
      (map d_id (filter (fun d => mem (d_project_id d) get_my_project_ids)
                        (documents st))).

(** Policies are permissive: a command on a row passes when one policy
    for the command passes.  A FOR ALL policy covers every command, a
    FOR SELECT policy the reads. *)
Definition patch_permits_member (a : Action) (m : ProjectMember) : bool :=
  leads_manage_members m || (is_read a && members_view_members m).

Definition patch_permits_document (a : Action) (d : Document) : bool :=
  leads_manage_documents d || (is_read a && members_view_documents d).

Definition patch_permits_version (a : Action) (v : DocumentVersion) : bool :=
  leads_manage_versions v || (is_read a && members_view_versions v).

End Policies.

(** The token carries the role the table stores. *)
Definition token_role (st : Database) (u : Uuid) : option string :=
  option_map role_name (RoleOf st u).

(** The policies of the patch on a command, by the keys the command
    names: the project of the row for [projects], [project_members] and
    [documents], the document of the row for [document_versions].  The
    patch holds no policy on [user_roles] or [profiles]. *)
Definition patch_policy (st : Database) (u : Uuid) (a : Action)
           (r : Resource) (c : Ctx) : bool :=
  match r with
  | res_projects =>
      is_read a
      && (claims (token_role st u) "developer"
          || claims (token_role st u) "project_lead")
      && mem (project_id c) (get_my_project_ids st u)
  | res_project_members =>
      (claims (token_role st u) "project_lead"
       && mem (project_id c) (get_my_led_project_ids st u))
      || (is_read a && mem (project_id c) (get_my_project_ids st u))
  | res_documents =>
      mem (project_id c) (get_my_led_project_ids st u)
      || (is_read a && mem (project_id c) (get_my_project_ids st u))
  | res_document_versions =>
      mem (document_id c) (get_my_led_document_ids st u)
      || (is_read a
          && mem (document_id c)
                 (map d_id
                      (filter (fun d => mem (d_project_id d)
                                            (get_my_project_ids st u))
                              (documents st))))
  | res_users => false
  end.

(* --------------------------------------------------------------------- *)
(** ** 3.1 The user-scoped client ([createClient()])                      *)
(* --------------------------------------------------------------------- *)

(** Modelled from the spec: the initial schema migration, with the
    policies of the admins, of the writes on [projects] and of every other
    policy the patch above does not recreate, is not part of the sources.
    Those policies are taken to let pass what the Permission Engine
    allows, [Decide] on the permission predicate (spec 4.2).  Policies are
    permissive, so a command on a row passes the user-scoped client when
    the engine allows it or a policy of the patch does. *)
Definition permitted (st : Database) (u : Uuid) (a : Action)
           (r : Resource) (c : Ctx) : bool :=
  match Decide st u a r c with
  | Allow => true
  | Deny => patch_policy st u a r c
  end.

(** The check of a new row, [WITH CHECK]: an INSERT whose row does not
    pass is an error and stores nothing.  An UPDATE or a DELETE is not
    checked this way: it skips the rows that do not pass and reports no
    error (see [update_project], [delete_project], [delete_document]). *)
Definition guard (u : Uuid) (a : Action) (r : Resource) (c : Ctx)
  : Act (Response unit) :=
  fun w => if permitted (db w) u a r c
           then (Data tt, w)
           else (Error denied, w).

(** An external call that may fail on its own at [s]. *)
Definition external (env : Env) (s : Site) : Act (Response unit) :=
  fun w => match env_fault env s with
           | Some m => (Error m, w)
           | None => (Data tt, w)
           end.

(** Run [k] when the external call and the guard let the request pass. *)
Definition guarded {A : Type} (env : Env) (s : Site)
           (u : Uuid) (a : Action) (r : Resource) (c : Ctx)
           (k : Act (Response A)) : Act (Response A) :=
  e <- external env s ;;
  match e with
  | Error m => ret (Error m)
  | Data _ =>
      g <- guard u a r c ;;
      match g with
      | Error m => ret (Error m)
      | Data _ => k
      end
  end.

(** [from('user_roles').select('role').eq('user_id', u).single()]; the
    callers drop the error and read [roleData?.role]. *)
Definition select_role (env : Env) (u : Uuid) : Act (option AppRole) :=
  fun w => match env_fault env at_select_role with
           | Some _ => (None, w)
           | None => (RoleOf (db w) u, w)
           end.

Definition has_id (id : Uuid) (p : Project) : bool := p_id p =? id.

Definition duplicate_key : string :=
  "duplicate key value violates unique constraint".

(** [from('projects').insert(row)]. *)
Definition insert_project (env : Env) (u : Uuid) (p : Project)
  : Act (Response unit) :=
  send (ReqInsertProject p) ;;;
  guarded env at_insert_project u create res_projects (project_ctx (p_id p))
    (fun w =>
       if existsb (has_id (p_id p)) (projects (db w))
       then (Error duplicate_key, w)
       else (Data tt, with_db (set_projects (projects (db w) ++ [p]) (db w)) w)).

(** The columns an update may set: [updateData]. *)
Record ProjectPatch : Type := {
  set_name : option string;
  set_description : option string;
  set_deadline : option string;
  set_status : option string;
  set_lead_id : option (option Uuid)
}.

Definition or_else {A : Type} (o : option A) (d : A) : A :=
  match o with Some x => x | None => d end.

Definition patch_project (pt : ProjectPatch) (st : ProjectStatus) (p : Project)
  : Project :=
  {| p_id := p_id p;
     p_name := or_else (set_name pt) (p_name p);
     p_description := or_else (set_description pt) (p_description p);
     p_deadline := or_else (set_deadline pt) (p_deadline p);
     p_status := st;
     p_created_by := p_created_by p;
     p_lead_id := or_else (set_lead_id pt) (p_lead_id p);
     p_created_at := p_created_at p |}.

Definition invalid_enum : string :=
  "invalid input value for enum project_status".

(** [from('projects').update(updateData).eq('id', id)].  A value that
    is no [project_status] is an error of the statement; the rows the
    caller may not update are skipped without one. *)
Definition update_project (env : Env) (u : Uuid) (id : Uuid)
           (pt : ProjectPatch) : Act (Response unit) :=
  send (ReqUpdateProject id) ;;;
  e <- external env at_update_project ;;
  match e with
  | Error m => ret (Error m)
  | Data _ =>
      fun w =>
        let visible p :=
          has_id id p
          && permitted (db w) u update res_projects (project_ctx (p_id p)) in
        match set_status pt with
        | Some s =>
            match parse_status s with
            | None => (Error invalid_enum, w)
            | Some st =>
                (Data tt,
                 with_db (set_projects
                            (map (fun p => if visible p
                                           then patch_project pt st p else p)
                                 (projects (db w))) (db w)) w)
            end
        | None =>
            (Data tt,
             with_db (set_projects
                        (map (fun p => if visible p
                                       then patch_project pt (p_status p) p
                                       else p)
                             (projects (db w))) (db w)) w)
        end
  end.

(** Deleting a project removes its memberships, its documents and their
    versions (ON DELETE CASCADE; [DeleteProject] of the TLA+ model). *)
Definition cascade_delete_project (id : Uuid) (d : Database) : Database :=
  let docsToRemove := filter (fun doc => d_project_id doc =? id) (documents d) in
  let docIdsToRemove := map d_id docsToRemove in
  {| auth_users := auth_users d;
     profiles := profiles d;
     user_roles := user_roles d;
     projects := filter (fun p => negb (has_id id p)) (projects d);
     project_members :=
       filter (fun m => negb (pm_project_id m =? id)) (project_members d);
     documents :=
       filter (fun doc => negb (d_project_id doc =? id)) (documents d);
     document_versions :=
       filter (fun v => negb (mem (v_document_id v) docIdsToRemove))
              (document_versions d) |}.

(** [from('projects').delete().eq('id', id)]: the rows with this [id]
    go when the caller may delete them; when not, no row is deleted and
    no error is reported. *)
Definition delete_project (env : Env) (u : Uuid) (id : Uuid)
  : Act (Response unit) :=
  send (ReqDeleteProject id) ;;;
  e <- external env at_delete_project ;;
  match e with
  | Error m => ret (Error m)
  | Data _ =>
      fun w =>
        if permitted (db w) u delete res_projects (project_ctx id)
        then (Data tt, with_db (cascade_delete_project id (db w)) w)
        else (Data tt, w)
  end.

(** [from('documents').insert(row).select().single()]: the stored row,
    with the identifier the store gave it. *)
Definition insert_document (env : Env) (u : Uuid)
           (project title : string) : Act (Response Document) :=
  let doc := {| d_id := env_new_id env; d_project_id := project;
                d_title := title; d_current_version := 1;
                d_created_by := u |} in
  send (ReqInsertDocument doc) ;;;
  guarded env at_insert_document u create res_documents (project_ctx project)
    (fun w =>
       if existsb (fun d => d_id d =? d_id doc) (documents (db w))
       then (Error duplicate_key, w)
       else (Data doc,
             with_db (set_documents (documents (db w) ++ [doc]) (db w)) w)).

Definition cascade_delete_document (id : Uuid) (d : Database) : Database :=
  set_document_versions
    (filter (fun v => negb (v_document_id v =? id)) (document_versions d))
    (set_documents (filter (fun doc => negb (d_id doc =? id)) (documents d)) d).

(** [from('documents').delete().eq('id', id)], with the failure of its
    own the call may meet.  The row goes, with its versions, when the
    caller may delete it; when not, no row is deleted and no error is
    reported. *)
Definition delete_document (fault : option string) (u : Uuid) (id : Uuid)
  : Act (Response unit) :=
  send (ReqDeleteDocument id) ;;;
  fun w =>
    match fault with
    | Some m => (Error m, w)
    | None =>
        match find (fun d => d_id d =? id) (documents (db w)) with
        | None => (Data tt, w)
        | Some doc =>
            if permitted (db w) u delete res_documents
                         (document_ctx (d_project_id doc) id)
            then (Data tt, with_db (cascade_delete_document id (db w)) w)
            else (Data tt, w)
        end
    end.

(** [from('documents').select('*, project_id').eq('id', id).single()]:
    only rows the caller may read are visible. *)
Definition select_document (env : Env) (u : Uuid) (id : Uuid)
  : Act (Response Document) :=
  fun w =>
    match env_fault env at_select_document with
    | Some m => (Error m, w)
    | None =>
        match single (filter
                 (fun d => (d_id d =? id) &&
                           permitted (db w) u read res_documents
                             (document_ctx (d_project_id d) id))
                 (documents (db w))) with
        | Some doc => (Data doc, w)
        | None => (Error "JSON object requested, multiple (or no) rows returned", w)
        end
    end.

Definition project_of_document (d : Database) (did : Uuid) : Uuid :=
  match find (fun doc => d_id doc =? did) (documents d) with
  | Some doc => d_project_id doc
  | None => ""
  end.

(** [from('document_versions').insert(row)]. *)
Definition insert_version (env : Env) (u : Uuid) (v : DocumentVersion)
  : Act (Response unit) :=
  send (ReqInsertVersion v) ;;;
  fun w =>
    guarded env at_insert_version u create res_document_versions
      (document_ctx (project_of_document (db w) (v_document_id v))
                    (v_document_id v))
      (fun w1 =>
         (Data tt,
          with_db (set_document_versions
                     (document_versions (db w1) ++ [v]) (db w1)) w1))
      w.

Definition conflict : string :=
  "ConflictError: current_version changed".

Definition bump_version (did : Uuid) (n : Z) (d : Document) : Document :=
  if d_id d =? did
  then {| d_id := d_id d; d_project_id := d_project_id d;
          d_title := d_title d; d_current_version := n;
          d_created_by := d_created_by d |}
  else d.

(** Insert the version row and set [current_version], together. *)
Definition commit_db (v : DocumentVersion) (d : Database) : Database :=
  set_documents
    (map (bump_version (v_document_id v) (v_version v)) (documents d))
    (set_document_versions (document_versions d ++ [v]) d).

(** Modelled from the spec: the database function
    [create_document_version] is not part of the sources.  It inserts
    Version(N+1) and sets [current_version = N+1] in one step, both or
    neither, and the step is a conditional write on [current_version]
    (spec 4.3, 5): a caller whose [p_version] is not the stored
    [current_version + 1] observes a conflict. *)
Definition create_document_version (env : Env) (u : Uuid)
           (v : DocumentVersion) : Act (Response unit) :=
  send (ReqCreateDocumentVersion v) ;;;
  fun w =>
    guarded env at_create_document_version u create res_document_versions
      (document_ctx (project_of_document (db w) (v_document_id v))
                    (v_document_id v))
      (fun w1 =>
         match find (fun d => d_id d =? v_document_id v)
                    (documents (db w1)) with
         | None => (Error "document not found", w1)
         | Some doc =>
             if (v_version v =? d_current_version doc + 1)%Z
             then (Data tt, with_db (commit_db v (db w1)) w1)
             else (Error conflict, w1)
         end)
      w.

(* --------------------------------------------------------------------- *)
(** ** 3.2 The storage bucket ['documents']                               *)
(* --------------------------------------------------------------------- *)

Definition occupied (path : string) (w : World) : bool :=
  existsb (fun o => fst o =? path) (bucket w).

(** [storage.from('documents').upload(path, file, { upsert: false })]:
    an occupied path is rejected, never overwritten.  What the bucket
    refuses for a reason of its own, a refusal by its policy included, is
    a failure at [at_upload]. *)
Definition upload (env : Env) (path : string) (f : File)
  : Act (Response unit) :=
  send (ReqUpload path f) ;;;
  fun w =>
    match env_fault env at_upload with
    | Some m => (Error m, w)
    | None =>
        if occupied path w
        then (Error "The resource already exists", w)
        else (Data tt, with_bucket (bucket w ++ [(path, f)]) w)
    end.

(** What a signed URL grants: an object, for a number of seconds. *)
Record SignedUrl : Type := { su_path : string; su_expires_in : Z }.

(** Modelled from the spec: the policies of the bucket are not part of
    the sources (the security report names them as the layer that gates
    downloads).  An object is visible to a caller whom the Permission
    Engine allows the read of a version stored at its path,
    [Decide(actor, Read, Version, {documentId}) = Allow] (spec 4.3,
    Download); a request without a session sees no object. *)
Definition may_download (st : Database) (session : option Uuid)
           (path : string) : bool :=
  match session with
  | None => false
  | Some u =>
      existsb (fun v =>
                 (v_storage_path v =? path)
                 && HasPermission st u read res_document_versions
                      (document_ctx (project_of_document st (v_document_id v))
                                    (v_document_id v)))
              (document_versions st)
  end.

(** [storage.from('documents').createSignedUrl(path, expiresIn)] through
    the user-scoped client, which carries the session of the caller: an
    object the caller does not see is reported as not found. *)
Definition createSignedUrl (env : Env) (session : option Uuid)
           (path : string) (expiresIn : Z) : Act (Response SignedUrl) :=
  fun w =>
    match env_fault env at_sign_url with
    | Some m => (Error m, w)
    | None =>
        if occupied path w && may_download (db w) session path
        then (Data {| su_path := path; su_expires_in := expiresIn |}, w)
        else (Error "Object not found", w)
    end.

(* --------------------------------------------------------------------- *)
(** ** 3.3 The service-role client ([createAdminClient()])                *)
(* --------------------------------------------------------------------- *)

(** The service-role client bypasses the row policies: no guard. *)

Fixpoint insert_desc (p : Project) (l : list Project) : list Project :=
  match l with
  | [] => [p]
  | q :: l' =>
      if (p_created_at q <=? p_created_at p)%Z
      then p :: l
      else q :: insert_desc p l'
  end.

(** [.order('created_at', { ascending: false })]. *)
Definition order_created_at_desc (l : list Project) : list Project :=
  fold_right insert_desc [] l.

Definition members_of (d : Database) (pid : Uuid) : list ProjectMember :=
  filter (fun m => pm_project_id m =? pid) (project_members d).

(** [adminClient.from('projects').select('*, project_members(...)')
      .order('created_at', { ascending: false })]. *)
Definition admin_select_projects (env : Env)
  : Act (Response (list (Project * list ProjectMember))) :=
  fun w =>
    match env_fault env at_select_projects with
    | Some m => (Error m, w)
    | None =>
        (Data (map (fun p => (p, members_of (db w) (p_id p)))
                   (order_created_at_desc (projects (db w)))), w)
    end.

(** The [error] of a failed single-row read: PostgREST's code and message. *)
Record PgError : Type := { code : string; message : string }.

Inductive OneRow (A : Type) : Type :=
| Row (a : A)
| NoRow (e : PgError).
Arguments Row {A} a.
Arguments NoRow {A} e.

(** [adminClient.from('projects').select(...).eq('id', id).single()]. *)
Definition admin_select_project (env : Env) (id : Uuid)
  : Act (OneRow (Project * list ProjectMember)) :=
  fun w =>
    match env_fault env at_select_project with
    | Some m => (NoRow {| code := "XX000"; message := m |}, w)
    | None =>
        match single (filter (has_id id) (projects (db w))) with
        | Some p => (Row (p, members_of (db w) (p_id p)), w)
        | None =>
            (NoRow {| code := "PGRST116";
                      message :=
                        "JSON object requested, multiple (or no) rows returned" |},
             w)
        end
    end.

(** [adminClient.from('profiles').select('id, full_name, email')
      .in('id', ids)]; [null] on failure. *)
Definition admin_select_profiles_in (env : Env) (ids : list Uuid)
  : Act (option (list Profile)) :=
  fun w =>
    match env_fault env at_select_profiles with
    | Some _ => (None, w)
    | None => (Some (filter (fun p => mem (pr_id p) ids) (profiles (db w))), w)
    end.

(** [adminClient.from('profiles').select(...).eq('id', id).single()];
    [null] on failure. *)
Definition admin_select_profile (env : Env) (id : Uuid)
  : Act (option Profile) :=
  fun w =>
    match env_fault env at_select_profiles with
    | Some _ => (None, w)
    | None => (single (filter (fun p => pr_id p =? id) (profiles (db w))), w)
    end.

(** [adminClient.auth.admin.createUser({ email, password,
      email_confirm, user_metadata })]: a registered email is refused;
    [data.user] is the new account. *)
Definition admin_create_user (env : Env) (email full_name : string)
  : Act (Response (option AuthUser)) :=
  send (ReqCreateUser email) ;;;
  fun w =>
    match env_fault env at_create_user with
    | Some m => (Error m, w)
    | None =>
        if existsb (fun a => (au_email a =? email) || (au_id a =? env_new_id env))
                   (auth_users (db w))
        then (Error "A user with this email address has already been registered",
              w)
        else
          let a := {| au_id := env_new_id env; au_email := email;
                      au_full_name := full_name |} in
          (Data (Some a),
           with_db (set_auth_users (auth_users (db w) ++ [a]) (db w)) w)
    end.

(** Modelled from the spec: the declaration of the table [user_roles] is
    not part of the sources.  The role is a one-to-many association of
    the user, and that a user holds one role is a convention kept only by
    the upsert logic (spec 9): no constraint limits a user to one row.
    The unique key is the pair the actions name as conflict target,
    [(user_id, role)]. *)
Definition same_role_row (r q : UserRole) : bool :=
  (ur_user_id q =? ur_user_id r) && AppRole_eqb (ur_role q) (ur_role r).

(** [adminClient.from('user_roles').insert(row)]. *)
Definition admin_insert_role (env : Env) (r : UserRole)
  : Act (Response unit) :=
  send (ReqInsertRole r) ;;;
  fun w =>
    match env_fault env at_insert_role with
    | Some m => (Error m, w)
    | None =>
        if existsb (same_role_row r) (user_roles (db w))
        then (Error duplicate_key, w)
        else (Data tt,
              with_db (set_user_roles (user_roles (db w) ++ [r]) (db w)) w)
    end.

(** [adminClient.from('user_roles').upsert(row,
      { onConflict: 'user_id,role' })]: a row with the same
    [(user_id, role)] is updated in place, any other row is inserted. *)
Definition admin_upsert_role (env : Env) (r : UserRole)
  : Act (Response unit) :=
  send (ReqUpsertRole r) ;;;
  fun w =>
    match env_fault env at_upsert_role with
    | Some m => (Error m, w)
    | None =>
        if existsb (same_role_row r) (user_roles (db w))
        then (Data tt,
              with_db (set_user_roles
                         (map (fun q => if same_role_row r q then r else q)
                              (user_roles (db w))) (db w)) w)
        else (Data tt,
              with_db (set_user_roles (user_roles (db w) ++ [r]) (db w)) w)
    end.

(** [adminClient.from('user_roles').delete().eq('user_id', u)]. *)
Definition admin_delete_roles (env : Env) (u : Uuid) : Act (Response unit) :=
  send (ReqDeleteRoles u) ;;;
  fun w =>
    match env_fault env at_delete_roles with
    | Some m => (Error m, w)
    | None =>
        (Data tt,
         with_db (set_user_roles
                    (filter (fun q => negb (ur_user_id q =? u))
                            (user_roles (db w))) (db w)) w)
    end.

(* ===================================================================== *)
(** * 4. Validation schemas (src/lib/validations.ts)                      *)
(* ===================================================================== *)

Definition is_hex (c : ascii) : bool :=
  let n := nat_of_ascii c in
  (Nat.leb 48 n && Nat.leb n 57)
  || (Nat.leb 65 n && Nat.leb n 70)
  || (Nat.leb 97 n && Nat.leb n 102).

(** Consume [n] hexadecimal digits. *)
Fixpoint hex_run (n : nat) (s : string) : option string :=
  match n with
  | O => Some s
  | S n' =>
      match s with
      | String c r => if is_hex c then hex_run n' r else None
      | EmptyString => None
      end
  end.

Definition dash_then (n : nat) (s : option string) : option string :=
  match s with
  | Some (String "-" r) => hex_run n r
  | _ => None
  end.

(** [z.string().uuid()]: the 8-4-4-4-12 hexadecimal pattern. *)
Definition is_uuid (s : string) : bool :=
  match dash_then 12 (dash_then 4 (dash_then 4 (dash_then 4 (hex_run 8 s)))) with
  | Some EmptyString => true
  | _ => false
  end.

Definition in_class (lo hi : nat) (c : ascii) : bool :=
  Nat.leb lo (nat_of_ascii c) && Nat.leb (nat_of_ascii c) hi.

Definition is_lower := in_class 97 122.
Definition is_upper := in_class 65 90.
Definition is_digit := in_class 48 57.

Definition has_char (p : ascii -> bool) (s : string) : bool :=
  existsb p (list_ascii_of_string s).

Definition too_long (n : nat) : string :=
  "String must contain at most "
    ++ NilZero.string_of_uint (Nat.to_uint n) ++ " character(s)".

Record CreateProjectForm : Type := {
  cp_name : string;
  cp_description : string;
  cp_deadline : string;
  cp_lead_id : option string
}.

(** [createProjectSchema.safeParse(formData)]: the parsed data, or the
    message of the first issue. *)
Definition createProjectSchema (env : Env) (f : CreateProjectForm)
  : Response CreateProjectForm :=
  if Nat.ltb (String.length (cp_name f)) 2
  then Error "Project name must be at least 2 characters"
  else if Nat.ltb 100 (String.length (cp_name f))
  then Error (too_long 100)
  else if Nat.ltb (String.length (cp_description f)) 10
  then Error "Description must be at least 10 characters"
  else if Nat.ltb 2000 (String.length (cp_description f))
  then Error (too_long 2000)
  else if negb (match env_date_parse env (cp_deadline f) with
                | Some t => (env_now env <? t)%Z
                | None => false
                end)
  then Error "Deadline must be a future date"
  else match cp_lead_id f with
       | None => Data f
       | Some l => if is_uuid l || (l =? "") then Data f
                   else Error "Invalid input"
       end.

Record CreateUserForm : Type := {
  cu_email : string;
  cu_password : string;
  cu_full_name : string;
  cu_role : string
}.

Record ParsedUser : Type := {
  pu_email : string;
  pu_password : string;
  pu_full_name : string;
  pu_role : AppRole
}.

Definition invalid_role (s : string) : string :=
  "Invalid enum value. Expected 'admin' | 'project_lead' | 'developer', received '"
    ++ s ++ "'".

(** [createUserSchema.safeParse(formData)]. *)
Definition createUserSchema (env : Env) (f : CreateUserForm)
  : Response ParsedUser :=
  if negb (env_is_email env (cu_email f))
  then Error "Please enter a valid email address"
  else if Nat.ltb (String.length (cu_password f)) 8
  then Error "Password must be at least 8 characters"
  else if negb (has_char is_lower (cu_password f))
  then Error "Password must contain a lowercase letter"
  else if negb (has_char is_upper (cu_password f))
  then Error "Password must contain an uppercase letter"
  else if negb (has_char is_digit (cu_password f))
  then Error "Password must contain a number"
  else if negb (has_char (fun c => negb (is_lower c || is_upper c || is_digit c))
                         (cu_password f))
  then Error "Password must contain a special character"
  else if Nat.ltb (String.length (cu_full_name f)) 2
  then Error "Name must be at least 2 characters"
  else match parse_role (cu_role f) with
       | Some r => Data {| pu_email := cu_email f;
                           pu_password := cu_password f;
                           pu_full_name := cu_full_name f;
                           pu_role := r |}
       | None => Error (invalid_role (cu_role f))
       end.

Record UpdateUserRoleForm : Type := { uf_user_id : string; uf_role : string }.

(** [updateUserRoleSchema.safeParse(formData)]. *)
Definition updateUserRoleSchema (f : UpdateUserRoleForm) : Response UserRole :=
  if negb (is_uuid (uf_user_id f)) then Error "Invalid uuid"
  else match parse_role (uf_role f) with
       | Some r => Data {| ur_user_id := uf_user_id f; ur_role := r |}
       | None => Error (invalid_role (uf_role f))
       end.

(* ===================================================================== *)
(** * 5. Project actions (src/actions/projects.ts)                        *)
(* ===================================================================== *)

(** [supabase.auth.getUser()] yields the session's user or [null]: the
    actions take it as [session]. *)
Definition Session := option Uuid.

(** [s || null], and the truthiness test [if (s)]. *)
Definition truthy (o : option string) : option string :=
  match o with
  | Some s => if s =? "" then None else Some s
  | None => None
  end.

Definition range_error : string := "RangeError: Invalid time value".

Definition createProject (env : Env) (session : Session)
           (formData : CreateProjectForm) : Act (Outcome unit) :=
  match createProjectSchema env formData with
  | Error m => ret (Failure m)
  | Data parsed =>
      match session with
      | None => ret (Failure "Unauthorized")
      | Some user =>
          match env_date_parse env (cp_deadline parsed) with
          | None => ret (Thrown range_error)
          | Some t =>
              r <- insert_project env user
                     {| p_id := env_new_id env;
                        p_name := cp_name parsed;
                        p_description := cp_description parsed;
                        p_deadline := env_toISOString env t;
                        p_status := active;
                        p_created_by := user;
                        p_lead_id := truthy (cp_lead_id parsed);
                        p_created_at := env_now env |} ;;
              match r with
              | Error m => ret (Failure m)
              | Data _ => ret (Success tt)
              end
          end
      end
  end.

(** [Partial<{ name, description, deadline, status, lead_id }>]. *)
Record UpdateProjectForm : Type := {
  up_name : option string;
  up_description : option string;
  up_deadline : option string;
  up_status : option string;
  up_lead_id : option string
}.

Definition updateProject (env : Env) (session : Session) (projectId : Uuid)
           (formData : UpdateProjectForm) : Act (Outcome unit) :=
  match session with
  | None => ret (Failure "Unauthorized")
  | Some user =>
      let go (deadline : option string) :=
        let updateData :=
          {| set_name := truthy (up_name formData);
             set_description := truthy (up_description formData);
             set_deadline := deadline;
             set_status := truthy (up_status formData);
             set_lead_id :=
               match up_lead_id formData with
               | None => None
               | Some l => Some (truthy (Some l))
               end |} in
        r <- update_project env user projectId updateData ;;
        match r with
        | Error m => ret (Failure m)
        | Data _ => ret (Success tt)
        end in
      match truthy (up_deadline formData) with
      | None => go None
      | Some s =>
          match env_date_parse env s with
          | None => ret (Thrown range_error)
          | Some t => go (Some (env_toISOString env t))
          end
      end
  end.

Definition status_only (s : string) : UpdateProjectForm :=
  {| up_name := None; up_description := None; up_deadline := None;
     up_status := Some s; up_lead_id := None |}.

Definition markProjectComplete (env : Env) (session : Session)
           (projectId : Uuid) : Act (Outcome unit) :=
  updateProject env session projectId (status_only "completed").

Definition markProjectActive (env : Env) (session : Session)
           (projectId : Uuid) : Act (Outcome unit) :=
  updateProject env session projectId (status_only "active").

Definition deleteProject (env : Env) (session : Session) (projectId : Uuid)
  : Act (Outcome unit) :=
  match session with
  | None => ret (Failure "Unauthorized")
  | Some user =>
      r <- delete_project env user projectId ;;
      match r with
      | Error m => ret (Failure m)
      | Data _ => ret (Success tt)
      end
  end.

(** [roleData?.role || 'developer']. *)
Definition role_or_developer (roleData : option AppRole) : AppRole :=
  match roleData with Some r => r | None => developer end.

(** An element of the list [getProjects] returns:
    [{ ...p, lead, member_count }]. *)
Record ProjectListItem : Type := {
  li_project : Project;
  li_project_members : list ProjectMember;
  li_lead : option Profile;
  li_member_count : nat
}.

(** [record[id]] after [profiles.forEach(p => { record[p.id] = p })]. *)
Definition profile_at (ps : list Profile) (id : Uuid) : option Profile :=
  find (fun p => pr_id p =? id) (rev ps).

Definition is_member (user : Uuid) (ms : list ProjectMember) : bool :=
  existsb (fun m => pm_user_id m =? user) ms.

Definition getProjects (env : Env) (session : Session)
  : Act (Outcome (list ProjectListItem)) :=
  match session with
  | None => ret (Failure "Unauthorized")
  | Some user =>
      roleData <- select_role env user ;;
      let userRole := role_or_developer roleData in
      r <- admin_select_projects env ;;
      match r with
      | Error m => ret (Failure m)
      | Data data =>
          let leadIds :=
            flat_map (fun p => match truthy (p_lead_id (fst p)) with
                               | Some l => [l]
                               | None => []
                               end) data in
          leadProfiles <-
            (if Nat.ltb 0 (List.length leadIds)
             then ps <- admin_select_profiles_in env leadIds ;;
                  ret (or_else ps [])
             else ret []) ;;
          let filteredProjects :=
            if negb (AppRole_eqb userRole admin)
            then filter (fun p => opt_eqb (p_lead_id (fst p)) user
                                  || is_member user (snd p)) data
            else data in
          ret (Success
                 (map (fun p =>
                         {| li_project := fst p;
                            li_project_members := snd p;
                            li_lead :=
                              match truthy (p_lead_id (fst p)) with
                              | Some l => profile_at leadProfiles l
                              | None => None
                              end;
                            li_member_count := List.length (snd p) |})
                      filteredProjects))
      end
  end.

(** What [getProject] returns as [data]:
    [{ ...data, lead, project_members: membersWithProfiles }]. *)
Record ProjectDetail : Type := {
  pd_project : Project;
  pd_lead : option Profile;
  pd_project_members : list (ProjectMember * option Profile)
}.

Definition getProject (env : Env) (session : Session) (projectId : Uuid)
  : Act (Outcome ProjectDetail) :=
  match session with
  | None => ret (Failure "Unauthorized")
  | Some user =>
      roleData <- select_role env user ;;
      let userRole := role_or_developer roleData in
      r <- admin_select_project env projectId ;;
      match r with
      | NoRow e =>
          if code e =? "PGRST116"
          then ret (Failure "Project not found")
          else ret (Failure (message e))
      | Row data =>
          lead <- match truthy (p_lead_id (fst data)) with
                  | Some l => admin_select_profile env l
                  | None => ret None
                  end ;;
          let memberUserIds := map pm_user_id (snd data) in
          memberProfiles <-
            (if Nat.ltb 0 (List.length memberUserIds)
             then ps <- admin_select_profiles_in env memberUserIds ;;
                  ret (or_else ps [])
             else ret []) ;;
          let membersWithProfiles :=
            map (fun m => (m, profile_at memberProfiles (pm_user_id m)))
                (snd data) in
          let projectWithLead :=
            {| pd_project := fst data; pd_lead := lead;
               pd_project_members := membersWithProfiles |} in
          if AppRole_eqb userRole admin
          then ret (Success projectWithLead)
          else if opt_eqb (p_lead_id (fst data)) user
          then ret (Success projectWithLead)
          else if is_member user (snd data)
          then ret (Success projectWithLead)
          else ret (Failure
                      "Access denied - you are not a member of this project")
      end
  end.

(* ===================================================================== *)
(** * 6. Document actions (src/actions/documents.ts)                      *)
(* ===================================================================== *)

(** [formData.get('file') as File]. *)
Record FormData : Type := { get_file : option File }.

Definition no_file : string := "Please select a file to upload".
Definition short_title : string :=
  "Document title must be at least 2 characters".
Definition big_file : string := "File size must be less than 50MB".

(** Max file size: 50MB. *)
Definition max_file_size : N := 52428800.

(** [file.type || 'application/octet-stream']. *)
Definition mime_of (f : File) : string :=
  if f_type f =? "" then "application/octet-stream" else f_type f.

(** The decimal numeral a template literal prints for an integer. *)
Definition decimal (z : Z) : string := NilZero.string_of_int (Z.to_int z).

Definition uploadDocument (env : Env) (session : Session)
           (projectId : Uuid) (title : string) (formData : FormData)
  : Act (Outcome Uuid) :=
  match session with
  | None => ret (Failure "Unauthorized")
  | Some user =>
      match get_file formData with
      | None => ret (Failure no_file)
      | Some file =>
          if (f_size file =? 0)%N then ret (Failure no_file)
          else if Nat.ltb (String.length title) 2
          then ret (Failure short_title)
          else if (max_file_size <? f_size file)%N
          then ret (Failure big_file)
          else
            r <- insert_document env user projectId title ;;
            match r with
            | Error docError => ret (Failure docError)
            | Data doc =>
                let storagePath :=
                  (projectId ++ "/" ++ d_id doc ++ "/v1-" ++ f_name file)%string in
                up <- upload env storagePath file ;;
                match up with
                | Error uploadError =>
                    delete_document (env_fault env at_cleanup_document)
                                    user (d_id doc) ;;;
                    ret (Failure ("Upload failed: " ++ uploadError)%string)
                | Data _ =>
                    vr <- insert_version env user
                            {| v_document_id := d_id doc;
                               v_version := 1;
                               v_storage_path := storagePath;
                               v_file_name := f_name file;
                               v_file_size := f_size file;
                               v_mime_type := mime_of file;
                               v_uploaded_by := user |} ;;
                    match vr with
                    | Error versionError =>
                        ret (Failure
                               ("Version record failed: " ++ versionError)%string)
                    | Data _ => ret (Success (d_id doc))
                    end
                end
            end
      end
  end.

(** [uploadNewVersion] up to and including the read of the document. *)
Definition fetch_current (env : Env) (session : Session) (documentId : Uuid)
           (formData : FormData) : Act (Outcome (Uuid * File * Document)) :=
  match session with
  | None => ret (Failure "Unauthorized")
  | Some user =>
      match get_file formData with
      | None => ret (Failure no_file)
      | Some file =>
          if (f_size file =? 0)%N then ret (Failure no_file)
          else if (max_file_size <? f_size file)%N
          then ret (Failure big_file)
          else
            r <- select_document env user documentId ;;
            match r with
            | Error _ => ret (Failure "Document not found")
            | Data doc => ret (Success (user, file, doc))
            end
      end
  end.

(** The arguments of the upload and of the database function, computed
    from the document that was read:
    [newVersion = doc.current_version + 1] and
    [storagePath = `${doc.project_id}/${documentId}/v${newVersion}-${file.name}`]. *)
Definition next_version (user : Uuid) (file : File) (doc : Document)
           (documentId : Uuid) : DocumentVersion :=
  let newVersion := (d_current_version doc + 1)%Z in
  let storagePath :=
    (d_project_id doc ++ "/" ++ documentId ++ "/v" ++ decimal newVersion
                  ++ "-" ++ f_name file)%string in
  {| v_document_id := documentId;
     v_version := newVersion;
     v_storage_path := storagePath;
     v_file_name := f_name file;
     v_file_size := f_size file;
     v_mime_type := mime_of file;
     v_uploaded_by := user |}.

(** The upload to storage. *)
Definition upload_version (env : Env) (file : File) (v : DocumentVersion)
  : Act (Outcome unit) :=
  up <- upload env (v_storage_path v) file ;;
  match up with
  | Error uploadError => ret (Failure ("Upload failed: " ++ uploadError)%string)
  | Data _ => ret (Success tt)
  end.

(** The call of [create_document_version]. *)
Definition commit_version (env : Env) (user : Uuid) (v : DocumentVersion)
  : Act (Outcome unit) :=
  r <- create_document_version env user v ;;
  match r with
  | Error versionError =>
      ret (Failure ("Version creation failed: " ++ versionError)%string)
  | Data _ => ret (Success tt)
  end.

Definition uploadNewVersion (env : Env) (session : Session)
           (documentId : Uuid) (formData : FormData) : Act (Outcome unit) :=
  f <- fetch_current env session documentId formData ;;
  match f with
  | Failure e => ret (Failure e)
  | Thrown x => ret (Thrown x)
  | Success (user, file, doc) =>
      let v := next_version user file doc documentId in
      up <- upload_version env file v ;;
      match up with
      | Failure e => ret (Failure e)
      | Thrown x => ret (Thrown x)
      | Success _ => commit_version env user v
      end
  end.

(** 1 hour expiry.  The action reads no user and asks for no decision;
    [createClient()] hands the session to the storage call. *)
Definition getDocumentDownloadUrl (env : Env) (session : Session)
           (storagePath : string) : Act (Outcome SignedUrl) :=
  r <- createSignedUrl env session storagePath 3600 ;;
  match r with
  | Error m => ret (Failure m)
  | Data signedUrl => ret (Success signedUrl)
  end.

(* ===================================================================== *)
(** * 7. User actions (src/actions/users.ts)                              *)
(* ===================================================================== *)

(** [roleData?.role !== 'admin']. *)
Definition not_admin (roleData : option AppRole) : bool :=
  match roleData with
  | Some r => negb (AppRole_eqb r admin)
  | None => true
  end.

Definition createUser (env : Env) (session : Session)
           (formData : CreateUserForm) : Act (Outcome Uuid) :=
  match createUserSchema env formData with
  | Error m => ret (Failure m)
  | Data parsed =>
      match session with
      | None => ret (Failure "Unauthorized")
      | Some user =>
          roleData <- select_role env user ;;
          if not_admin roleData
          then ret (Failure "Only admins can create users")
          else
            c <- admin_create_user env (pu_email parsed)
                                   (pu_full_name parsed) ;;
            match c with
            | Error createError => ret (Failure createError)
            | Data None => ret (Failure "Failed to create user")
            | Data (Some newUser) =>
                r <- admin_insert_role env
                       {| ur_user_id := au_id newUser;
                          ur_role := pu_role parsed |} ;;
                match r with
                | Error roleError =>
                    ret (Failure
                           ("User created but failed to assign role: "
                              ++ roleError)%string)
                | Data _ => ret (Success (au_id newUser))
                end
            end
      end
  end.

Definition updateUserRole (env : Env) (session : Session)
           (formData : UpdateUserRoleForm) : Act (Outcome unit) :=
  match updateUserRoleSchema formData with
  | Error m => ret (Failure m)
  | Data parsed =>
      match session with
      | None => ret (Failure "Unauthorized")
      | Some user =>
          roleData <- select_role env user ;;
          if not_admin roleData
          then ret (Failure "Only admins can update roles")
          else
            up <- admin_upsert_role env parsed ;;
            match up with
            | Data _ => ret (Success tt)
            | Error _ =>
                del <- admin_delete_roles env (ur_user_id parsed) ;;
                match del with
                | Error deleteError => ret (Failure deleteError)
                | Data _ =>
                    ins <- admin_insert_role env parsed ;;
                    match ins with
                    | Error insertError => ret (Failure insertError)
                    | Data _ => ret (Success tt)
                    end
                end
            end
      end
  end.

(* ===================================================================== *)
(** * 8. Two calls of [uploadNewVersion] in flight                        *)
(* ===================================================================== *)

(** A server action runs to its next [await] and yields; two calls
    interleave at those points.  A call that has read the document is
    about to upload, then about to call the database function, then has
    returned. *)
Inductive Call : Type :=
| Fetched (user : Uuid) (file : File) (v : DocumentVersion)
| Uploaded (user : Uuid) (v : DocumentVersion)
| Returned (r : Outcome unit).

Definition step_call (env : Env) (c : Call) : Act Call :=
  match c with
  | Fetched user file v =>
      up <- upload_version env file v ;;
      match up with
      | Success _ => ret (Uploaded user v)
      | Failure e => ret (Returned (Failure e))
      | Thrown x => ret (Returned (Thrown x))
      end
  | Uploaded user v =>
      r <- commit_version env user v ;;
      ret (Returned r)
  | Returned r => ret (Returned r)
  end.

(** The state of a call once the document has been read. *)
Definition issue (env : Env) (session : Session) (documentId : Uuid)
           (formData : FormData) : Act Call :=
  f <- fetch_current env session documentId formData ;;
  match f with
  | Failure e => ret (Returned (Failure e))
  | Thrown x => ret (Returned (Thrown x))
  | Success (user, file, doc) =>
      ret (Fetched user file (next_version user file doc documentId))
  end.

Record Race : Type := { first : Call; second : Call; world : World }.

(** One scheduling decision: [true] lets the first call run to its next
    [await], [false] the second. *)
Definition step_race (env1 env2 : Env) (pick : bool) (s : Race) : Race :=
  if pick
  then let (c, w) := step_call env1 (first s) (world s) in
       {| first := c; second := second s; world := w |}
  else let (c, w) := step_call env2 (second s) (world s) in
       {| first := first s; second := c; world := w |}.

Definition run_race (env1 env2 : Env) (schedule : list bool) (s : Race)
  : Race :=
  fold_left (fun s pick => step_race env1 env2 pick s) schedule s.

Definition committed (c : Call) : bool :=
  match c with Returned (Success _) => true | _ => false end.

Definition returned (c : Call) : bool :=
  match c with Returned _ => true | _ => false end.

(** The [await]s a call still has before it returns. *)
Definition steps_left (c : Call) : nat :=
  match c with
  | Fetched _ _ _ => 2
  | Uploaded _ _ => 1
  | Returned _ => 0
  end.

(** The turns a schedule gives to the first ([true]) or second call. *)
Definition turns (pick : bool) (schedule : list bool) : nat :=
  List.length (filter (Bool.eqb pick) schedule).

Definition lost_race (c : Call) : Prop :=
  c = Returned (Failure ("Version creation failed: " ++ conflict)%string).

Definition upload_failed (c : Call) : Prop :=
  exists m, c = Returned (Failure ("Upload failed: " ++ m)%string).

(** The stored [current_version] of a document. *)
Definition current_version (d : Database) (did : Uuid) : option Z :=
  option_map d_current_version
             (find (fun doc => d_id doc =? did) (documents d)).

Definition versions_numbered (d : Database) (did : Uuid) (n : Z)
  : list DocumentVersion :=
  filter (fun v => (v_document_id v =? did) && (v_version v =? n)%Z)
         (document_versions d).

(** A caller may add versions to the document: the decision on the
    creation of a version is Allow, and the database function does not
    fail for a reason of its own. *)
Definition may_add_versions (d : Database) (doc : Document)
           (documentId : Uuid) (env : Env) (user : Uuid) : Prop :=
  env_fault env at_create_document_version = None
  /\ Decide d user create res_document_versions
            (document_ctx (d_project_id doc) documentId) = Allow.

(** A call that has neither committed nor met the database function:
    it is about to upload, about to commit, or its upload failed. *)
Inductive pending (user : Uuid) (file : File) (v : DocumentVersion)
  : Call -> Prop :=
| pending_upload : pending user file v (Fetched user file v)
| pending_commit : pending user file v (Uploaded user v)
| pending_failed : forall m,
    pending user file v
            (Returned (Failure ("Upload failed: " ++ m)%string)).

(** A call beside a committed one: still pending, or turned away by the
    database function with the conflict error. *)
Inductive beaten (user : Uuid) (file : File) (v : DocumentVersion)
  : Call -> Prop :=
| beaten_pending : forall c, pending user file v c -> beaten user file v c
| beaten_lost :
    beaten user file v
           (Returned (Failure ("Version creation failed: " ++ conflict)%string)).

(** The states two calls that read the same document can reach: nobody
    has committed and the tables are as at the start, or exactly one call
    has committed its version. *)
Inductive race_states (d : Database)
          (user1 : Uuid) (file1 : File) (v1 : DocumentVersion)
          (user2 : Uuid) (file2 : File) (v2 : DocumentVersion)
  : Race -> Prop :=
| nobody_committed : forall c1 c2 w,
    pending user1 file1 v1 c1 -> pending user2 file2 v2 c2 ->
    db w = d ->
    race_states d user1 file1 v1 user2 file2 v2
                {| first := c1; second := c2; world := w |}
| first_committed : forall c2 w,
    beaten user2 file2 v2 c2 ->
    db w = commit_db v1 d ->
    race_states d user1 file1 v1 user2 file2 v2
                {| first := Returned (Success tt); second := c2; world := w |}
| second_committed : forall c1 w,
    beaten user1 file1 v1 c1 ->
    db w = commit_db v2 d ->
    race_states d user1 file1 v1 user2 file2 v2
                {| first := c1; second := Returned (Success tt); world := w |}.

(* ===================================================================== *)
(** * 9. Sample data                                                      *)
(* ===================================================================== *)

Definition alice : Uuid := "a0000000-0000-4000-8000-000000000001".
Definition lisa : Uuid := "a0000000-0000-4000-8000-000000000002".
Definition david : Uuid := "a0000000-0000-4000-8000-000000000003".
Definition nora : Uuid := "a0000000-0000-4000-8000-000000000004".
Definition dana : Uuid := "a0000000-0000-4000-8000-000000000005".
Definition quest : Uuid := "c0000000-0000-4000-8000-000000000001".
Definition design : Uuid := "d0000000-0000-4000-8000-000000000001".
Definition unused_id : Uuid := "e0000000-0000-4000-8000-000000000001".

Definition design_v1 : File :=
  {| f_name := "design.pdf"; f_size := 2048; f_type := "application/pdf" |}.

Definition design_v2 : File :=
  {| f_name := "design-rev.pdf"; f_size := 4096; f_type := "application/pdf" |}.

Definition design_v2b : File :=
  {| f_name := "design-alt.pdf"; f_size := 1024; f_type := "" |}.

(** 61 MiB. *)
Definition oversized : File :=
  {| f_name := "trailer.zip"; f_size := 63963136; f_type := "application/zip" |}.

Definition design_v1_path : string :=
  "c0000000-0000-4000-8000-000000000001/d0000000-0000-4000-8000-000000000001/v1-design.pdf".

Definition design_doc : Document :=
  {| d_id := design; d_project_id := quest;
     d_title := "Game Design Document";
     d_current_version := 1; d_created_by := lisa |}.

Definition account (id : Uuid) (name : string) : AuthUser :=
  {| au_id := id; au_email := (name ++ "@pixelforge.dev")%string;
     au_full_name := name |}.

Definition profile (id : Uuid) (name : string) : Profile :=
  {| pr_id := id; pr_full_name := name;
     pr_email := (name ++ "@pixelforge.dev")%string |}.

(** Alice administers, Lisa leads the one project, David and Nora are its
    members, Dana is a developer outside it; Nora has no row in
    [user_roles]. *)
Definition sample_db : Database :=
  {| auth_users := [account alice "alice"; account lisa "lisa";
                    account david "david"; account nora "nora";
                    account dana "dana"];
     profiles := [profile alice "alice"; profile lisa "lisa";
                  profile david "david"; profile nora "nora";
                  profile dana "dana"];
     user_roles := [ {| ur_user_id := alice; ur_role := admin |};
                     {| ur_user_id := lisa; ur_role := project_lead |};
                     {| ur_user_id := david; ur_role := developer |};
                     {| ur_user_id := dana; ur_role := developer |} ];
     projects := [ {| p_id := quest; p_name := "Dragon's Quest RPG";
                      p_description := "An epic role-playing game";
                      p_deadline := "2030-01-01T00:00:00.000Z";
                      p_status := active; p_created_by := alice;
                      p_lead_id := Some lisa; p_created_at := 100 |} ];
     project_members :=
       [ {| pm_id := "b0000000-0000-4000-8000-000000000001";
            pm_project_id := quest; pm_user_id := david;
            pm_assigned_at := 110 |};
         {| pm_id := "b0000000-0000-4000-8000-000000000002";
            pm_project_id := quest; pm_user_id := nora;
            pm_assigned_at := 120 |} ];
     documents := [ design_doc ];
     document_versions :=
       [ {| v_document_id := design; v_version := 1;
            v_storage_path := design_v1_path;
            v_file_name := "design.pdf"; v_file_size := 2048;
            v_mime_type := "application/pdf"; v_uploaded_by := lisa |} ] |}.

Definition sample_world : World :=
  {| db := sample_db; bucket := [(design_v1_path, design_v1)];
     requests := [] |}.

(** Lisa and Alice have both read the design document at version 1. *)
Definition both_read : Race :=
  {| first := Fetched lisa design_v2
                      (next_version lisa design_v2 design_doc design);
     second := Fetched alice design_v2b
                       (next_version alice design_v2b design_doc design);
     world := sample_world |}.

Definition eve_form : CreateUserForm :=
  {| cu_email := "eve@pixelforge.dev"; cu_password := "Eve@2024!Secure";
     cu_full_name := "Eve"; cu_role := "developer" |}.

Definition eve : AuthUser :=
  {| au_id := unused_id; au_email := "eve@pixelforge.dev";
     au_full_name := "Eve" |}.

Definition no_fault : Site -> option string := fun _ => None.

Definition sample_env_with (fault : Site -> option string) : Env :=
  {| env_now := 1000;
     env_new_id := unused_id;
     env_fault := fault;
     env_is_email := has_char (fun c => Ascii.eqb c "@");
     env_date_parse :=
       fun s => if s =? "2030-01-01" then Some 1893456000000%Z else None;
     env_toISOString := fun _ => "2030-01-01T00:00:00.000Z" |}.

Definition sample_env : Env := sample_env_with no_fault.

Definition storage_down : Site -> option string :=
  fun s => match s with at_upload => Some "storage unavailable" | _ => None end.

Definition roles_down : Site -> option string :=
  fun s => match s with at_insert_role => Some "connection reset" | _ => None end.

(** The storage is down, and so is the delete that cleans up after it. *)
Definition cleanup_down : Site -> option string :=
  fun s => match s with
           | at_upload => Some "storage unavailable"
           | at_cleanup_document => Some "connection reset"
           | _ => None
           end.

(** The row [uploadDocument] inserts for Lisa's "Art Bible". *)
Definition art_bible : Document :=
  {| d_id := unused_id; d_project_id := quest;
     d_title := "Art Bible"; d_current_version := 1;
     d_created_by := lisa |}.

(* ===================================================================== *)
(** * 10. Vocabulary of the statements                                    *)
(* ===================================================================== *)

(** The action did not succeed: it returned [{ error }] or threw. *)
Definition rejected {A : Type} (r : Outcome A) : Prop :=
  match r with Success _ => False | _ => True end.

(** The three messages of the input checks of [uploadDocument]. *)
Definition validation_error (m : string) : Prop :=
  m = no_file \/ m = short_title \/ m = big_file.

(** The stored state: the tables and the bucket. *)
Definition same_store (w w' : World) : Prop :=
  db w' = db w /\ bucket w' = bucket w.

(** Every role row belongs to an account ([user_roles.user_id] references
    [auth.users]). *)
Definition roles_reference_accounts (d : Database) : Prop :=
  forall r, In r (user_roles d) ->
            exists a, In a (auth_users d) /\ au_id a = ur_user_id r.

(** The form has no deadline, or one [new Date(s)] reads. *)
Definition deadline_reads (env : Env) (formData : UpdateProjectForm) : Prop :=
  forall s, truthy (up_deadline formData) = Some s ->
            env_date_parse env s <> None.

(** The form has no status, or one of the enumeration. *)
Definition status_reads (formData : UpdateProjectForm) : Prop :=
  forall s, truthy (up_status formData) = Some s -> parse_status s <> None.

(** The path convention [{projectId}/{documentId}/v{version}-{fileName}]. *)
Definition storage_path (projectId documentId : Uuid) (version : Z)
           (fileName : string) : string :=
  (projectId ++ "/" ++ documentId ++ "/v" ++ decimal version ++ "-"
             ++ fileName)%string.

(* ===================================================================== *)
(** * 10a. Member actions (src/actions/members.ts)                        *)
(* ===================================================================== *)

(** Further places where an external call can fail for a reason of its
    own: the calls of the member actions, of [deleteDocument] and of
    [deleteUser]. *)
Inductive OtherSite : Type :=
| at_insert_member | at_delete_member
| at_select_versions | at_remove_objects | at_delete_document
| at_delete_user.

Definition OtherFaults : Type := OtherSite -> option string.

Definition no_other_fault : OtherFaults := fun _ => None.

(** The row [assignMember] sends:
    [{ project_id, user_id, assigned_by }]. *)
Record MemberInsert : Type := {
  mi_project_id : Uuid;
  mi_user_id : Uuid;
  mi_assigned_by : Uuid
}.

Definition foreign_key : string :=
  "insert or update on table violates foreign key constraint".

(** [from('project_members').insert(row)] through the user-scoped
    client, behind the [guard] of the row policies.  The table has a
    unique constraint on [(project_id, user_id)] (code 23505 on a
    duplicate) and references the project and the account; the store
    gives the row its [id] and [assigned_at].  The column [assigned_by]
    is not read by any action and is not kept. *)
Definition insert_member (env : Env) (other : OtherFaults) (u : Uuid)
           (row : MemberInsert) : Act (option PgError) :=
  fun w =>
    match other at_insert_member with
    | Some m => (Some {| code := "XX000"; message := m |}, w)
    | None =>
        match fst (guard u create res_project_members
                         (project_ctx (mi_project_id row)) w) with
        | Error m => (Some {| code := "42501"; message := m |}, w)
        | Data _ =>
            if IsMemberOf (db w) (mi_user_id row) (mi_project_id row)
            then (Some {| code := "23505"; message := duplicate_key |}, w)
            else if existsb (has_id (mi_project_id row)) (projects (db w))
                    && existsb (fun a => au_id a =? mi_user_id row)
                               (auth_users (db w))
            then (None,
                  with_db (set_project_members
                             (project_members (db w)
                                ++ [ {| pm_id := env_new_id env;
                                        pm_project_id := mi_project_id row;
                                        pm_user_id := mi_user_id row;
                                        pm_assigned_at := env_now env |} ])
                             (db w)) w)
            else (Some {| code := "23503"; message := foreign_key |}, w)
        end
    end.

(** [from('project_members').delete().eq('project_id', p).eq('user_id', u)]
    through the user-scoped client: the row goes when the caller may
    delete it; when not, no row is deleted and no error is reported. *)
Definition delete_member (other : OtherFaults) (u : Uuid)
           (projectId userId : Uuid) : Act (Response unit) :=
  fun w =>
    match other at_delete_member with
    | Some m => (Error m, w)
    | None =>
        if permitted (db w) u delete res_project_members
                     (project_ctx projectId)
        then (Data tt,
              with_db (set_project_members
                         (filter (fun m => negb ((pm_project_id m =? projectId)
                                                 && (pm_user_id m =? userId)))
                                 (project_members (db w)))
                         (db w)) w)
        else (Data tt, w)
    end.

Definition already_assigned : string :=
  "This user is already assigned to this project".

Definition assignMember (env : Env) (other : OtherFaults) (session : Session)
           (projectId userId : Uuid) : Act (Outcome unit) :=
  match session with
  | None => ret (Failure "Unauthorized")
  | Some user =>
      error <- insert_member env other user
                 {| mi_project_id := projectId; mi_user_id := userId;
                    mi_assigned_by := user |} ;;
      match error with
      | Some e =>
          if code e =? "23505"
          then ret (Failure already_assigned)
          else ret (Failure (message e))
      | None => ret (Success tt)
      end
  end.

Definition removeMember (other : OtherFaults) (session : Session)
           (projectId userId : Uuid) : Act (Outcome unit) :=
  match session with
  | None => ret (Failure "Unauthorized")
  | Some user =>
      r <- delete_member other user projectId userId ;;
      match r with
      | Error m => ret (Failure m)
      | Data _ => ret (Success tt)
      end
  end.

(** [getAvailableMembers] after its three reads: [allProfiles] with its
    error, [existingMembers] (the [user_id] column, or [null]) and
    [project] (the [lead_id] column of the row, or [null]).
    [existingIds] is the [Set] of the member ids;
    [p.id !== project?.lead_id] holds of every profile when there is no
    row or no lead. *)
Definition getAvailableMembers (allProfiles : Response (list Profile))
           (existingMembers : option (list Uuid))
           (project : option (option Uuid)) : Outcome (list Profile) :=
  match allProfiles with
  | Error m => Failure m
  | Data allProfiles =>
      let existingIds := or_else existingMembers [] in
      Success
        (filter (fun p => negb (mem (pr_id p) existingIds)
                          && negb (match project with
                                   | Some lead_id => opt_eqb lead_id (pr_id p)
                                   | None => false
                                   end))
                allProfiles)
  end.

(* ===================================================================== *)
(** * 10b. Further document actions (src/actions/documents.ts)            *)
(* ===================================================================== *)

(** [from('document_versions').select('storage_path')
      .eq('document_id', id)]: the paths of the rows the caller may
    read, or [null]. *)
Definition select_version_paths (other : OtherFaults) (u : Uuid) (id : Uuid)
  : Act (option (list string)) :=
  fun w =>
    match other at_select_versions with
    | Some _ => (None, w)
    | None =>
        (Some (map v_storage_path
                   (filter (fun v =>
                              (v_document_id v =? id)
                              && permitted (db w) u read
                                   res_document_versions
                                   (document_ctx
                                      (project_of_document (db w) id) id))
                           (document_versions (db w)))), w)
    end.

(** [storage.from('documents').remove(paths)]; the action drops the
    result.  What the bucket refuses for a reason of its own, a refusal
    by its policy included, is a failure at [at_remove_objects]. *)
Definition remove_objects (other : OtherFaults) (paths : list string)
  : Act unit :=
  fun w =>
    match other at_remove_objects with
    | Some _ => (tt, w)
    | None =>
        (tt, with_bucket (filter (fun o => negb (mem (fst o) paths))
                                 (bucket w)) w)
    end.

(** [from('documents').delete().eq('id', id)] with the [error] the
    action inspects. *)
Definition delete_document_row (other : OtherFaults) (u : Uuid) (id : Uuid)
  : Act (Response unit) :=
  delete_document (other at_delete_document) u id.

Definition deleteDocument (other : OtherFaults) (session : Session)
           (documentId projectId : Uuid) : Act (Outcome unit) :=
  match session with
  | None => ret (Failure "Unauthorized")
  | Some user =>
      versions <- select_version_paths other user documentId ;;
      match versions with
      | Some (p :: ps) => remove_objects other (p :: ps)
      | _ => ret tt
      end ;;;
      r <- delete_document_row other user documentId ;;
      match r with
      | Error m => ret (Failure m)
      | Data _ => ret (Success tt)
      end
  end.

(** [(doc.versions || []).sort((a, b) => b.version - a.version)]:
    descending by version, rows of equal version in their order. *)
Fixpoint insert_version_desc (v : DocumentVersion) (l : list DocumentVersion)
  : list DocumentVersion :=
  match l with
  | [] => [v]
  | x :: l' =>
      if (v_version x <=? v_version v)%Z
      then v :: l
      else x :: insert_version_desc v l'
  end.

Definition sort_versions (l : list DocumentVersion) : list DocumentVersion :=
  fold_right insert_version_desc [] l.

(** [getProjectDocuments] after its read: the documents of the project
    with their version rows, each list of versions sorted. *)
Definition getProjectDocuments
           (data : Response (list (Document * list DocumentVersion)))
  : Outcome (list (Document * list DocumentVersion)) :=
  match data with
  | Error m => Failure m
  | Data docs => Success (map (fun doc => (fst doc, sort_versions (snd doc))) docs)
  end.

(** The row the download button of a document card reads:
    [doc.versions[0]]. *)
Definition latest_version (versions : list DocumentVersion)
  : option DocumentVersion := hd_error versions.

(** A run of calls of [uploadNewVersion] on one document, one after the
    other. *)
Record UploadCall : Type := {
  uc_env : Env;
  uc_session : Session;
  uc_formData : FormData
}.

Fixpoint uploadNewVersions (documentId : Uuid) (calls : list UploadCall)
  : Act (list (Outcome unit)) :=
  match calls with
  | [] => ret []
  | c :: cs =>
      r <- uploadNewVersion (uc_env c) (uc_session c) documentId
                            (uc_formData c) ;;
      rs <- uploadNewVersions documentId cs ;;
      ret (r :: rs)
  end.

Definition succeeded {A : Type} (r : Outcome A) : bool :=
  match r with Success _ => true | _ => false end.

Definition successes {A : Type} (rs : list (Outcome A)) : nat :=
  List.length (filter succeeded rs).

(* ===================================================================== *)
(** * 10c. Further user actions (src/actions/users.ts)                    *)
(* ===================================================================== *)

(** The rows that go with an account.  The table declarations are not
    part of the sources; the security report (3.1, Article 17) has the
    delete of the account cascade to [profiles], [user_roles],
    [project_members] and related records via ON DELETE CASCADE, and the
    joins of the actions name the foreign keys [projects_lead_id_fkey],
    [documents_created_by_fkey] and [document_versions_uploaded_by_fkey].
    So every row that references the account goes: the projects it created
    or leads, the documents it created, the versions it uploaded, and
    with a project or a document what [cascade_delete_project] and
    [cascade_delete_document] remove. *)
Definition references_user (id : Uuid) (p : Project) : bool :=
  (p_created_by p =? id) || opt_eqb (p_lead_id p) id.

Definition projects_of_user (id : Uuid) (d : Database) : list Uuid :=
  map p_id (filter (references_user id) (projects d)).

Definition document_goes (id : Uuid) (d : Database) (doc : Document) : bool :=
  (d_created_by doc =? id) || mem (d_project_id doc) (projects_of_user id d).

Definition documents_of_user (id : Uuid) (d : Database) : list Uuid :=
  map d_id (filter (document_goes id d) (documents d)).

Definition cascade_delete_user (id : Uuid) (d : Database) : Database :=
  {| auth_users := filter (fun a => negb (au_id a =? id)) (auth_users d);
     profiles := filter (fun p => negb (pr_id p =? id)) (profiles d);
     user_roles := filter (fun r => negb (ur_user_id r =? id)) (user_roles d);
     projects := filter (fun p => negb (references_user id p)) (projects d);
     project_members :=
       filter (fun m => negb ((pm_user_id m =? id)
                              || mem (pm_project_id m) (projects_of_user id d)))
              (project_members d);
     documents := filter (fun doc => negb (document_goes id d doc)) (documents d);
     document_versions :=
       filter (fun v => negb ((v_uploaded_by v =? id)
                              || mem (v_document_id v) (documents_of_user id d)))
              (document_versions d) |}.

(** [adminClient.auth.admin.deleteUser(id)]. *)
Definition admin_delete_user (other : OtherFaults) (id : Uuid)
  : Act (Response unit) :=
  fun w =>
    match other at_delete_user with
    | Some m => (Error m, w)
    | None =>
        if existsb (fun a => au_id a =? id) (auth_users (db w))
        then (Data tt, with_db (cascade_delete_user id (db w)) w)
        else (Error "User not found", w)
    end.

Definition deleteUser (env : Env) (other : OtherFaults) (session : Session)
           (userId : Uuid) : Act (Outcome unit) :=
  match session with
  | None => ret (Failure "Unauthorized")
  | Some user =>
      roleData <- select_role env user ;;
      if not_admin roleData
      then ret (Failure "Only admins can delete users")
      else if userId =? user
      then ret (Failure "You cannot delete your own account")
      else
        r <- admin_delete_user other userId ;;
        match r with
        | Error m => ret (Failure m)
        | Data _ => ret (Success tt)
        end
  end.

(** [roleMap]: the object used as a map from [user_id] to the roles
    pushed so far; [push_role] is one turn of the [forEach]. *)
Fixpoint push_role (user_id : Uuid) (role : AppRole)
         (roleMap : list (Uuid * list AppRole)) : list (Uuid * list AppRole) :=
  match roleMap with
  | [] => [(user_id, [role])]
  | (k, rs) :: m =>
      if k =? user_id
      then (k, rs ++ [role]) :: m
      else (k, rs) :: push_role user_id role m
  end.

Definition roleMap_of (roles : list UserRole) : list (Uuid * list AppRole) :=
  fold_left (fun m r => push_role (ur_user_id r) (ur_role r) m) roles [].

(** [roleMap[id]]. *)
Definition roleMap_get (roleMap : list (Uuid * list AppRole)) (id : Uuid)
  : option (list AppRole) :=
  option_map snd (find (fun e => fst e =? id) roleMap).

(** [{ ...profile, user_roles }]. *)
Record UserWithRoles : Type := {
  uw_profile : Profile;
  uw_user_roles : list AppRole
}.

(** [getUsers] after its two reads through the service-role client: the
    profiles, newest first, and all rows of [user_roles]. *)
Definition getUsers (profiles : Response (list Profile))
           (roles : Response (list UserRole)) : Outcome (list UserWithRoles) :=
  match profiles with
  | Error m => Failure m
  | Data profiles =>
      match roles with
      | Error m => Failure m
      | Data roles =>
          let roleMap := roleMap_of roles in
          Success
            (map (fun profile =>
                    {| uw_profile := profile;
                       uw_user_roles :=
                         or_else (roleMap_get roleMap (pr_id profile)) [] |})
                 profiles)
      end
  end.

(** The role a row of the user table shows
    (src/components/admin/user-management-client.tsx):
    [u.user_roles?.[0]?.role || 'developer']. *)
Definition userRole (u : UserWithRoles) : AppRole :=
  match uw_user_roles u with
  | r :: _ => r
  | [] => developer
  end.

(* ===================================================================== *)
(** * 10d. What the project page offers
      (src/components/projects/project-detail-client.tsx)                *)
(* ===================================================================== *)

Definition isAdmin (role : AppRole) : bool := AppRole_eqb role admin.

Definition isLead (role : AppRole) (project : Project) (userId : Uuid)
  : bool :=
  AppRole_eqb role project_lead && opt_eqb (p_lead_id project) userId.

Definition canManageMembers (role : AppRole) (project : Project)
           (userId : Uuid) : bool :=
  isAdmin role || isLead role project userId.

Definition canUpload (role : AppRole) (project : Project) (userId : Uuid)
  : bool :=
  isAdmin role || isLead role project userId.

Definition canEdit (role : AppRole) : bool := isAdmin role.

(* ===================================================================== *)
(** * 10e. The request middleware (src/lib/supabase/middleware.ts)        *)
(* ===================================================================== *)

(** [AuthenticatorAssuranceLevels]. *)
Inductive Aal : Type := aal1 | aal2.

(** The [data] of [auth.mfa.getAuthenticatorAssuranceLevel()]. *)
Record AalData : Type := {
  currentLevel : option Aal;
  nextLevel : option Aal
}.

(** [NextResponse.next(...)] or [NextResponse.redirect(url)] with the
    path of [url]. *)
Inductive NextResponse : Type :=
| next
| redirect (pathname : string).

Definition startsWith (s searchString : string) : bool :=
  String.prefix searchString s.

Definition publicRoutes : list string := ["/login"; "/auth/callback"].

Definition is_aal (l : option Aal) (a : Aal) : bool :=
  match l, a with
  | Some aal1, aal1 | Some aal2, aal2 => true
  | _, _ => false
  end.

(** [updateSession(request)] as a function of what it reads: the user of
    the session, the path of the request and the assurance levels. *)
Definition updateSession (user : option Uuid) (pathname : string)
           (aalData : option AalData) : NextResponse :=
  let isPublicRoute :=
    existsb (fun route => startsWith pathname route) publicRoutes in
  match user with
  | None => if negb isPublicRoute then redirect "/login" else next
  | Some _ =>
      if pathname =? "/login" then redirect "/dashboard"
      else if negb isPublicRoute && negb (startsWith pathname "/mfa-verify")
              && match aalData with
                 | Some a => is_aal (nextLevel a) aal2
                             && negb (is_aal (currentLevel a) aal2)
                 | None => false
                 end
      then redirect "/mfa-verify"
      else if startsWith pathname "/mfa-verify"
              && match aalData with
                 | Some a => is_aal (nextLevel a) aal1
                             || is_aal (currentLevel a) aal2
                 | None => false
                 end
      then redirect "/dashboard"
      else next
  end.

(** The path the browser ends on after following one redirect. *)
Definition follow (user : option Uuid) (aalData : option AalData)
           (pathname : string) : string :=
  match updateSession user pathname aalData with
  | next => pathname
  | redirect p => p
  end.

(* ===================================================================== *)
(** * 10f. Further vocabulary and sample data                             *)
(* ===================================================================== *)

(** The identifier of a project is a key of the table: the row is the
    one row with its [id]. *)
Definition project_key (st : Database) (project : Project) : Prop :=
  filter (has_id (p_id project)) (projects st) = [project].

(** Newest first. *)
Definition newer_first (p q : Project) : Prop :=
  (p_created_at q <= p_created_at p)%Z.

(** [formData] with the empty strings a form sends for the fields left
    blank taken out; an empty [lead_id] stays, it clears the lead. *)
Definition drop_empty (formData : UpdateProjectForm) : UpdateProjectForm :=
  {| up_name := truthy (up_name formData);
     up_description := truthy (up_description formData);
     up_deadline := truthy (up_deadline formData);
     up_status := truthy (up_status formData);
     up_lead_id := up_lead_id formData |}.

(** A project row with another status, another lead. *)
Definition with_status (s : ProjectStatus) (p : Project) : Project :=
  {| p_id := p_id p; p_name := p_name p; p_description := p_description p;
     p_deadline := p_deadline p; p_status := s;
     p_created_by := p_created_by p; p_lead_id := p_lead_id p;
     p_created_at := p_created_at p |}.

Definition with_lead (l : option Uuid) (p : Project) : Project :=
  {| p_id := p_id p; p_name := p_name p; p_description := p_description p;
     p_deadline := p_deadline p; p_status := p_status p;
     p_created_by := p_created_by p; p_lead_id := l;
     p_created_at := p_created_at p |}.

(** The one project of the sample data. *)
Definition quest_project : Project :=
  {| p_id := quest; p_name := "Dragon's Quest RPG";
     p_description := "An epic role-playing game";
     p_deadline := "2030-01-01T00:00:00.000Z";
     p_status := active; p_created_by := alice;
     p_lead_id := Some lisa; p_created_at := 100 |}.

(** The sample data after the project has been handed to David, a
    developer. *)
Definition david_leads : Database :=
  set_projects
    [ {| p_id := quest; p_name := "Dragon's Quest RPG";
         p_description := "An epic role-playing game";
         p_deadline := "2030-01-01T00:00:00.000Z";
         p_status := active; p_created_by := alice;
         p_lead_id := Some david; p_created_at := 100 |} ]
    sample_db.

(** The form the edit dialog sends when every field is left blank and
    the lead is set to "No lead". *)
Definition blank_form : UpdateProjectForm :=
  {| up_name := Some ""; up_description := Some ""; up_deadline := Some "";
     up_status := Some ""; up_lead_id := Some "" |}.

(** A form of the create-project dialog. *)
Definition shooter_form : CreateProjectForm :=
  {| cp_name := "Space Shooter"; cp_description := "A fast arcade game";
     cp_deadline := "2030-01-01"; cp_lead_id := Some "" |}.

(** A row of some table names the account: the account itself, its
    profile, a role row, a project it created or leads, a membership, a
    document it created, a version it uploaded. *)
Definition names_user (id : Uuid) (d : Database) : bool :=
  existsb (fun a => au_id a =? id) (auth_users d)
  || existsb (fun p => pr_id p =? id) (profiles d)
  || existsb (fun r => ur_user_id r =? id) (user_roles d)
  || existsb (references_user id) (projects d)
  || existsb (fun m => pm_user_id m =? id) (project_members d)
  || existsb (fun doc => d_created_by doc =? id) (documents d)
  || existsb (fun v => v_uploaded_by v =? id) (document_versions d).

(** Every membership and every document belongs to a stored project,
    every version to a stored document. *)
Definition rows_have_parents (d : Database) : Prop :=
  (forall m, In m (project_members d) ->
             existsb (fun p => p_id p =? pm_project_id m) (projects d) = true)
  /\ (forall doc, In doc (documents d) ->
                  existsb (fun p => p_id p =? d_project_id doc) (projects d)
                  = true)
  /\ (forall v, In v (document_versions d) ->
                existsb (fun doc => d_id doc =? v_document_id v) (documents d)
                = true).

(** No two rows of [project_members] have the same project and user. *)
Definition memberships_unique (d : Database) : Prop :=
  NoDup (map (fun m => (pm_project_id m, pm_user_id m)) (project_members d)).

(** Highest version first. *)
Definition newer_version (a b : DocumentVersion) : Prop :=
  (v_version b <= v_version a)%Z.

(** The insert of the version row fails. *)
Definition versions_down : Site -> option string :=
  fun s => match s with
           | at_insert_version => Some "connection reset"
           | _ => None
           end.

(** The database function fails. *)
Definition rpc_down : Site -> option string :=
  fun s => match s with
           | at_create_document_version => Some "connection reset"
           | _ => None
           end.

(** Three calls on the design document. *)
Definition three_uploads : list UploadCall :=
  [ {| uc_env := sample_env; uc_session := Some lisa;
       uc_formData := {| get_file := Some design_v2 |} |};
    {| uc_env := sample_env; uc_session := Some dana;
       uc_formData := {| get_file := Some design_v2 |} |};
    {| uc_env := sample_env; uc_session := Some alice;
       uc_formData := {| get_file := Some design_v2b |} |} ].

(** The upsert of a role row fails. *)
Definition upsert_down : Site -> option string :=
  fun s => match s with
           | at_upsert_role => Some "connection reset"
           | _ => None
           end.

(* ===================================================================== *)
(** * 11. Facts about the permission predicate                            *)
(* ===================================================================== *)

Ltac run :=
  unfold bind, ret, send, logged in *; cbn [fst snd db bucket requests] in *.

(** [NoRoleNoAccess]: without a role, nothing is permitted. *)
Lemma NoRoleNoAccess :
  forall st u a r c, RoleOf st u = None -> Decide st u a r c = Deny.
Proof.
  intros st u a r c H.
  unfold Decide, HasPermission, IsAdmin, IsProjectLead, IsDeveloper, has_role.
  rewrite H. reflexivity.
Qed.

(** [DeveloperCannotModifyProject], for every resource: a developer is
    permitted nothing but reads. *)
Lemma developer_read_only :
  forall st u a r c,
    RoleOf st u = Some developer -> a <> read -> Decide st u a r c = Deny.
Proof.
  intros st u a r c H Ha.
  unfold Decide, HasPermission, IsAdmin, IsProjectLead, IsDeveloper, has_role.
  rewrite H. cbn.
  destruct a; cbn; try reflexivity. contradiction.
Qed.

(** What the engine allows passes the client. *)
Lemma Decide_permitted :
  forall st u a r c, Decide st u a r c = Allow -> permitted st u a r c = true.
Proof. intros st u a r c H. unfold permitted. rewrite H. reflexivity. Qed.

Lemma HasPermission_permitted :
  forall st u a r c,
    HasPermission st u a r c = true -> permitted st u a r c = true.
Proof.
  intros st u a r c H. apply Decide_permitted. unfold Decide.
  rewrite H. reflexivity.
Qed.

(** The patch holds no policy for a write on [projects]: such a write
    passes only when the engine allows it. *)
Lemma permitted_project_write :
  forall st u a c,
    a <> read ->
    permitted st u a res_projects c
    = match Decide st u a res_projects c with Allow => true | Deny => false end.
Proof.
  intros st u a c Ha. unfold permitted, patch_policy.
  destruct (Decide st u a res_projects c); [reflexivity|].
  destruct a; try reflexivity. contradiction.
Qed.

(** An INSERT that does not pass does not reach the table. *)
Lemma guarded_denied :
  forall (A : Type) env s u a r c (k : Act (Response A)) w,
    permitted (db w) u a r c = false ->
    exists m, guarded env s u a r c k w = (Error m, w).
Proof.
  intros A env s u a r c k w H.
  unfold guarded, external, guard. run.
  destruct (env_fault env s) as [m|].
  - exists m. reflexivity.
  - rewrite H. exists denied. reflexivity.
Qed.

(** On the keys of a row the policies of the patch, taken by table, are
    the policies of the patch taken row by row. *)
Lemma patch_policy_rows :
  forall st u a,
    (forall p,
        patch_policy st u a res_projects (project_ctx (p_id p))
        = is_read a
          && (developers_view_projects st u (token_role st u) p
              || leads_view_projects st u (token_role st u) p))
    /\ (forall m,
           patch_policy st u a res_project_members
                        (project_ctx (pm_project_id m))
           = patch_permits_member st u (token_role st u) a m)
    /\ (forall d,
           patch_policy st u a res_documents
                        (document_ctx (d_project_id d) (d_id d))
           = patch_permits_document st u a d)
    /\ (forall v pid,
           patch_policy st u a res_document_versions
                        (document_ctx pid (v_document_id v))
           = patch_permits_version st u a v).
Proof.
  intros st u a. split; [|repeat split].
  intros p. unfold patch_policy, developers_view_projects,
    leads_view_projects, project_ctx. cbn [project_id].
  destruct (is_read a), (claims (token_role st u) "developer"),
    (claims (token_role st u) "project_lead"),
    (mem (p_id p) (get_my_project_ids st u)); reflexivity.
Qed.

(* ===================================================================== *)
(** * 12. Projects                                                        *)
(* ===================================================================== *)

(** C1.  Nora has no row in [user_roles]: her role is none and the
    permission predicate denies her the read of the project.  Yet
    [getProjects] lists the project she is a member of, and [getProject]
    returns it: both actions read a missing role as ['developer']. *)
Theorem getProjects_serves_user_without_role :
  RoleOf (db sample_world) nora = None
  /\ Decide (db sample_world) nora read res_projects (project_ctx quest) = Deny
  /\ (exists item,
        fst (getProjects sample_env (Some nora) sample_world) = Success [item]
        /\ p_id (li_project item) = quest)
  /\ (exists detail,
        fst (getProject sample_env (Some nora) quest sample_world)
        = Success detail
        /\ p_id (pd_project detail) = quest).
Proof.
  split; [reflexivity|].
  split; [reflexivity|].
  split; eexists; split; reflexivity.
Qed.

(** In general: a member of a project who has no role is denied by the
    permission predicate and served by [getProject]. *)
Lemma getProject_serves_member_without_role :
  forall env user projectId w p,
    RoleOf (db w) user = None ->
    env_fault env at_select_project = None ->
    single (filter (has_id projectId) (projects (db w))) = Some p ->
    is_member user (members_of (db w) (p_id p)) = true ->
    Decide (db w) user read res_projects (project_ctx projectId) = Deny
    /\ exists detail,
         fst (getProject env (Some user) projectId w) = Success detail
         /\ pd_project detail = p.
Proof.
  intros env user projectId w p Hrole Hfault Hrow Hmember.
  split; [apply NoRoleNoAccess; exact Hrole|].
  assert (Hdev : role_or_developer (fst (select_role env user w)) = developer).
  { unfold select_role. destruct (env_fault env at_select_role); cbn;
      [reflexivity|rewrite Hrole; reflexivity]. }
  assert (Hsame : snd (select_role env user w) = w).
  { unfold select_role. destruct (env_fault env at_select_role); reflexivity. }
  unfold getProject. unfold bind at 1.
  destruct (select_role env user w) as [roleData w1]. cbn [fst snd] in Hdev, Hsame.
  subst w1. rewrite Hdev. cbn [AppRole_eqb].
  unfold admin_select_project, bind at 1. rewrite Hfault, Hrow.
  cbn [fst snd]. unfold bind at 1.
  match goal with
  | |- context [match truthy ?l with Some l0 => admin_select_profile env l0
                                | None => ret None end ?w0] =>
      assert (Hlead : snd (match truthy l with
                           | Some l0 => admin_select_profile env l0
                           | None => ret None
                           end w0) = w0)
        by (destruct (truthy l); unfold admin_select_profile, ret;
            [destruct (env_fault env at_select_profiles)|]; reflexivity);
      destruct (match truthy l with
                | Some l0 => admin_select_profile env l0
                | None => ret None
                end w0) as [lead w2]
  end.
  cbn [snd] in Hlead. subst w2. unfold bind at 1.
  match goal with
  | |- context [(if ?b then ?m else ret []) w] =>
      destruct ((if b then m else ret []) w) as [memberProfiles w3]
  end.
  cbn [fst snd].
  destruct (opt_eqb (p_lead_id p) user); [eexists; split; reflexivity|].
  rewrite Hmember. eexists; split; reflexivity.
Qed.

(** Resolve the guarded request in the goal with a proof that the
    request does not pass. *)
Ltac deny_with H :=
  match goal with
  | |- context [guarded ?e ?s ?u ?a ?r ?c ?k ?w0] =>
      let m := fresh "m" in
      destruct (guarded_denied unit e s u a r c k w0) as [m ->];
      [apply H; discriminate | ]
  end.

Section DeniedWrites.

Variables (env : Env) (w : World) (user : Uuid).

Hypothesis no_write :
  forall a c, a <> read -> permitted (db w) user a res_projects c = false.

Lemma createProject_denied :
  forall formData,
    rejected (fst (createProject env (Some user) formData w))
    /\ same_store w (snd (createProject env (Some user) formData w)).
Proof.
  intros formData. unfold createProject, same_store.
  destruct (createProjectSchema env formData) as [parsed|m];
    [|repeat split].
  destruct (env_date_parse env (cp_deadline parsed)); [|repeat split].
  unfold insert_project. run. deny_with no_write. repeat split.
Qed.

(** The UPDATE finds no row it may change: every row stays. *)
Lemma update_project_skips :
  forall projectId pt,
    same_store w (snd (update_project env user projectId pt w))
    /\ (env_fault env at_update_project = None ->
        (forall s, set_status pt = Some s -> parse_status s <> None) ->
        fst (update_project env user projectId pt w) = Data tt).
Proof.
  intros projectId pt. unfold update_project, external, same_store. run.
  destruct (env_fault env at_update_project) as [m|];
    [split; [split; reflexivity|discriminate]|].
  cbn [db bucket].
  assert (Hmap : forall f : Project -> Project,
             map (fun p => if has_id projectId p
                              && permitted (db w) user update res_projects
                                   (project_ctx (p_id p))
                           then f p else p) (projects (db w))
             = projects (db w)).
  { intros f. rewrite <- (map_id (projects (db w))) at 2.
    apply map_ext. intros p. rewrite no_write by discriminate.
    rewrite andb_false_r. reflexivity. }
  assert (Hsame : set_projects (projects (db w)) (db w) = db w)
    by (destruct (db w); reflexivity).
  destruct (set_status pt) as [s|].
  - destruct (parse_status s) as [st|] eqn:Hst.
    + rewrite (Hmap (patch_project pt st)), Hsame. repeat split.
    + split; [split; reflexivity|]. intros _ H. exfalso.
      exact (H s eq_refl Hst).
  - rewrite (Hmap (fun p => patch_project pt (p_status p) p)), Hsame.
    repeat split.
Qed.

Lemma updateProject_skips :
  forall projectId formData,
    same_store w (snd (updateProject env (Some user) projectId formData w))
    /\ (env_fault env at_update_project = None ->
        deadline_reads env formData -> status_reads formData ->
        fst (updateProject env (Some user) projectId formData w) = Success tt).
Proof.
  intros projectId formData. unfold updateProject, deadline_reads, status_reads.
  destruct (truthy (up_deadline formData)) as [s|].
  - destruct (env_date_parse env s) as [t|] eqn:Ht.
    + unfold bind.
      match goal with
      | |- context [update_project env user projectId ?pt w] =>
          destruct (update_project_skips projectId pt) as [Hs Hr];
          destruct (update_project env user projectId pt w) as [r w1]
      end.
      cbn [fst snd] in *. split.
      * destruct r; exact Hs.
      * intros Hf _ Hst. rewrite (Hr Hf Hst). reflexivity.
    + split; [split; reflexivity|]. intros _ H _. exfalso.
      exact (H s eq_refl Ht).
  - unfold bind.
    match goal with
    | |- context [update_project env user projectId ?pt w] =>
        destruct (update_project_skips projectId pt) as [Hs Hr];
        destruct (update_project env user projectId pt w) as [r w1]
    end.
    cbn [fst snd] in *. split.
    + destruct r; exact Hs.
    + intros Hf _ Hst. rewrite (Hr Hf Hst). reflexivity.
Qed.

(** The DELETE finds no row it may remove and reports no error. *)
Lemma deleteProject_skips :
  forall projectId,
    same_store w (snd (deleteProject env (Some user) projectId w))
    /\ (env_fault env at_delete_project = None ->
        fst (deleteProject env (Some user) projectId w) = Success tt).
Proof.
  intros projectId. unfold deleteProject, delete_project, external, same_store.
  run. destruct (env_fault env at_delete_project) as [m|];
    [split; [split; reflexivity|discriminate]|].
  cbn [db]. rewrite no_write by discriminate. repeat split.
Qed.

End DeniedWrites.

(** C3, as stated, fails: David is a developer, and his [deleteProject]
    is not denied.  The action asks for no decision; the DELETE finds no
    row David may remove, reports no error, and the action answers
    success. *)
Lemma developer_deleteProject_answers_success :
  RoleOf (db sample_world) david = Some developer
  /\ Decide (db sample_world) david delete res_projects (project_ctx quest)
     = Deny
  /\ fst (deleteProject sample_env (Some david) quest sample_world)
     = Success tt
  /\ ~ rejected (fst (deleteProject sample_env (Some david) quest
                                    sample_world)).
Proof.
  split; [reflexivity|]. split; [reflexivity|]. split; [reflexivity|].
  intros H. exact H.
Qed.

(** C3, amended.  For an actor whose role is developer the decision on
    create, update and delete of a project is Deny, and [createProject],
    [updateProject] and [deleteProject] leave the tables and the bucket
    as they were, whatever the project and whether or not the developer
    is a member of it.  [createProject] does not succeed.
    [updateProject] and [deleteProject] are not refused: the statement
    changes no row and reports no error, so the action answers success
    whenever the call itself does not fail and the form holds a deadline
    and a status that can be read. *)
Theorem developer_cannot_modify_projects :
  forall env w user,
    RoleOf (db w) user = Some developer ->
    (forall formData,
        rejected (fst (createProject env (Some user) formData w))
        /\ same_store w (snd (createProject env (Some user) formData w)))
    /\ (forall projectId formData,
          same_store w
            (snd (updateProject env (Some user) projectId formData w))
          /\ (env_fault env at_update_project = None ->
              deadline_reads env formData -> status_reads formData ->
              fst (updateProject env (Some user) projectId formData w)
              = Success tt))
    /\ (forall projectId,
          same_store w (snd (deleteProject env (Some user) projectId w))
          /\ (env_fault env at_delete_project = None ->
              fst (deleteProject env (Some user) projectId w) = Success tt))
    /\ (forall a c, a <> read ->
                    Decide (db w) user a res_projects c = Deny).
Proof.
  intros env w user Hdev.
  assert (Hdeny : forall a c, a <> read ->
                    Decide (db w) user a res_projects c = Deny).
  { intros a c Ha. apply developer_read_only; assumption. }
  assert (no_write : forall a c, a <> read ->
                       permitted (db w) user a res_projects c = false).
  { intros a c Ha. rewrite permitted_project_write by exact Ha.
    rewrite Hdeny by exact Ha. reflexivity. }
  split; [|split; [|split]].
  - apply createProject_denied, no_write.
  - apply updateProject_skips, no_write.
  - apply deleteProject_skips, no_write.
  - exact Hdeny.
Qed.

(** David is a developer and a member of the project: his
    [markProjectComplete] and his [deleteProject] change nothing and
    answer success. *)
Lemma developer_cannot_modify_projects_witness :
  RoleOf (db sample_world) david = Some developer
  /\ IsMemberOf (db sample_world) david quest = true
  /\ same_store sample_world
       (snd (markProjectComplete sample_env (Some david) quest sample_world))
  /\ fst (markProjectComplete sample_env (Some david) quest sample_world)
     = Success tt
  /\ same_store sample_world
       (snd (deleteProject sample_env (Some david) quest sample_world))
  /\ fst (deleteProject sample_env (Some david) quest sample_world)
     = Success tt.
Proof.
  split; [reflexivity|]. split; [reflexivity|].
  destruct (developer_cannot_modify_projects sample_env sample_world david
              eq_refl) as (_ & Hu & Hd & _).
  destruct (Hu quest (status_only "completed")) as [Hus Hur].
  destruct (Hd quest) as [Hds Hdr].
  split; [exact Hus|]. split.
  - apply Hur; [reflexivity| |].
    + intros s H. discriminate H.
    + intros s H. injection H as <-. discriminate.
  - split; [exact Hds|]. apply Hdr. reflexivity.
Defined.

(* ===================================================================== *)
(** * 13. Documents                                                       *)
(* ===================================================================== *)

(** C7.  When the file is absent or empty, or the title has fewer than 2
    characters, or the file is larger than 52,428,800 bytes,
    [uploadDocument] returns an error and the world is exactly as before:
    no request was sent, so no document row was inserted and no upload
    was attempted.  For an authenticated caller the error is one of the
    three validation messages. *)
Theorem uploadDocument_validates_before_any_request :
  forall env session projectId title formData w,
    (get_file formData = None
     \/ (exists file, get_file formData = Some file /\ f_size file = 0%N)
     \/ String.length title < 2
     \/ (exists file, get_file formData = Some file
                      /\ (52428800 < f_size file)%N)) ->
    exists msg,
      uploadDocument env session projectId title formData w = (Failure msg, w)
      /\ (session <> None -> validation_error msg).
Proof.
  intros env session projectId title formData w H.
  unfold uploadDocument, validation_error.
  destruct session as [user|];
    [|eexists; split; [reflexivity|intros; congruence]].
  destruct (get_file formData) as [file|] eqn:Hfile;
    [|exists no_file; split; [reflexivity|auto]].
  destruct (N.eqb_spec (f_size file) 0) as [|Hsize];
    [exists no_file; split; [reflexivity|auto]|].
  destruct (Nat.ltb_spec (String.length title) 2) as [|Htitle];
    [exists short_title; split; [reflexivity|auto]|].
  destruct (N.ltb_spec max_file_size (f_size file)) as [|Hmax];
    [exists big_file; split; [reflexivity|auto]|].
  exfalso. unfold max_file_size in Hmax.
  destruct H as [H|[(f & Hf & H)|[H|(f & Hf & H)]]].
  - discriminate.
  - injection Hf as <-. contradiction.
  - lia.
  - injection Hf as <-. lia.
Qed.

(** The scenario of the specification: title "AB", a file of 61 MiB. *)
Lemma uploadDocument_validates_before_any_request_witness :
  (52428800 < f_size oversized)%N
  /\ exists msg,
       uploadDocument sample_env (Some lisa) quest "AB"
                      {| get_file := Some oversized |} sample_world
       = (Failure msg, sample_world)
       /\ (Some lisa <> None -> validation_error msg).
Proof.
  split; [reflexivity|].
  apply uploadDocument_validates_before_any_request.
  right; right; right. exists oversized. split; reflexivity.
Defined.

(** What the bucket answers a request for a signed URL. *)
Lemma createSignedUrl_cases :
  forall env session path expiresIn w,
    createSignedUrl env session path expiresIn w
    = (match env_fault env at_sign_url with
       | Some m => Error m
       | None =>
           if occupied path w && may_download (db w) session path
           then Data {| su_path := path; su_expires_in := expiresIn |}
           else Error "Object not found"
       end, w).
Proof.
  intros env session path expiresIn w. unfold createSignedUrl.
  destruct (env_fault env at_sign_url); [reflexivity|].
  destruct (occupied path w && may_download (db w) session path);
    reflexivity.
Qed.

(** The objects a caller sees are those of versions the engine lets the
    caller read. *)
Lemma may_download_spec :
  forall st session path,
    may_download st session path = true <->
    exists actor v,
      session = Some actor
      /\ In v (document_versions st)
      /\ v_storage_path v = path
      /\ Decide st actor read res_document_versions
                (document_ctx (project_of_document st (v_document_id v))
                              (v_document_id v)) = Allow.
Proof.
  intros st session path. unfold may_download, Decide. split.
  - destruct session as [actor|]; [|discriminate].
    intros H. apply existsb_exists in H. destruct H as (v & Hin & H).
    apply andb_prop in H. destruct H as [Hpath Hperm].
    exists actor, v. repeat split; [exact Hin| |].
    + apply String.eqb_eq. exact Hpath.
    + rewrite Hperm. reflexivity.
  - intros (actor & v & -> & Hin & Hpath & Hperm).
    apply existsb_exists. exists v. split; [exact Hin|].
    apply andb_true_intro. split; [apply String.eqb_eq; exact Hpath|].
    destruct (HasPermission st actor read res_document_versions
                (document_ctx (project_of_document st (v_document_id v))
                              (v_document_id v)));
      [reflexivity|discriminate].
Qed.

(** C2.  [getDocumentDownloadUrl] changes nothing.  When it produces a
    URL, the URL is for the requested path with an expiry of 3600
    seconds, the request carries the session of an actor, and the path is
    the storage path of a version whose read the decision allows that
    actor, [Decide(actor, Read, Version, {documentId}) = Allow].  For
    such an actor the URL is produced whenever the object is in the
    bucket and the storage call does not fail. *)
Theorem getDocumentDownloadUrl_signs_for_an_hour :
  forall env session storagePath w,
    snd (getDocumentDownloadUrl env session storagePath w) = w
    /\ (forall url,
          fst (getDocumentDownloadUrl env session storagePath w) = Success url ->
          url = {| su_path := storagePath; su_expires_in := 3600 |}
          /\ exists actor v,
               session = Some actor
               /\ In v (document_versions (db w))
               /\ v_storage_path v = storagePath
               /\ Decide (db w) actor read res_document_versions
                         (document_ctx
                            (project_of_document (db w) (v_document_id v))
                            (v_document_id v)) = Allow)
    /\ (forall actor v,
          session = Some actor ->
          In v (document_versions (db w)) ->
          v_storage_path v = storagePath ->
          Decide (db w) actor read res_document_versions
                 (document_ctx (project_of_document (db w) (v_document_id v))
                               (v_document_id v)) = Allow ->
          occupied storagePath w = true ->
          env_fault env at_sign_url = None ->
          fst (getDocumentDownloadUrl env session storagePath w)
          = Success {| su_path := storagePath; su_expires_in := 3600 |}).
Proof.
  intros env session storagePath w.
  unfold getDocumentDownloadUrl. unfold bind.
  rewrite createSignedUrl_cases. cbn [fst snd].
  split; [|split].
  - destruct (env_fault env at_sign_url); [reflexivity|].
    destruct (occupied storagePath w && may_download (db w) session storagePath);
      reflexivity.
  - intros url.
    destruct (env_fault env at_sign_url); [discriminate|].
    destruct (may_download (db w) session storagePath) eqn:Hmay;
      [|rewrite andb_false_r; discriminate].
    destruct (occupied storagePath w); [|discriminate].
    cbn. unfold ret. cbn. intros H. injection H as <-.
    split; [reflexivity|]. apply may_download_spec. exact Hmay.
  - intros actor v Hs Hin Hpath Hallow Hocc Hfault.
    rewrite Hfault, Hocc.
    assert (Hmay : may_download (db w) session storagePath = true)
      by (apply may_download_spec; exists actor, v; repeat split; assumption).
    rewrite Hmay. reflexivity.
Qed.

(** David is a member of the project and gets the URL of its design
    document; Dana, a developer outside the project, and a request
    without a session are told the object is not found. *)
Lemma getDocumentDownloadUrl_signs_for_an_hour_witness :
  fst (getDocumentDownloadUrl sample_env (Some david) design_v1_path
                              sample_world)
  = Success {| su_path := design_v1_path; su_expires_in := 3600 |}
  /\ fst (getDocumentDownloadUrl sample_env (Some dana) design_v1_path
                                 sample_world)
     = Failure "Object not found"
  /\ fst (getDocumentDownloadUrl sample_env None design_v1_path sample_world)
     = Failure "Object not found".
Proof.
  split; [|split; reflexivity].
  destruct (getDocumentDownloadUrl_signs_for_an_hour
              sample_env (Some david) design_v1_path sample_world)
    as (_ & _ & H).
  eapply H; [reflexivity|left; reflexivity|reflexivity..].
Defined.

(** The two ways the upload of a version ends. *)
Lemma upload_version_cases :
  forall env file v w,
    (exists m,
        upload_version env file v w
        = (Failure ("Upload failed: " ++ m)%string,
           logged (ReqUpload (v_storage_path v) file) w)
        /\ (env_fault env at_upload = Some m
            \/ occupied (v_storage_path v) w = true))
    \/ (upload_version env file v w
        = (Success tt,
           with_bucket (bucket w ++ [(v_storage_path v, file)])
                       (logged (ReqUpload (v_storage_path v) file) w))
        /\ env_fault env at_upload = None
        /\ occupied (v_storage_path v) w = false).
Proof.
  intros env file v w. unfold upload_version, upload. run.
  destruct (env_fault env at_upload) as [m|].
  - left. exists m. split; [reflexivity|left; reflexivity].
  - change (occupied (v_storage_path v)
              {| db := db w; bucket := bucket w;
                 requests := requests w ++ [ReqUpload (v_storage_path v) file] |})
      with (occupied (v_storage_path v) w).
    destruct (occupied (v_storage_path v) w) eqn:Hocc.
    + left. eexists. split; [reflexivity|right; reflexivity].
    + right. repeat split.
Qed.

(** The two ways the call of the database function ends: it commits
    against the stored row, or it fails and the tables stay. *)
Lemma commit_version_cases :
  forall env user v w,
    (commit_version env user v w
     = (Success tt,
        with_db (commit_db v (db w)) (logged (ReqCreateDocumentVersion v) w))
     /\ exists doc,
         find (fun d => d_id d =? v_document_id v) (documents (db w)) = Some doc
         /\ v_version v = (d_current_version doc + 1)%Z)
    \/ (exists m,
           commit_version env user v w
           = (Failure ("Version creation failed: " ++ m)%string,
              logged (ReqCreateDocumentVersion v) w)).
Proof.
  intros env user v w.
  unfold commit_version, create_document_version, guarded, external, guard.
  run.
  destruct (env_fault env at_create_document_version) as [m|];
    [right; exists m; reflexivity|].
  match goal with
  | |- context [permitted ?d ?u ?a ?r ?c] => destruct (permitted d u a r c)
  end; [|right; eexists; reflexivity].
  cbn [db].
  destruct (find (fun d => d_id d =? v_document_id v) (documents (db w)))
    as [doc|] eqn:Hfind; [|right; eexists; reflexivity].
  destruct (Z.eqb_spec (v_version v) (d_current_version doc + 1)) as [Hv|Hv].
  - left. split; [reflexivity|]. exists doc. split; [reflexivity|exact Hv].
  - right. eexists. reflexivity.
Qed.

Lemma find_bump_version :
  forall did n l,
    find (fun d => d_id d =? did) (map (bump_version did n) l)
    = option_map (bump_version did n) (find (fun d => d_id d =? did) l).
Proof.
  intros did n l. induction l as [|a l IH]; [reflexivity|].
  cbn [map find]. unfold bump_version at 1 3.
  destruct (d_id a =? did) eqn:Ha; cbn [d_id]; rewrite Ha.
  - cbn. unfold bump_version. rewrite Ha. reflexivity.
  - exact IH.
Qed.

(** After a commit the stored [current_version] is the committed one. *)
Lemma current_version_commit_db :
  forall v d doc,
    find (fun x => d_id x =? v_document_id v) (documents d) = Some doc ->
    current_version (commit_db v d) (v_document_id v) = Some (v_version v).
Proof.
  intros v d doc H. unfold current_version, commit_db. cbn.
  rewrite find_bump_version, H. cbn.
  apply find_some in H. destruct H as [_ H].
  unfold bump_version. rewrite H. reflexivity.
Qed.

Section AfterTheRead.

Variables (env : Env) (user documentId : Uuid) (file : File)
          (doc : Document) (w : World).

Hypothesis not_empty : f_size file <> 0%N.
Hypothesis not_big : (f_size file <= 52428800)%N.
Hypothesis read_doc : select_document env user documentId w = (Data doc, w).

Lemma fetch_current_reads :
  fetch_current env (Some user) documentId {| get_file := Some file |} w
  = (Success (user, file, doc), w).
Proof.
  unfold fetch_current. cbn [get_file].
  destruct (N.eqb_spec (f_size file) 0); [contradiction|].
  destruct (N.ltb_spec max_file_size (f_size file)) as [H|_];
    [unfold max_file_size in H; lia|].
  run. rewrite read_doc. reflexivity.
Qed.

Lemma issue_reads :
  issue env (Some user) documentId {| get_file := Some file |} w
  = (Fetched user file (next_version user file doc documentId), w).
Proof.
  unfold issue. unfold bind. rewrite fetch_current_reads. reflexivity.
Qed.

Lemma uploadNewVersion_unfolds :
  uploadNewVersion env (Some user) documentId {| get_file := Some file |} w
  = (let (up, w1) :=
       upload_version env file (next_version user file doc documentId) w in
     match up with
     | Success _ =>
         commit_version env user (next_version user file doc documentId) w1
     | Failure e => (Failure e, w1)
     | Thrown x => (Thrown x, w1)
     end).
Proof.
  unfold uploadNewVersion. unfold bind at 1. rewrite fetch_current_reads.
  unfold bind at 1.
  destruct (upload_version env file
              (next_version user file doc documentId) w)
    as [[u|e|x] w1]; reflexivity.
Qed.

End AfterTheRead.

(** C6.  Once [uploadNewVersion] has read the document with
    [current_version = N], the file is uploaded to
    [{projectId}/{documentId}/v{N+1}-{fileName}] and the database function
    is called with version [N+1]: these are the only requests of the
    call, and no argument of the action carries a version number.  When
    the call succeeds the object is in the bucket under that path, the
    version row numbered [N+1] is stored and [current_version] is
    [N+1]. *)
Theorem uploadNewVersion_numbers_from_stored_version :
  forall env user documentId file doc w,
    f_size file <> 0%N ->
    (f_size file <= 52428800)%N ->
    select_document env user documentId w = (Data doc, w) ->
    let N := d_current_version doc in
    let path := storage_path (d_project_id doc) documentId (N + 1) (f_name file) in
    let v := {| v_document_id := documentId;
                v_version := N + 1;
                v_storage_path := path;
                v_file_name := f_name file;
                v_file_size := f_size file;
                v_mime_type := mime_of file;
                v_uploaded_by := user |} in
    let out := uploadNewVersion env (Some user) documentId
                                {| get_file := Some file |} w in
    (requests (snd out) = requests w ++ [ReqUpload path file]
     \/ requests (snd out)
        = requests w ++ [ReqUpload path file; ReqCreateDocumentVersion v])
    /\ (fst out = Success tt ->
        In (path, file) (bucket (snd out))
        /\ In v (document_versions (db (snd out)))
        /\ current_version (db (snd out)) documentId = Some (N + 1)%Z).
Proof.
  intros env user documentId file doc w Hsize Hmax Hread N path v out.
  assert (Hv : v = next_version user file doc documentId) by reflexivity.
  subst out. rewrite (uploadNewVersion_unfolds env user documentId file doc w)
    by assumption.
  rewrite <- Hv.
  destruct (upload_version_cases env file v w)
    as [(m & -> & _)|(-> & _ & _)].
  - split; [left; reflexivity|]. cbn. discriminate.
  - destruct (commit_version_cases env user v
                (with_bucket (bucket w ++ [(v_storage_path v, file)])
                             (logged (ReqUpload (v_storage_path v) file) w)))
      as [(-> & d0 & Hfind & _)|(m & ->)].
    + split.
      * right. cbn. rewrite <- app_assoc. reflexivity.
      * intros _. cbn [fst snd with_db with_bucket logged db bucket].
        split; [apply in_or_app; right; left; reflexivity|].
        split.
        -- unfold commit_db. cbn. apply in_or_app. right. left. reflexivity.
        -- cbn in Hfind.
           exact (current_version_commit_db v (db w) d0 Hfind).
    + split.
      * right. cbn. rewrite <- app_assoc. reflexivity.
      * cbn. discriminate.
Qed.

(** Lisa uploads a revision of the design document, stored at version 1:
    the object goes to [.../v2-design-rev.pdf]. *)
Lemma uploadNewVersion_numbers_from_stored_version_witness :
  f_size design_v2 <> 0%N
  /\ (f_size design_v2 <= 52428800)%N
  /\ storage_path quest design 2 "design-rev.pdf"
     = "c0000000-0000-4000-8000-000000000001/d0000000-0000-4000-8000-000000000001/v2-design-rev.pdf"
  /\ fst (uploadNewVersion sample_env (Some lisa) design
                           {| get_file := Some design_v2 |} sample_world)
     = Success tt
  /\ current_version
       (db (snd (uploadNewVersion sample_env (Some lisa) design
                                  {| get_file := Some design_v2 |}
                                  sample_world))) design = Some 2%Z.
Proof.
  split; [discriminate|]. split; [cbn; lia|]. split; [reflexivity|].
  split; [reflexivity|].
  refine (proj2 (proj2 (proj2
    (uploadNewVersion_numbers_from_stored_version
       sample_env lisa design design_v2
       {| d_id := design; d_project_id := quest;
          d_title := "Game Design Document";
          d_current_version := 1; d_created_by := lisa |}
       sample_world _ _ eq_refl) eq_refl))).
  - discriminate.
  - cbn; lia.
Defined.

(** C9.  When the upload of [uploadNewVersion] fails (the storage call
    fails, or the path is already occupied), the call returns the upload
    error, the database function is never called, and the tables are
    untouched: [current_version] is still [N] and the rows numbered
    [N+1] are those that were there before. *)
Theorem uploadNewVersion_failed_upload_keeps_database :
  forall env user documentId file doc w,
    f_size file <> 0%N ->
    (f_size file <= 52428800)%N ->
    select_document env user documentId w = (Data doc, w) ->
    let N := d_current_version doc in
    let path := storage_path (d_project_id doc) documentId (N + 1) (f_name file) in
    (env_fault env at_upload <> None \/ occupied path w = true) ->
    let out := uploadNewVersion env (Some user) documentId
                                {| get_file := Some file |} w in
    (exists m, fst out = Failure ("Upload failed: " ++ m)%string)
    /\ db (snd out) = db w
    /\ bucket (snd out) = bucket w
    /\ requests (snd out) = requests w ++ [ReqUpload path file]
    /\ current_version (db (snd out)) documentId
       = current_version (db w) documentId
    /\ versions_numbered (db (snd out)) documentId (N + 1)
       = versions_numbered (db w) documentId (N + 1).
Proof.
  intros env user documentId file doc w Hsize Hmax Hread N path Hfail out.
  subst out. rewrite (uploadNewVersion_unfolds env user documentId file doc w)
    by assumption.
  destruct (upload_version_cases env file
              (next_version user file doc documentId) w)
    as [(m & -> & _)|(_ & Hnofault & Hfree)].
  - cbn. split; [exists m; reflexivity|]. repeat split.
  - exfalso. destruct Hfail as [Hfail|Hfail].
    + apply Hfail, Hnofault.
    + change (v_storage_path (next_version user file doc documentId))
        with path in Hfree.
      congruence.
Qed.

(** The scenario of the specification: the document is at version 1 and
    the storage is down. *)
Lemma uploadNewVersion_failed_upload_keeps_database_witness :
  (env_fault (sample_env_with storage_down) at_upload <> None
   \/ occupied (storage_path quest design 2 "design-rev.pdf") sample_world
      = true)
  /\ current_version
       (db (snd (uploadNewVersion (sample_env_with storage_down) (Some lisa)
                                  design {| get_file := Some design_v2 |}
                                  sample_world))) design = Some 1%Z
  /\ versions_numbered
       (db (snd (uploadNewVersion (sample_env_with storage_down) (Some lisa)
                                  design {| get_file := Some design_v2 |}
                                  sample_world))) design 2 = [].
Proof.
  split; [left; discriminate|].
  destruct (uploadNewVersion_failed_upload_keeps_database
              (sample_env_with storage_down) lisa design design_v2
              {| d_id := design; d_project_id := quest;
                 d_title := "Game Design Document";
                 d_current_version := 1; d_created_by := lisa |}
              sample_world)
    as (_ & _ & _ & _ & Hcur & Hrows).
  - discriminate.
  - cbn; lia.
  - reflexivity.
  - left; discriminate.
  - split; [exact Hcur | exact Hrows].
Defined.

(** Whoever may create documents in a project may delete them, and
    neither check looks at the documents table. *)
Lemma manage_documents_stable :
  forall st docs u pid did,
    permitted (set_documents docs st) u delete res_documents
              (document_ctx pid did)
    = permitted st u create res_documents (project_ctx pid).
Proof. reflexivity. Qed.

Lemma filter_none :
  forall (A : Type) (f : A -> bool) (l : list A),
    existsb f l = false -> filter (fun x => negb (f x)) l = l.
Proof.
  intros A f l. induction l as [|a l IH]; [reflexivity|].
  cbn. destruct (f a); cbn; [discriminate|].
  intros H. rewrite IH by assumption. reflexivity.
Qed.

Lemma find_fresh :
  forall (f : Document -> bool) l d,
    existsb f l = false -> f d = true -> find f (l ++ [d]) = Some d.
Proof.
  intros f l d. induction l as [|a l IH]; cbn.
  - intros _ ->. reflexivity.
  - destruct (f a); cbn; [discriminate|]. exact IH.
Qed.

Lemma filter_fresh :
  forall (f : Document -> bool) l d,
    existsb f l = false -> f d = true ->
    filter (fun x => negb (f x)) (l ++ [d]) = l.
Proof.
  intros f l d Hl Hd. rewrite filter_app, filter_none by assumption.
  cbn. rewrite Hd. cbn. apply app_nil_r.
Qed.

(** What a successful insert of a document says about the world. *)
Lemma insert_document_data :
  forall env u project title w doc w1,
    insert_document env u project title w = (Data doc, w1) ->
    doc = {| d_id := env_new_id env; d_project_id := project;
             d_title := title; d_current_version := 1; d_created_by := u |}
    /\ permitted (db w) u create res_documents (project_ctx project) = true
    /\ existsb (fun d => d_id d =? env_new_id env) (documents (db w)) = false
    /\ w1 = with_db (set_documents (documents (db w) ++ [doc]) (db w))
                    (logged (ReqInsertDocument doc) w).
Proof.
  intros env u project title w doc w1.
  unfold insert_document, guarded, external, guard. run.
  destruct (env_fault env at_insert_document); [discriminate|].
  cbn [db].
  destruct (permitted (db w) u create res_documents (project_ctx project));
    [|discriminate].
  cbn [d_id db].
  destruct (existsb (fun d => d_id d =? env_new_id env) (documents (db w)));
    [discriminate|].
  intros H. injection H as <- <-. repeat split.
Qed.

Lemma upload_error :
  forall env path file w m w2,
    upload env path file w = (Error m, w2) ->
    w2 = logged (ReqUpload path file) w.
Proof.
  intros env path file w m w2. unfold upload. run.
  destruct (env_fault env at_upload).
  - intros H. injection H as _ <-. reflexivity.
  - match goal with
    | |- context [occupied ?p ?x] => destruct (occupied p x)
    end; [|discriminate].
    intros H. injection H as _ <-. reflexivity.
Qed.

(** [uploadDocument] after a successful insert and a failed upload: the
    delete of the new row is sent, its result is dropped and the upload
    error is returned. *)
Lemma uploadDocument_cleanup :
  forall env user projectId title file w doc w1 m w2,
    f_size file <> 0%N ->
    2 <= String.length title ->
    (f_size file <= 52428800)%N ->
    insert_document env user projectId title w = (Data doc, w1) ->
    upload env (storage_path projectId (d_id doc) 1 (f_name file)) file w1
    = (Error m, w2) ->
    uploadDocument env (Some user) projectId title {| get_file := Some file |} w
    = (Failure ("Upload failed: " ++ m)%string,
       match env_fault env at_cleanup_document with
       | Some _ => logged (ReqDeleteDocument (d_id doc)) w2
       | None => with_db (cascade_delete_document (d_id doc) (db w2))
                         (logged (ReqDeleteDocument (d_id doc)) w2)
       end).
Proof.
  intros env user projectId title file w doc w1 m w2
         Hsize Htitle Hmax Hins Hup.
  pose proof (insert_document_data _ _ _ _ _ _ _ Hins)
    as (Hdoc & Hallow & Hfresh & Hw1).
  pose proof (upload_error _ _ _ _ _ _ Hup) as Hw2.
  assert (Hid : d_id doc = env_new_id env) by (rewrite Hdoc; reflexivity).
  assert (Hproj : d_project_id doc = projectId) by (rewrite Hdoc; reflexivity).
  unfold uploadDocument. cbn [get_file].
  destruct (N.eqb_spec (f_size file) 0); [contradiction|].
  destruct (Nat.ltb_spec (String.length title) 2); [lia|].
  destruct (N.ltb_spec max_file_size (f_size file)) as [Hbig|_];
    [unfold max_file_size in Hbig; lia|].
  unfold bind at 1. rewrite Hins.
  unfold bind at 1.
  change (projectId ++ "/" ++ d_id doc ++ "/v1-" ++ f_name file)%string
    with (storage_path projectId (d_id doc) 1 (f_name file)).
  rewrite Hup.
  unfold delete_document. run.
  destruct (env_fault env at_cleanup_document) as [e|]; [reflexivity|].
  rewrite Hw2, Hw1. cbn [db logged with_db set_documents documents].
  rewrite (find_fresh (fun d => d_id d =? d_id doc) (documents (db w)) doc)
    by first [apply String.eqb_refl | rewrite Hid; exact Hfresh].
  rewrite Hproj.
  rewrite (manage_documents_stable (db w)), Hallow.
  reflexivity.
Qed.

(** C8, as stated, fails: the insert of the document row works, the
    storage is down and so is the clean-up delete.  The action returns
    the upload error and the row it created remains. *)
Lemma uploadDocument_failed_cleanup_leaves_the_row :
  fst (insert_document (sample_env_with cleanup_down) lisa quest "Art Bible"
                       sample_world)
  = Data art_bible
  /\ fst (upload (sample_env_with cleanup_down)
                 (storage_path quest unused_id 1 "design-rev.pdf") design_v2
                 (snd (insert_document (sample_env_with cleanup_down) lisa
                                       quest "Art Bible" sample_world)))
     = Error "storage unavailable"
  /\ fst (uploadDocument (sample_env_with cleanup_down) (Some lisa) quest
                         "Art Bible" {| get_file := Some design_v2 |}
                         sample_world)
     = Failure "Upload failed: storage unavailable"
  /\ documents (db (snd (uploadDocument (sample_env_with cleanup_down)
                           (Some lisa) quest "Art Bible"
                           {| get_file := Some design_v2 |} sample_world)))
     = [design_doc; art_bible]
  /\ ~ (forall d,
          In d (documents
                  (db (snd (uploadDocument (sample_env_with cleanup_down)
                              (Some lisa) quest "Art Bible"
                              {| get_file := Some design_v2 |}
                              sample_world)))) ->
          d_id d <> d_id art_bible).
Proof.
  split; [reflexivity|]. split; [reflexivity|].
  split; [reflexivity|]. split; [reflexivity|].
  intros H. apply (H art_bible); [right; left|]; reflexivity.
Qed.

(** C8, amended.  When the insert of the document row succeeds and the
    upload that follows fails, [uploadDocument] sends the delete of the
    row it created and returns the upload error, whatever the delete
    answers; the bucket is as before the call.  When the delete does not
    fail, no row with the new identifier remains and the documents table
    is as before the call; when it fails, the new row stays. *)
Theorem uploadDocument_rolls_back_failed_upload :
  forall env user projectId title file w doc w1 m w2,
    f_size file <> 0%N ->
    2 <= String.length title ->
    (f_size file <= 52428800)%N ->
    insert_document env user projectId title w = (Data doc, w1) ->
    upload env (storage_path projectId (d_id doc) 1 (f_name file)) file w1
    = (Error m, w2) ->
    let out := uploadDocument env (Some user) projectId title
                              {| get_file := Some file |} w in
    fst out = Failure ("Upload failed: " ++ m)%string
    /\ (env_fault env at_cleanup_document = None ->
        (forall d, In d (documents (db (snd out))) -> d_id d <> d_id doc)
        /\ documents (db (snd out)) = documents (db w))
    /\ (env_fault env at_cleanup_document <> None ->
        documents (db (snd out)) = documents (db w) ++ [doc])
    /\ bucket (snd out) = bucket w
    /\ requests (snd out)
       = requests w
           ++ [ReqInsertDocument doc;
               ReqUpload (storage_path projectId (d_id doc) 1 (f_name file))
                         file;
               ReqDeleteDocument (d_id doc)].
Proof.
  intros env user projectId title file w doc w1 m w2
         Hsize Htitle Hmax Hins Hup out.
  pose proof (insert_document_data _ _ _ _ _ _ _ Hins)
    as (Hdoc & Hallow & Hfresh & Hw1).
  pose proof (upload_error _ _ _ _ _ _ Hup) as Hw2.
  assert (Hid : d_id doc = env_new_id env) by (rewrite Hdoc; reflexivity).
  subst out.
  rewrite (uploadDocument_cleanup env user projectId title file w doc w1 m w2)
    by assumption.
  cbn [fst snd].
  split; [reflexivity|]. split; [|split; [|split]].
  - intros Hclean. rewrite Hclean.
    assert (Hdocs : documents (db (with_db
                      (cascade_delete_document (d_id doc) (db w2))
                      (logged (ReqDeleteDocument (d_id doc)) w2)))
                    = documents (db w)).
    { rewrite Hw2, Hw1. cbn.
      apply (filter_fresh (fun d => d_id d =? d_id doc)).
      - rewrite Hid. exact Hfresh.
      - apply String.eqb_refl. }
    split; [|exact Hdocs].
    intros d Hin. rewrite Hdocs in Hin. intros Heq.
    assert (existsb (fun x => d_id x =? env_new_id env) (documents (db w))
            = true) as Hex.
    { apply existsb_exists. exists d. split; [exact Hin|].
      rewrite Heq, Hid. apply String.eqb_refl. }
    congruence.
  - intros Hclean.
    destruct (env_fault env at_cleanup_document); [|contradiction].
    rewrite Hw2, Hw1. reflexivity.
  - destruct (env_fault env at_cleanup_document);
      rewrite Hw2, Hw1; reflexivity.
  - destruct (env_fault env at_cleanup_document);
      rewrite Hw2, Hw1; cbn; rewrite <- !app_assoc; reflexivity.
Qed.

(** Lisa creates a document while the storage is down: the row is
    inserted and deleted again. *)
Lemma uploadDocument_rolls_back_failed_upload_witness :
  fst (uploadDocument (sample_env_with storage_down) (Some lisa) quest
                      "Art Bible" {| get_file := Some design_v2 |}
                      sample_world)
  = Failure "Upload failed: storage unavailable"
  /\ documents (db (snd (uploadDocument (sample_env_with storage_down)
                           (Some lisa) quest "Art Bible"
                           {| get_file := Some design_v2 |} sample_world)))
     = documents (db sample_world).
Proof.
  destruct (uploadDocument_rolls_back_failed_upload
              (sample_env_with storage_down) lisa quest "Art Bible"
              design_v2 sample_world
              art_bible
              (snd (insert_document (sample_env_with storage_down) lisa quest
                                    "Art Bible" sample_world))
              "storage unavailable"
              (logged (ReqUpload
                         (storage_path quest unused_id 1 "design-rev.pdf")
                         design_v2)
                      (snd (insert_document (sample_env_with storage_down)
                                            lisa quest "Art Bible"
                                            sample_world))))
    as (Hres & Hdocs & _).
  - discriminate.
  - cbn; lia.
  - cbn; lia.
  - reflexivity.
  - reflexivity.
  - split; [exact Hres | exact (proj2 (Hdocs eq_refl))].
Defined.

(* ===================================================================== *)
(** * 14. Users                                                           *)
(* ===================================================================== *)

Lemma admin_create_user_data :
  forall env email name w a w1,
    admin_create_user env email name w = (Data (Some a), w1) ->
    au_id a = env_new_id env
    /\ existsb (fun x => au_id x =? env_new_id env) (auth_users (db w)) = false
    /\ w1 = with_db (set_auth_users (auth_users (db w) ++ [a]) (db w))
                    (logged (ReqCreateUser email) w).
Proof.
  intros env email name w a w1. unfold admin_create_user. run.
  destruct (env_fault env at_create_user); [discriminate|].
  destruct (existsb _ (auth_users (db w))) eqn:Hex; [discriminate|].
  intros H. injection H as <- <-. repeat split.
  apply not_true_is_false. intros Hid.
  apply existsb_exists in Hid. destruct Hid as (x & Hin & Hx).
  assert (existsb (fun a => (au_email a =? email) || (au_id a =? env_new_id env))
                  (auth_users (db w)) = true) as Hcontra.
  { apply existsb_exists. exists x. split; [exact Hin|].
    rewrite Hx. apply orb_true_r. }
  congruence.
Qed.

Lemma admin_insert_role_error :
  forall env r w m w2,
    admin_insert_role env r w = (Error m, w2) ->
    w2 = logged (ReqInsertRole r) w.
Proof.
  intros env r w m w2. unfold admin_insert_role. run.
  destruct (env_fault env at_insert_role).
  - intros H. injection H as _ <-. reflexivity.
  - destruct (existsb (same_role_row r) (user_roles (db w)));
      [|discriminate].
    intros H. injection H as _ <-. reflexivity.
Qed.

Lemma filter_nothing :
  forall (A : Type) (f : A -> bool) (l : list A),
    (forall x, In x l -> f x = false) -> filter f l = [].
Proof.
  intros A f l. induction l as [|a l IH]; [reflexivity|].
  intros H. cbn. rewrite (H a) by (left; reflexivity).
  apply IH. intros x Hx. apply H. right. exact Hx.
Qed.

(** No role row names an identifier no account has. *)
Lemma new_account_has_no_rows :
  forall d id,
    roles_reference_accounts d ->
    existsb (fun x => au_id x =? id) (auth_users d) = false ->
    filter (fun r => ur_user_id r =? id) (user_roles d) = [].
Proof.
  intros d id Href Hnew. apply filter_nothing. intros r Hr.
  apply not_true_is_false. intros Heq. apply String.eqb_eq in Heq.
  destruct (Href r Hr) as (a & Ha & Hid).
  assert (existsb (fun x => au_id x =? id) (auth_users d) = true) as Hex.
  { apply existsb_exists. exists a. split; [exact Ha|].
    rewrite Hid, Heq. apply String.eqb_refl. }
  congruence.
Qed.

(** C10.  When [createUser], called by an admin with valid input, creates
    the auth account and the insert of the role row then fails, the
    action returns the error "User created but failed to assign role" and
    the account stays: it is among the accounts and has no row in
    [user_roles]. *)
Theorem createUser_leaves_account_without_role :
  forall env user formData parsed w newUser w1 m w2,
    createUserSchema env formData = Data parsed ->
    select_role env user w = (Some admin, w) ->
    roles_reference_accounts (db w) ->
    admin_create_user env (pu_email parsed) (pu_full_name parsed) w
    = (Data (Some newUser), w1) ->
    admin_insert_role env {| ur_user_id := au_id newUser;
                             ur_role := pu_role parsed |} w1
    = (Error m, w2) ->
    let out := createUser env (Some user) formData w in
    fst out
    = Failure ("User created but failed to assign role: " ++ m)%string
    /\ In newUser (auth_users (db (snd out)))
    /\ role_rows (db (snd out)) (au_id newUser) = []
    /\ RoleOf (db (snd out)) (au_id newUser) = None
    /\ user_roles (db (snd out)) = user_roles (db w).
Proof.
  intros env user formData parsed w newUser w1 m w2
         Hparse Hadmin Href Hcreate Hrole out.
  pose proof (admin_create_user_data _ _ _ _ _ _ Hcreate)
    as (Hid & Hnew & Hw1).
  pose proof (admin_insert_role_error _ _ _ _ _ Hrole) as Hw2.
  assert (Hout : out
                 = (Failure
                      ("User created but failed to assign role: " ++ m)%string,
                    w2)).
  { subst out. unfold createUser. rewrite Hparse.
    unfold bind at 1. rewrite Hadmin. cbn [not_admin AppRole_eqb negb].
    unfold bind at 1. rewrite Hcreate.
    unfold bind at 1. rewrite Hrole. reflexivity. }
  rewrite Hout. cbn [fst snd].
  assert (Hrows : role_rows (db w2) (au_id newUser) = []).
  { rewrite Hw2, Hw1, Hid. unfold role_rows. cbn.
    apply new_account_has_no_rows; assumption. }
  split; [reflexivity|]. split; [|split; [exact Hrows|split]].
  - rewrite Hw2, Hw1. cbn. apply in_or_app. right. left. reflexivity.
  - unfold RoleOf. rewrite Hrows. reflexivity.
  - rewrite Hw2, Hw1. reflexivity.
Qed.

Lemma sample_roles_reference_accounts :
  roles_reference_accounts (db sample_world).
Proof.
  intros r Hr. cbn in Hr.
  destruct Hr as [<-|[<-|[<-|[<-|[]]]]].
  - exists (account alice "alice"). cbn. tauto.
  - exists (account lisa "lisa"). cbn. tauto.
  - exists (account david "david"). cbn. tauto.
  - exists (account dana "dana"). cbn. tauto.
Qed.

(** Alice creates the account of Eve while the role table is
    unreachable. *)
Lemma createUser_leaves_account_without_role_witness :
  select_role (sample_env_with roles_down) alice sample_world
  = (Some admin, sample_world)
  /\ fst (createUser (sample_env_with roles_down) (Some alice) eve_form
                     sample_world)
     = Failure "User created but failed to assign role: connection reset"
  /\ In eve (auth_users (db (snd (createUser (sample_env_with roles_down)
                                             (Some alice) eve_form
                                             sample_world))))
  /\ role_rows (db (snd (createUser (sample_env_with roles_down)
                                    (Some alice) eve_form sample_world)))
               (au_id eve) = [].
Proof.
  split; [reflexivity|].
  destruct (createUser_leaves_account_without_role
              (sample_env_with roles_down) alice eve_form
              {| pu_email := "eve@pixelforge.dev";
                 pu_password := "Eve@2024!Secure";
                 pu_full_name := "Eve"; pu_role := developer |}
              sample_world eve
              (snd (admin_create_user (sample_env_with roles_down)
                                      "eve@pixelforge.dev" "Eve" sample_world))
              "connection reset"
              (snd (admin_insert_role
                      (sample_env_with roles_down)
                      {| ur_user_id := unused_id; ur_role := developer |}
                      (snd (admin_create_user (sample_env_with roles_down)
                                              "eve@pixelforge.dev" "Eve"
                                              sample_world)))))
    as (Hres & Hacc & Hrows & _).
  - reflexivity.
  - reflexivity.
  - exact sample_roles_reference_accounts.
  - reflexivity.
  - reflexivity.
  - split; [exact Hres|]. split; [exact Hacc | exact Hrows].
Defined.

(** C4.  David holds the role developer, in one row.  Alice, an admin,
    calls [updateUserRole] to make him project lead: the action
    succeeds, and David now has two role rows; read with [.single()],
    his role is none. *)
Theorem updateUserRole_leaves_two_role_rows :
  role_rows (db sample_world) david
  = [ {| ur_user_id := david; ur_role := developer |} ]
  /\ fst (updateUserRole sample_env (Some alice)
                         {| uf_user_id := david; uf_role := "project_lead" |}
                         sample_world) = Success tt
  /\ role_rows
       (db (snd (updateUserRole sample_env (Some alice)
                   {| uf_user_id := david; uf_role := "project_lead" |}
                   sample_world))) david
     = [ {| ur_user_id := david; ur_role := developer |};
         {| ur_user_id := david; ur_role := project_lead |} ]
  /\ RoleOf
       (db (snd (updateUserRole sample_env (Some alice)
                   {| uf_user_id := david; uf_role := "project_lead" |}
                   sample_world))) david = None.
Proof. repeat split. Qed.

(** In general: when an admin gives a user a role the user does not hold
    yet and the upsert does not fail, the row is added to the rows the
    user already has. *)
Lemma updateUserRole_appends_role_row :
  forall env caller target role w,
    is_uuid target = true ->
    select_role env caller w = (Some admin, w) ->
    env_fault env at_upsert_role = None ->
    existsb (same_role_row {| ur_user_id := target; ur_role := role |})
            (user_roles (db w)) = false ->
    let out := updateUserRole env (Some caller)
                 {| uf_user_id := target; uf_role := role_name role |} w in
    fst out = Success tt
    /\ role_rows (db (snd out)) target
       = role_rows (db w) target
           ++ [ {| ur_user_id := target; ur_role := role |} ].
Proof.
  intros env caller target role w Huuid Hadmin Hup Hnew out.
  assert (Hout :
            out = (Success tt,
                   with_db (set_user_roles
                              (user_roles (db w)
                                 ++ [ {| ur_user_id := target;
                                         ur_role := role |} ]) (db w))
                           (logged (ReqUpsertRole
                                      {| ur_user_id := target;
                                         ur_role := role |}) w))).
  { subst out. unfold updateUserRole, updateUserRoleSchema.
    cbn [uf_user_id uf_role]. rewrite Huuid. cbn [negb].
    assert (Hrole : parse_role (role_name role) = Some role)
      by (destruct role; reflexivity).
    rewrite Hrole. unfold bind at 1. rewrite Hadmin.
    cbn [not_admin AppRole_eqb negb].
    unfold admin_upsert_role. run. rewrite Hup, Hnew. reflexivity. }
  rewrite Hout. split; [reflexivity|].
  unfold role_rows.
  cbn [fst snd db with_db set_user_roles user_roles logged].
  rewrite filter_app. cbn [filter ur_user_id].
  rewrite String.eqb_refl. reflexivity.
Qed.

(* ===================================================================== *)
(** * 15. Two calls in flight                                             *)
(* ===================================================================== *)

Lemma bump_version_id :
  forall did n d, d_id (bump_version did n d) = d_id d.
Proof. intros did n d. unfold bump_version. destruct (d_id d =? did); reflexivity. Qed.

Lemma bump_version_project :
  forall did n d, d_project_id (bump_version did n d) = d_project_id d.
Proof. intros did n d. unfold bump_version. destruct (d_id d =? did); reflexivity. Qed.

Lemma find_by_id_bump :
  forall id did n l,
    find (fun d => d_id d =? id) (map (bump_version did n) l)
    = option_map (bump_version did n) (find (fun d => d_id d =? id) l).
Proof.
  intros id did n l. induction l as [|a l IH]; [reflexivity|].
  cbn [map find]. rewrite bump_version_id.
  destruct (d_id a =? id); [reflexivity|exact IH].
Qed.

Lemma filter_by_project_bump :
  forall (p : Uuid -> bool) did n l,
    map d_id (filter (fun d => p (d_project_id d)) (map (bump_version did n) l))
    = map d_id (filter (fun d => p (d_project_id d)) l).
Proof.
  intros p did n l. induction l as [|a l IH]; [reflexivity|].
  cbn [map filter]. rewrite bump_version_project.
  destruct (p (d_project_id a)); cbn [map].
  - rewrite bump_version_id, IH. reflexivity.
  - exact IH.
Qed.

(** A commit changes neither the project of a document nor who may add
    versions to it. *)
Lemma project_of_document_commit_db :
  forall v d did,
    project_of_document (commit_db v d) did = project_of_document d did.
Proof.
  intros v d did. unfold project_of_document, commit_db. cbn.
  rewrite find_by_id_bump.
  destruct (find (fun doc => d_id doc =? did) (documents d)); cbn;
    [apply bump_version_project|reflexivity].
Qed.

Lemma DocIdsInLeadProjects_commit_db :
  forall v d u,
    DocIdsInLeadProjects (commit_db v d) u = DocIdsInLeadProjects d u.
Proof.
  intros v d u. unfold DocIdsInLeadProjects, DocumentsInLeadProjects.
  change (documents (commit_db v d))
    with (map (bump_version (v_document_id v) (v_version v)) (documents d)).
  change (ProjectIdsLedBy (commit_db v d) u) with (ProjectIdsLedBy d u).
  apply (filter_by_project_bump (fun pid => mem pid (ProjectIdsLedBy d u))).
Qed.

Lemma DocIdsInMemberProjects_commit_db :
  forall v d u,
    DocIdsInMemberProjects (commit_db v d) u = DocIdsInMemberProjects d u.
Proof.
  intros v d u. unfold DocIdsInMemberProjects, DocumentsInMemberProjects.
  change (documents (commit_db v d))
    with (map (bump_version (v_document_id v) (v_version v)) (documents d)).
  change (ProjectIdsMemberOf (commit_db v d) u) with (ProjectIdsMemberOf d u).
  apply (filter_by_project_bump (fun pid => mem pid (ProjectIdsMemberOf d u))).
Qed.

Lemma Decide_commit_db :
  forall v d u a c,
    Decide (commit_db v d) u a res_document_versions c
    = Decide d u a res_document_versions c.
Proof.
  intros v d u a c. unfold Decide, HasPermission.
  rewrite DocIdsInLeadProjects_commit_db, DocIdsInMemberProjects_commit_db.
  reflexivity.
Qed.

Section Race.

Variables (documentId : Uuid) (doc : Document) (w0 : World).

Hypothesis stored :
  find (fun d => d_id d =? documentId) (documents (db w0)) = Some doc.

Lemma stored_id : (d_id doc =? documentId) = true.
Proof. apply find_some in stored. apply stored. Qed.

Lemma stored_project : project_of_document (db w0) documentId = d_project_id doc.
Proof. unfold project_of_document. rewrite stored. reflexivity. Qed.

(** While nobody has committed, a step of a call keeps it pending or
    commits its version. *)
Lemma step_pending :
  forall env user file c w,
    may_add_versions (db w0) doc documentId env user ->
    pending user file (next_version user file doc documentId) c ->
    db w = db w0 ->
    (pending user file (next_version user file doc documentId)
             (fst (step_call env c w))
     /\ db (snd (step_call env c w)) = db w0)
    \/ (fst (step_call env c w) = Returned (Success tt)
        /\ db (snd (step_call env c w))
           = commit_db (next_version user file doc documentId) (db w0)).
Proof.
  intros env user file c w [Hnofault Hmay] Hc Hdb.
  destruct Hc as [| |m].
  - left. cbn [step_call]. unfold bind.
    destruct (upload_version_cases env file
                (next_version user file doc documentId) w)
      as [(m & -> & _)|(-> & _ & _)]; cbn; split;
      try constructor; exact Hdb.
  - right. cbn [step_call].
    unfold commit_version, create_document_version, guarded, external,
      guard, permitted.
    run. rewrite Hnofault. cbn [db v_document_id next_version].
    rewrite Hdb, stored_project, Hmay. cbn [db].
    rewrite ?Hdb, stored. cbn [v_version next_version].
    rewrite Z.eqb_refl. cbn. rewrite ?Hdb. split; reflexivity.
  - left. cbn. split; [constructor|exact Hdb].
Qed.

(** Beside a committed call, a step of the other call keeps it beaten:
    its commit meets the conflict. *)
Lemma step_beaten :
  forall env user file c w v,
    may_add_versions (db w0) doc documentId env user ->
    v_document_id v = documentId ->
    v_version v = (d_current_version doc + 1)%Z ->
    beaten user file (next_version user file doc documentId) c ->
    db w = commit_db v (db w0) ->
    beaten user file (next_version user file doc documentId)
           (fst (step_call env c w))
    /\ db (snd (step_call env c w)) = commit_db v (db w0).
Proof.
  intros env user file c w v [Hnofault Hmay] Hvid Hvn Hc Hdb.
  destruct Hc as [c Hc|].
  - destruct Hc as [| |m].
    + cbn [step_call]. unfold bind.
      destruct (upload_version_cases env file
                  (next_version user file doc documentId) w)
        as [(m & -> & _)|(-> & _ & _)]; cbn; split;
        try (constructor; constructor); exact Hdb.
    + cbn [step_call].
      unfold commit_version, create_document_version, guarded, external,
        guard, permitted.
      run. rewrite Hnofault. cbn [db v_document_id next_version].
      rewrite Hdb, project_of_document_commit_db, Decide_commit_db,
        stored_project, Hmay.
      cbn [db]. rewrite ?Hdb.
      change (documents (commit_db v (db w0)))
        with (map (bump_version (v_document_id v) (v_version v))
                  (documents (db w0))).
      rewrite find_by_id_bump, stored. cbn [option_map].
      unfold bump_version. rewrite Hvid, stored_id.
      cbn [d_current_version v_version next_version].
      rewrite Hvn.
      destruct (Z.eqb_spec (d_current_version doc + 1)
                           (d_current_version doc + 1 + 1)) as [H|_];
        [lia|].
      cbn. split; [apply beaten_lost|reflexivity].
    + cbn. split; [constructor; constructor|exact Hdb].
  - cbn. split; [apply beaten_lost|exact Hdb].
Qed.

Variables (env1 env2 : Env) (user1 user2 : Uuid) (file1 file2 : File).

Hypothesis may1 : may_add_versions (db w0) doc documentId env1 user1.
Hypothesis may2 : may_add_versions (db w0) doc documentId env2 user2.

Lemma race_step :
  forall pick s,
    race_states (db w0)
                user1 file1 (next_version user1 file1 doc documentId)
                user2 file2 (next_version user2 file2 doc documentId) s ->
    race_states (db w0)
                user1 file1 (next_version user1 file1 doc documentId)
                user2 file2 (next_version user2 file2 doc documentId) (step_race env1 env2 pick s).
Proof.
  intros pick s Hs. unfold step_race.
  destruct Hs as [c1 c2 w P1 P2 Hdb|c2 w B2 Hdb|c1 w B1 Hdb];
    destruct pick; cbn [first second world].
  - destruct (step_pending env1 user1 file1 c1 w may1 P1 Hdb)
      as [[P Hd]|[Hc Hd]];
      destruct (step_call env1 c1 w) as [c w']; cbn [fst snd] in *.
    + apply nobody_committed; assumption.
    + subst c. apply first_committed;
        [apply beaten_pending; exact P2|exact Hd].
  - destruct (step_pending env2 user2 file2 c2 w may2 P2 Hdb)
      as [[P Hd]|[Hc Hd]];
      destruct (step_call env2 c2 w) as [c w']; cbn [fst snd] in *.
    + apply nobody_committed; assumption.
    + subst c. apply second_committed;
        [apply beaten_pending; exact P1|exact Hd].
  - cbn. apply first_committed; assumption.
  - destruct (step_beaten env2 user2 file2 c2 w
                (next_version user1 file1 doc documentId) may2
                eq_refl eq_refl B2 Hdb) as [B Hd].
    destruct (step_call env2 c2 w) as [c w']; cbn [fst snd] in *.
    apply first_committed; assumption.
  - destruct (step_beaten env1 user1 file1 c1 w
                (next_version user2 file2 doc documentId) may1
                eq_refl eq_refl B1 Hdb) as [B Hd].
    destruct (step_call env1 c1 w) as [c w']; cbn [fst snd] in *.
    apply second_committed; assumption.
  - cbn. apply second_committed; assumption.
Qed.

Lemma race_run :
  forall schedule s,
    race_states (db w0)
                user1 file1 (next_version user1 file1 doc documentId)
                user2 file2 (next_version user2 file2 doc documentId) s ->
    race_states (db w0)
                user1 file1 (next_version user1 file1 doc documentId)
                user2 file2 (next_version user2 file2 doc documentId) (run_race env1 env2 schedule s).
Proof.
  intros schedule. unfold run_race.
  induction schedule as [|pick schedule IH]; intros s Hs; [exact Hs|].
  cbn [fold_left]. apply IH, race_step, Hs.
Qed.

Lemma race_start :
  race_states (db w0)
              user1 file1 (next_version user1 file1 doc documentId)
              user2 file2 (next_version user2 file2 doc documentId)
    {| first := Fetched user1 file1
                        (next_version user1 file1 doc documentId);
       second := Fetched user2 file2
                         (next_version user2 file2 doc documentId);
       world := w0 |}.
Proof. apply nobody_committed; constructor. Qed.

End Race.

(** A call left alone takes its steps one after the other: that is
    [uploadNewVersion]. *)
Lemma alone_is_uploadNewVersion :
  forall env session documentId formData w,
    (c0 <- issue env session documentId formData ;;
     c1 <- step_call env c0 ;;
     step_call env c1) w
    = (Returned (fst (uploadNewVersion env session documentId formData w)),
       snd (uploadNewVersion env session documentId formData w)).
Proof.
  intros env session documentId formData w.
  unfold issue, uploadNewVersion, bind, ret.
  destruct (fetch_current env session documentId formData w)
    as [[[[user file] doc]|e|x] w1]; try reflexivity.
  cbn [step_call]. unfold bind, ret.
  destruct (upload_version env file
              (next_version user file doc documentId) w1)
    as [[u|e|x] w2]; try reflexivity.
  cbn [step_call]. unfold bind, ret.
  destruct (commit_version env user
              (next_version user file doc documentId) w2) as [r w3].
  reflexivity.
Qed.

Lemma pending_not_committed :
  forall user file v c, pending user file v c -> committed c = false.
Proof. intros user file v c H. destruct H; reflexivity. Qed.

Lemma beaten_not_committed :
  forall user file v c, beaten user file v c -> committed c = false.
Proof.
  intros user file v c H. destruct H as [c H|];
    [exact (pending_not_committed _ _ _ _ H)|reflexivity].
Qed.

Lemma pending_returned :
  forall user file v c,
    pending user file v c -> returned c = true -> upload_failed c.
Proof.
  intros user file v c H. destruct H as [| |m]; cbn; try discriminate.
  intros _. exists m. reflexivity.
Qed.

Lemma beaten_returned :
  forall user file v c,
    beaten user file v c -> returned c = true ->
    upload_failed c \/ lost_race c.
Proof.
  intros user file v c H Hr. destruct H as [c H|].
  - left. exact (pending_returned _ _ _ _ H Hr).
  - right. reflexivity.
Qed.

Lemma versions_numbered_commit_db :
  forall v d,
    versions_numbered (commit_db v d) (v_document_id v) (v_version v)
    = versions_numbered d (v_document_id v) (v_version v) ++ [v].
Proof.
  intros v d. unfold versions_numbered, commit_db. cbn.
  rewrite filter_app. cbn. rewrite String.eqb_refl, Z.eqb_refl. reflexivity.
Qed.

(** Every turn brings a call one [await] closer to its return. *)
Lemma step_call_progress :
  forall env c w,
    steps_left (fst (step_call env c w)) <= pred (steps_left c).
Proof.
  intros env c w. destruct c as [user file v|user v|r]; cbn [step_call].
  - unfold bind.
    destruct (upload_version env file v w) as [[u|e|x] w1]; cbn; lia.
  - unfold bind. destruct (commit_version env user v w) as [r w1]. cbn. lia.
  - cbn. lia.
Qed.

Lemma run_race_progress :
  forall env1 env2 schedule s,
    steps_left (first (run_race env1 env2 schedule s))
    <= steps_left (first s) - turns true schedule
    /\ steps_left (second (run_race env1 env2 schedule s))
       <= steps_left (second s) - turns false schedule.
Proof.
  intros env1 env2 schedule. unfold run_race, turns.
  induction schedule as [|pick schedule IH]; intros s; [cbn; lia|].
  cbn [fold_left filter].
  destruct (IH (step_race env1 env2 pick s)) as [IH1 IH2].
  unfold step_race in *. destruct pick; cbn [Bool.eqb] in *.
  - pose proof (step_call_progress env1 (first s) (world s)) as Hp.
    destruct (step_call env1 (first s) (world s)) as [c w'].
    cbn [first second fst List.length] in *. lia.
  - pose proof (step_call_progress env2 (second s) (world s)) as Hp.
    destruct (step_call env2 (second s) (world s)) as [c w'].
    cbn [first second fst List.length] in *. lia.
Qed.

Lemma no_steps_left_returned :
  forall c, steps_left c <= 0 -> returned c = true.
Proof. intros c. destruct c; cbn; [lia|lia|reflexivity]. Qed.

Lemma versions_numbered_next :
  forall user file doc documentId d,
    versions_numbered (commit_db (next_version user file doc documentId) d)
                      documentId (d_current_version doc + 1)
    = versions_numbered d documentId (d_current_version doc + 1)
        ++ [next_version user file doc documentId].
Proof.
  intros user file doc documentId d.
  exact (versions_numbered_commit_db (next_version user file doc documentId) d).
Qed.

(** C5.  Two calls of [uploadNewVersion] have read the same document at
    [current_version = N], both callers may add versions, and their
    remaining steps (upload, then the database function) interleave in
    any order.  Then the two calls never both commit; at most one row
    numbered [N+1] is added; a commit leaves [current_version = N+1];
    when both calls have returned and neither failed at its upload,
    exactly one has committed and the other has got the conflict error;
    and both calls have returned once each has had two turns. *)
Theorem concurrent_uploads_commit_once :
  forall env1 env2 user1 user2 documentId file1 file2 doc w schedule,
    find (fun d => d_id d =? documentId) (documents (db w)) = Some doc ->
    may_add_versions (db w) doc documentId env1 user1 ->
    may_add_versions (db w) doc documentId env2 user2 ->
    let N := d_current_version doc in
    let s := run_race env1 env2 schedule
               {| first := Fetched user1 file1
                             (next_version user1 file1 doc documentId);
                  second := Fetched user2 file2
                              (next_version user2 file2 doc documentId);
                  world := w |} in
    committed (first s) && committed (second s) = false
    /\ List.length (versions_numbered (db (world s)) documentId (N + 1))
       <= S (List.length (versions_numbered (db w) documentId (N + 1)))
    /\ (committed (first s) || committed (second s) = true ->
        current_version (db (world s)) documentId = Some (N + 1)%Z)
    /\ (returned (first s) = true -> returned (second s) = true ->
        ~ upload_failed (first s) -> ~ upload_failed (second s) ->
        (committed (first s) = true /\ lost_race (second s))
        \/ (lost_race (first s) /\ committed (second s) = true))
    /\ (2 <= turns true schedule -> 2 <= turns false schedule ->
        returned (first s) = true /\ returned (second s) = true).
Proof.
  intros env1 env2 user1 user2 documentId file1 file2 doc w schedule
         Hstored Hmay1 Hmay2 N s.
  assert (Hfair : 2 <= turns true schedule -> 2 <= turns false schedule ->
                  returned (first s) = true /\ returned (second s) = true).
  { intros T1 T2. subst s.
    match goal with
    | |- context [run_race _ _ _ ?s0] =>
        destruct (run_race_progress env1 env2 schedule s0) as [H1 H2]
    end.
    cbn [first second steps_left] in H1, H2.
    split; apply no_steps_left_returned; lia. }
  revert Hfair.
  pose proof (race_run documentId doc w Hstored env1 env2 user1 user2
                file1 file2 Hmay1 Hmay2 schedule _
                (race_start documentId doc w user1 user2 file1 file2))
    as Hs.
  fold s in Hs.
  destruct Hs as [c1 c2 w' P1 P2 Hdb|c2 w' B2 Hdb|c1 w' B1 Hdb];
    cbn [first second world]; intros Hfair.
  - rewrite (pending_not_committed _ _ _ _ P1),
      (pending_not_committed _ _ _ _ P2), Hdb.
    split; [reflexivity|]. split; [lia|]. split; [discriminate|].
    split; [|exact Hfair].
    intros R1 _ F1 _. exfalso. apply F1.
    exact (pending_returned _ _ _ _ P1 R1).
  - rewrite (beaten_not_committed _ _ _ _ B2), Hdb.
    split; [reflexivity|]. split; [|split; [|split; [|exact Hfair]]].
    + unfold N. rewrite versions_numbered_next, length_app. cbn. lia.
    + intros _.
      exact (current_version_commit_db
               (next_version user1 file1 doc documentId) (db w) doc Hstored).
    + intros _ R2 _ F2. left. split; [reflexivity|].
      destruct (beaten_returned _ _ _ _ B2 R2) as [H|H];
        [contradiction|exact H].
  - rewrite (beaten_not_committed _ _ _ _ B1), Hdb.
    split; [reflexivity|]. split; [|split; [|split; [|exact Hfair]]].
    + unfold N. rewrite versions_numbered_next, length_app. cbn. lia.
    + intros _.
      exact (current_version_commit_db
               (next_version user2 file2 doc documentId) (db w) doc Hstored).
    + intros R1 _ F1 _. right. split; [|reflexivity].
      destruct (beaten_returned _ _ _ _ B1 R1) as [H|H];
        [contradiction|exact H].
Qed.

(** Lisa uploads, Alice uploads and commits, then Lisa calls the database
    function: Alice has committed version 2, Lisa has lost. *)
Lemma concurrent_uploads_commit_once_witness :
  may_add_versions (db sample_world) design_doc design sample_env lisa
  /\ may_add_versions (db sample_world) design_doc design sample_env alice
  /\ lost_race (first (run_race sample_env sample_env
                                [true; false; false; true] both_read))
  /\ committed (second (run_race sample_env sample_env
                                 [true; false; false; true] both_read))
     = true
  /\ current_version
       (db (world (run_race sample_env sample_env
                            [true; false; false; true] both_read))) design
     = Some 2%Z.
Proof.
  split; [split; reflexivity|]. split; [split; reflexivity|].
  destruct (concurrent_uploads_commit_once
              sample_env sample_env lisa alice design design_v2 design_v2b
              design_doc sample_world [true; false; false; true]
              eq_refl (conj eq_refl eq_refl) (conj eq_refl eq_refl))
    as (_ & _ & Hcur & Hone & _).
  split; [|split; [reflexivity|exact (Hcur eq_refl)]].
  destruct Hone as [[Hc _]|[Hl _]].
  - reflexivity.
  - reflexivity.
  - intros [m Hm]. cbn in Hm. discriminate Hm.
  - intros [m Hm]. cbn in Hm. discriminate Hm.
  - cbn in Hc. discriminate Hc.
  - exact Hl.
Defined.

(* ===================================================================== *)
(** * 16. The invariants of the TLA+ model                                *)
(* ===================================================================== *)

Lemma mem_In : forall x l, mem x l = true <-> In x l.
Proof.
  intros x l. unfold mem. rewrite existsb_exists. split.
  - intros (y & Hy & E). apply String.eqb_eq in E. subst y. exact Hy.
  - intros H. exists x. split; [exact H|apply String.eqb_refl].
Qed.

Lemma IsLeadOf_led : forall st u pid,
    IsLeadOf st u pid = mem pid (ProjectIdsLedBy st u).
Proof.
  intros st u pid. unfold IsLeadOf, mem, ProjectIdsLedBy, ProjectsLedBy.
  induction (projects st) as [|p l IH]; [reflexivity|].
  cbn. destruct (opt_eqb (p_lead_id p) u); cbn.
  - rewrite IH. rewrite andb_true_r. reflexivity.
  - rewrite andb_false_r. exact IH.
Qed.

Lemma IsMemberOf_member : forall st u pid,
    IsMemberOf st u pid = mem pid (ProjectIdsMemberOf st u).
Proof.
  intros st u pid. unfold IsMemberOf, mem, ProjectIdsMemberOf.
  induction (project_members st) as [|m l IH]; [reflexivity|].
  cbn. destruct (pm_user_id m =? u); cbn.
  - rewrite IH. rewrite andb_true_r. reflexivity.
  - rewrite andb_false_r. exact IH.
Qed.

(** X1.  The safety properties of the TLA+ model, [NoUnauthorizedAccess]
    and [SeparationOfDuties], hold of [HasPermission] in every state: a
    user without a role is permitted nothing; a developer modifies no
    project; only an admin may create or delete a project or touch the
    users; a project lead has nothing on a project they neither lead nor
    belong to, and only reads on one they merely belong to; a developer
    writes neither members nor documents. *)
Theorem NoUnauthorizedAccess :
  forall st u,
    (* NoRoleNoAccess *)
    (HasNoRole st u = true ->
     forall a r c, HasPermission st u a r c = false)
    (* DeveloperCannotModifyProject *)
    /\ (IsDeveloper st u = true ->
        forall a c, a <> read -> HasPermission st u a res_projects c = false)
    (* OnlyAdminsCreateDeleteProjects *)
    /\ (forall c, HasPermission st u create res_projects c = IsAdmin st u
                  /\ HasPermission st u delete res_projects c = IsAdmin st u)
    (* OnlyAdminsManageUsers *)
    /\ (forall a c, HasPermission st u a res_users c = IsAdmin st u)
    (* LeadScopedToOwnProjects *)
    /\ (IsProjectLead st u = true ->
        forall pid did a,
          IsLeadOf st u pid = false -> IsMemberOf st u pid = false ->
          HasPermission st u a res_projects
                        {| project_id := pid; document_id := did |} = false)
    (* LeadReadOnlyOnMemberProjects *)
    /\ (IsProjectLead st u = true ->
        forall pid did a,
          IsLeadOf st u pid = false -> IsMemberOf st u pid = true ->
          HasPermission st u a res_projects
                        {| project_id := pid; document_id := did |}
          = is_read a)
    (* SeparationOfDuties *)
    /\ (IsDeveloper st u = true ->
        forall a c,
          a <> read ->
          HasPermission st u a res_project_members c = false
          /\ HasPermission st u a res_documents c = false).
Proof.
  intros st u.
  unfold HasPermission, HasNoRole, IsAdmin, IsProjectLead, IsDeveloper,
    has_role.
  destruct (RoleOf st u) as [[| |]|]; cbn.
  all: repeat match goal with |- _ /\ _ => split end; intros.
  all: repeat match goal with |- _ /\ _ => split end.
  all: try discriminate.
  all: cbn [project_id document_id].
  all: repeat match goal with
              | H : IsLeadOf _ _ _ = _ |- _ => rewrite H
              | H : IsMemberOf _ _ _ = _ |- _ => rewrite H
              end.
  all: try match goal with a : Action |- _ => destruct a end.
  all: cbn; try reflexivity; try congruence.
Qed.

(* ===================================================================== *)
(** * 17. The request middleware                                          *)
(* ===================================================================== *)

(** X2.  A request the middleware lets through to a route that is not
    public comes from a signed-in user.  When the read of the assurance
    levels returned data that say the user has enrolled a second factor
    and not verified it in this session, the route lies under
    /mfa-verify.  When that read returned no data the middleware asks for
    no second factor: every request of a signed-in user for a path other
    than /login is let through. *)
Theorem updateSession_protects_routes :
  forall user pathname aalData,
    existsb (fun route => startsWith pathname route) publicRoutes = false ->
    updateSession user pathname aalData = next ->
    user <> None
    /\ (forall a,
          aalData = Some a ->
          nextLevel a = Some aal2 -> currentLevel a <> Some aal2 ->
          startsWith pathname "/mfa-verify" = true)
    /\ (forall u p,
          (p =? "/login") = false -> updateSession (Some u) p None = next).
Proof.
  intros user pathname aalData Hpub Hnext. split; [|split].
  - intros ->. revert Hnext. unfold updateSession. rewrite Hpub.
    discriminate.
  - intros a -> Hlevel Hcurrent. revert Hnext. unfold updateSession.
    rewrite Hpub, Hlevel.
    destruct user as [u|]; cbn [negb]; [|discriminate].
    destruct (pathname =? "/login"); [discriminate|].
    destruct (startsWith pathname "/mfa-verify"); [reflexivity|].
    assert (Hnot : is_aal (currentLevel a) aal2 = false).
    { destruct (currentLevel a) as [[|]|]; try reflexivity.
      contradiction Hcurrent. reflexivity. }
    rewrite Hnot. cbn. discriminate.
  - intros u p Hp. unfold updateSession. rewrite Hp.
    rewrite !andb_false_r. reflexivity.
Qed.

(** Lisa has enrolled a second factor and not verified it: of the routes
    that are not public the middleware serves her /mfa-verify.  When the
    read of her assurance levels returns nothing, it serves her the user
    administration. *)
Lemma updateSession_protects_routes_witness :
  existsb (fun route => startsWith "/mfa-verify" route) publicRoutes = false
  /\ updateSession (Some lisa) "/mfa-verify"
       (Some {| currentLevel := Some aal1; nextLevel := Some aal2 |}) = next
  /\ startsWith "/mfa-verify" "/mfa-verify" = true
  /\ updateSession (Some lisa) "/dashboard/admin/users" None = next.
Proof.
  split; [reflexivity|]. split; [reflexivity|].
  destruct (updateSession_protects_routes
              (Some lisa) "/mfa-verify"
              (Some {| currentLevel := Some aal1; nextLevel := Some aal2 |})
              eq_refl eq_refl) as (_ & Hmfa & Hnull).
  split.
  - apply (Hmfa _ eq_refl eq_refl). discriminate.
  - apply Hnull. reflexivity.
Defined.

(** X3.  Redirects do not loop: whatever the session and the path, the
    path reached after following at most two redirects of the middleware
    is served. *)
Theorem updateSession_redirects_settle :
  forall user aalData pathname,
    updateSession user (follow user aalData (follow user aalData pathname))
                  aalData = next.
Proof.
  intros user aalData pathname.
  assert (Hserved : forall p, updateSession user p aalData = next ->
                              updateSession user (follow user aalData
                                                    (follow user aalData p))
                                            aalData = next).
  { intros p Hp. unfold follow. rewrite Hp, Hp. exact Hp. }
  destruct (updateSession user pathname aalData) as [|target] eqn:E;
    [apply Hserved; exact E|].
  unfold follow at 2. rewrite E.
  unfold updateSession in E.
  destruct user as [u|].
  - destruct (pathname =? "/login").
    + injection E as <-.
      destruct aalData as [[[[|]|] [[|]|]]|]; reflexivity.
    + match type of E with
      | (if ?b then _ else _) = _ => destruct b eqn:Hmfa
      end.
      * injection E as <-.
        apply andb_prop in Hmfa. destruct Hmfa as [_ Hneeds].
        destruct aalData as [[[[|]|] [[|]|]]|]; try discriminate Hneeds;
          reflexivity.
      * match type of E with
        | (if ?b then _ else _) = _ => destruct b eqn:Hdone
        end; [|discriminate E].
        injection E as <-.
        apply andb_prop in Hdone. destruct Hdone as [_ Hdone].
        destruct aalData as [[[[|]|] [[|]|]]|]; try discriminate Hdone;
          reflexivity.
  - match type of E with
    | (if ?b then _ else _) = _ => destruct b
    end; [|discriminate E].
    injection E as <-. reflexivity.
Qed.

(* ===================================================================== *)
(** * 18. The project page and the row policies against the model         *)
(* ===================================================================== *)

Lemma AppRole_eqb_eq : forall a b, AppRole_eqb a b = true <-> a = b.
Proof. intros [] []; cbn; split; congruence. Qed.

Lemma existsb_filter :
  forall (A : Type) (f g : A -> bool) (l : list A),
    existsb (fun x => f x && g x) l = existsb g (filter f l).
Proof.
  intros A f g l. induction l as [|a l IH]; [reflexivity|].
  cbn. destruct (f a); cbn; rewrite IH; reflexivity.
Qed.

Lemma IsLeadOf_key : forall st u project,
    project_key st project ->
    IsLeadOf st u (p_id project) = opt_eqb (p_lead_id project) u.
Proof.
  intros st u project Hkey. unfold IsLeadOf, project_key in *.
  change (existsb (fun p => has_id (p_id project) p && opt_eqb (p_lead_id p) u)
                  (projects st) = opt_eqb (p_lead_id project) u).
  rewrite existsb_filter, Hkey. cbn. apply orb_false_r.
Qed.

(** X4.  The project page offers the upload and member controls exactly
    to the users the permission predicate lets write documents and
    members of the project, and the admin controls only to users the
    predicate permits everything on the project; the role is the one the
    page reads, a missing role row read as developer. *)
Theorem project_page_offers_what_the_model_permits :
  forall st user project a,
    project_key st project ->
    a <> read ->
    canUpload (role_or_developer (RoleOf st user)) project user
    = HasPermission st user a res_documents (project_ctx (p_id project))
    /\ canManageMembers (role_or_developer (RoleOf st user)) project user
       = HasPermission st user a res_project_members
                       (project_ctx (p_id project))
    /\ (canEdit (role_or_developer (RoleOf st user)) = true ->
        forall a' r c, HasPermission st user a' r c = true).
Proof.
  intros st user project a Hkey Ha.
  unfold canUpload, canManageMembers, canEdit, isAdmin, isLead.
  unfold HasPermission, IsAdmin, IsProjectLead, IsDeveloper, has_role.
  cbn [project_ctx project_id].
  rewrite (IsLeadOf_key st user project Hkey).
  destruct (RoleOf st user) as [[| |]|]; cbn.
  all: repeat split; try discriminate; try reflexivity.
  all: try (destruct (opt_eqb (p_lead_id project) user); reflexivity).
  all: destruct a; cbn; try reflexivity; contradiction.
Qed.

(** Lisa leads the sample project: she is offered the upload. *)
Lemma project_page_offers_what_the_model_permits_witness :
  project_key sample_db quest_project
  /\ create <> read
  /\ canUpload (role_or_developer (RoleOf sample_db lisa)) quest_project lisa
     = HasPermission sample_db lisa create res_documents (project_ctx quest)
  /\ canUpload (role_or_developer (RoleOf sample_db lisa)) quest_project lisa
     = true.
Proof.
  assert (Hkey : project_key sample_db quest_project) by reflexivity.
  assert (Ha : create <> read) by discriminate.
  split; [exact Hkey|]. split; [exact Ha|].
  split; [|reflexivity].
  exact (proj1 (project_page_offers_what_the_model_permits
                  sample_db lisa quest_project create Hkey Ha)).
Defined.

Lemma mem_led_documents :
  forall st u did,
    mem did (DocIdsInLeadProjects st u) = true ->
    mem did (get_my_led_document_ids st u) = true.
Proof.
  intros st u did H. apply mem_In in H. apply mem_In.
  unfold DocIdsInLeadProjects, DocumentsInLeadProjects in H.
  apply in_map_iff in H. destruct H as (doc & Hid & Hdoc).
  apply filter_In in Hdoc. destruct Hdoc as [Hdoc Hled].
  apply mem_In in Hled. unfold ProjectIdsLedBy, ProjectsLedBy in Hled.
  apply in_map_iff in Hled. destruct Hled as (p & Hp & Hin).
  apply filter_In in Hin. destruct Hin as [Hin Hlead].
  unfold get_my_led_document_ids. apply in_flat_map.
  exists doc. split; [exact Hdoc|].
  apply in_map_iff. exists p. split; [exact Hid|].
  apply filter_In. split; [exact Hin|].
  rewrite Hp, String.eqb_refl. exact Hlead.
Qed.

Lemma claims_token_role :
  forall st u r,
    claims (token_role st u) (role_name r) = has_role st u r.
Proof.
  intros st u r. unfold claims, token_role, has_role.
  destruct (RoleOf st u) as [[| |]|]; destruct r; reflexivity.
Qed.

(** X5.  What the permission predicate permits a user who is not an
    admin on a membership, a document or a version, the row policies of
    the recursion fix permit as well, the token carrying the stored
    role: the policies implement the model's grants to project leads and
    developers on these three tables. *)
Theorem patch_policies_allow_what_the_model_permits :
  forall st u a pid did,
    IsAdmin st u = false ->
    (forall m,
        pm_project_id m = pid ->
        HasPermission st u a res_project_members
                      {| project_id := pid; document_id := did |} = true ->
        patch_permits_member st u (token_role st u) a m = true)
    /\ (forall d,
           d_project_id d = pid ->
           HasPermission st u a res_documents
                         {| project_id := pid; document_id := did |} = true ->
           patch_permits_document st u a d = true)
    /\ (forall v,
           v_document_id v = did ->
           HasPermission st u a res_document_versions
                         {| project_id := pid; document_id := did |} = true ->
           patch_permits_version st u a v = true).
Proof.
  intros st u a pid did Hadmin.
  unfold HasPermission. rewrite Hadmin. cbn [orb project_id document_id].
  unfold patch_permits_member, patch_permits_document, patch_permits_version,
    leads_manage_members, members_view_members, leads_manage_documents,
    members_view_documents, leads_manage_versions, members_view_versions.
  change (get_my_project_ids st u) with (ProjectIdsMemberOf st u).
  change (get_my_led_project_ids st u) with (ProjectIdsLedBy st u).
  change "project_lead" with (role_name project_lead).
  rewrite claims_token_role. fold (IsProjectLead st u).
  repeat split.
  - intros m -> H. rewrite <- IsLeadOf_led, <- IsMemberOf_member.
    apply orb_prop in H. destruct H as [H|H].
    + rewrite H. reflexivity.
    + apply andb_prop in H. destruct H as [H Hm].
      apply andb_prop in H. destruct H as [_ Hr].
      rewrite Hr, Hm. apply orb_true_r.
  - intros d -> H. rewrite <- IsLeadOf_led, <- IsMemberOf_member.
    apply orb_prop in H. destruct H as [H|H].
    + apply andb_prop in H. destruct H as [_ H]. rewrite H. reflexivity.
    + apply andb_prop in H. destruct H as [H Hm].
      apply andb_prop in H. destruct H as [_ Hr].
      rewrite Hr, Hm. apply orb_true_r.
  - intros v -> H.
    apply orb_prop in H. destruct H as [H|H].
    + apply andb_prop in H. destruct H as [_ H].
      rewrite (mem_led_documents st u _ H). reflexivity.
    + apply andb_prop in H. destruct H as [H Hm].
      apply andb_prop in H. destruct H as [_ Hr].
      rewrite Hr. cbn [andb].
      unfold DocIdsInMemberProjects, DocumentsInMemberProjects in Hm.
      rewrite Hm. apply orb_true_r.
Qed.

(** Lisa, who leads the sample project, may add a document to it. *)
Lemma patch_policies_allow_what_the_model_permits_witness :
  IsAdmin sample_db lisa = false
  /\ HasPermission sample_db lisa create res_documents
                   {| project_id := quest; document_id := design |} = true
  /\ patch_permits_document sample_db lisa create design_doc = true.
Proof.
  split; [reflexivity|]. split; [reflexivity|].
  exact (proj1 (proj2 (patch_policies_allow_what_the_model_permits
                         sample_db lisa create quest design eq_refl))
               design_doc eq_refl eq_refl).
Defined.

(** X6.  The document policy of the recursion fix follows [lead_id]
    alone: whoever leads the project passes it for every command on the
    project's documents, whatever their role.  For a leading user whose
    role is developer the permission predicate denies every write. *)
Theorem patch_document_policy_ignores_the_role :
  forall st u a doc,
    IsLeadOf st u (d_project_id doc) = true ->
    patch_permits_document st u a doc = true
    /\ (RoleOf st u = Some developer -> a <> read ->
        Decide st u a res_documents (project_ctx (d_project_id doc)) = Deny).
Proof.
  intros st u a doc Hlead. split.
  - unfold patch_permits_document, leads_manage_documents.
    change (get_my_led_project_ids st u) with (ProjectIdsLedBy st u).
    rewrite <- IsLeadOf_led, Hlead. reflexivity.
  - intros Hrole Ha. apply developer_read_only; assumption.
Qed.

(** Alice makes David, a developer, lead of the sample project. *)
Lemma patch_document_policy_ignores_the_role_witness :
  db (snd (updateProject sample_env (Some alice) quest
                         {| up_name := None; up_description := None;
                            up_deadline := None; up_status := None;
                            up_lead_id := Some david |} sample_world))
  = david_leads
  /\ IsLeadOf david_leads david (d_project_id design_doc) = true
  /\ patch_permits_document david_leads david delete design_doc = true
  /\ Decide david_leads david delete res_documents (project_ctx quest) = Deny.
Proof.
  split; [reflexivity|]. split; [reflexivity|].
  destruct (patch_document_policy_ignores_the_role
              david_leads david delete design_doc eq_refl) as [Hp Hd].
  split; [exact Hp|]. apply Hd; [reflexivity|discriminate].
Defined.

(* ===================================================================== *)
(** * 19. Further facts about the project actions                         *)
(* ===================================================================== *)

Lemma select_role_world :
  forall env u w, select_role env u w = (fst (select_role env u w), w).
Proof.
  intros env u w. unfold select_role.
  destruct (env_fault env at_select_role); reflexivity.
Qed.

Lemma select_role_reads :
  forall env u w,
    env_fault env at_select_role = None ->
    select_role env u w = (RoleOf (db w) u, w).
Proof. intros env u w H. unfold select_role. rewrite H. reflexivity. Qed.

(** The reads of profiles leave the world as it is. *)
Ltac read_profiles env w ps :=
  match goal with
  | |- context [(if ?b then ?m else ret []) w] =>
      let H := fresh "Hps" in
      assert (H : exists ps, (if b then m else ret []) w = (ps, w))
        by (destruct b;
            [unfold bind, admin_select_profiles_in, ret;
             destruct (env_fault env at_select_profiles)|];
            eexists; reflexivity);
      destruct H as [ps H]; rewrite H; clear H
  end.

Ltac read_lead env w lead :=
  match goal with
  | |- context [match truthy ?l with
                | Some l0 => admin_select_profile env l0
                | None => ret None
                end w] =>
      let H := fresh "Hlead" in
      assert (H : exists lead,
                 match truthy l with
                 | Some l0 => admin_select_profile env l0
                 | None => ret None
                 end w = (lead, w))
        by (destruct (truthy l); unfold admin_select_profile, ret;
            [destruct (env_fault env at_select_profiles)|];
            eexists; reflexivity);
      destruct H as [lead H]; rewrite H; clear H
  end.

Lemma insert_desc_perm :
  forall p l, Permutation (insert_desc p l) (p :: l).
Proof.
  intros p l. induction l as [|q l IH]; cbn; [reflexivity|].
  destruct (p_created_at q <=? p_created_at p)%Z; [reflexivity|].
  rewrite IH. apply perm_swap.
Qed.

Lemma order_created_at_desc_perm :
  forall l, Permutation (order_created_at_desc l) l.
Proof.
  intros l. induction l as [|p l IH]; cbn; [constructor|].
  rewrite insert_desc_perm. constructor. exact IH.
Qed.

Lemma insert_desc_sorted :
  forall p l,
    StronglySorted newer_first l ->
    StronglySorted newer_first (insert_desc p l).
Proof.
  intros p l. induction l as [|q l IH]; intros Hs; cbn.
  - constructor; constructor.
  - inversion Hs as [|? ? Hl Hq]; subst.
    destruct (Z.leb_spec (p_created_at q) (p_created_at p)) as [Hle|Hlt].
    + constructor; [exact Hs|]. constructor; [exact Hle|].
      eapply Forall_impl; [|exact Hq].
      intros r Hr. unfold newer_first in *. lia.
    + constructor; [apply IH; exact Hl|].
      rewrite insert_desc_perm.
      constructor; [unfold newer_first; lia|exact Hq].
Qed.

Lemma order_created_at_desc_sorted :
  forall l, StronglySorted newer_first (order_created_at_desc l).
Proof.
  intros l. induction l as [|p l IH]; cbn; [constructor|].
  apply insert_desc_sorted. exact IH.
Qed.

Lemma map_pair_eta :
  forall (A B : Type) (l : list (A * B)),
    map (fun p => (fst p, snd p)) l = l.
Proof.
  intros A B l. induction l as [|[a b] l IH]; cbn; [|rewrite IH]; reflexivity.
Qed.

(** What [getProjects] returns when the read of the projects works: the
    rows and their memberships, newest first, filtered for every caller
    whose role is not read as admin. *)
Lemma getProjects_reads :
  forall env user w,
    env_fault env at_select_projects = None ->
    exists items,
      getProjects env (Some user) w = (Success items, w)
      /\ map (fun i => (li_project i, li_project_members i)) items
         = (if negb (AppRole_eqb
                       (role_or_developer (fst (select_role env user w)))
                       admin)
            then filter (fun p => opt_eqb (p_lead_id (fst p)) user
                                  || is_member user (snd p))
                        (map (fun p => (p, members_of (db w) (p_id p)))
                             (order_created_at_desc (projects (db w))))
            else map (fun p => (p, members_of (db w) (p_id p)))
                     (order_created_at_desc (projects (db w))))
      /\ Forall (fun i => li_member_count i
                          = List.length (li_project_members i)) items.
Proof.
  intros env user w Hfault.
  unfold getProjects. unfold bind at 1. rewrite select_role_world.
  unfold bind at 1. unfold admin_select_projects at 1. rewrite Hfault.
  unfold bind at 1.
  read_profiles env w leadProfiles.
  unfold ret. cbn [fst].
  eexists. split; [reflexivity|]. split.
  - rewrite map_map. cbn [li_project li_project_members]. apply map_pair_eta.
  - apply Forall_forall. intros i Hi. apply in_map_iff in Hi.
    destruct Hi as (p & <- & _). reflexivity.
Qed.

Lemma is_member_members_of :
  forall d user pid, is_member user (members_of d pid) = IsMemberOf d user pid.
Proof.
  intros d user pid. unfold is_member, members_of, IsMemberOf.
  symmetry.
  exact (existsb_filter ProjectMember (fun m => pm_project_id m =? pid)
                        (fun m => pm_user_id m =? user) (project_members d)).
Qed.

Lemma map_li_project :
  forall items (rows : list (Project * list ProjectMember)),
    map (fun i => (li_project i, li_project_members i)) items = rows ->
    map li_project items = map fst rows.
Proof.
  intros items rows <-. rewrite map_map. reflexivity.
Qed.

(** X7.  For an admin [getProjects] lists every project of the table
    once, the newest first, each with its membership rows and their
    number; the call changes nothing. *)
Theorem getProjects_admin_lists_every_project :
  forall env user w,
    env_fault env at_select_role = None ->
    RoleOf (db w) user = Some admin ->
    env_fault env at_select_projects = None ->
    exists items,
      getProjects env (Some user) w = (Success items, w)
      /\ Permutation (map li_project items) (projects (db w))
      /\ StronglySorted newer_first (map li_project items)
      /\ Forall (fun i =>
                   li_project_members i
                   = members_of (db w) (p_id (li_project i))
                   /\ li_member_count i = List.length (li_project_members i))
                items.
Proof.
  intros env user w Hrolefault Hrole Hfault.
  destruct (getProjects_reads env user w Hfault)
    as (items & Hrun & Hrows & Hcount).
  rewrite (select_role_reads env user w Hrolefault) in Hrows.
  cbn [fst] in Hrows. rewrite Hrole in Hrows. cbn in Hrows.
  exists items. split; [exact Hrun|].
  assert (Hprojects : map li_project items
                      = order_created_at_desc (projects (db w))).
  { rewrite (map_li_project _ _ Hrows), map_map. cbn. apply map_id. }
  rewrite Hprojects.
  split; [apply order_created_at_desc_perm|].
  split; [apply order_created_at_desc_sorted|].
  apply Forall_forall. intros i Hi. split.
  - assert (Hin : In (li_project i, li_project_members i)
                     (map (fun p => (p, members_of (db w) (p_id p)))
                          (order_created_at_desc (projects (db w))))).
    { rewrite <- Hrows. apply (in_map (fun i => (li_project i, li_project_members i))).
      exact Hi. }
    apply in_map_iff in Hin. destruct Hin as (p & Hp & _).
    injection Hp as <- <-. reflexivity.
  - revert i Hi. apply Forall_forall. exact Hcount.
Qed.

(** Alice administers the sample data. *)
Lemma getProjects_admin_lists_every_project_witness :
  env_fault sample_env at_select_role = None
  /\ RoleOf (db sample_world) alice = Some admin
  /\ env_fault sample_env at_select_projects = None
  /\ exists items,
       getProjects sample_env (Some alice) sample_world
       = (Success items, sample_world)
       /\ Permutation (map li_project items) (projects (db sample_world)).
Proof.
  split; [reflexivity|]. split; [reflexivity|]. split; [reflexivity|].
  destruct (getProjects_admin_lists_every_project
              sample_env alice sample_world eq_refl eq_refl eq_refl)
    as (items & Hrun & Hperm & _).
  exists items. split; [exact Hrun|exact Hperm].
Defined.

(** The list of a caller whose role is not read as admin. *)
Lemma getProjects_filter_spec :
  forall env user w,
    fst (select_role env user w) <> Some admin ->
    env_fault env at_select_projects = None ->
    exists items,
      getProjects env (Some user) w = (Success items, w)
      /\ forall p,
          In p (map li_project items)
          <-> In p (projects (db w))
              /\ (opt_eqb (p_lead_id p) user
                  || IsMemberOf (db w) user (p_id p)) = true.
Proof.
  intros env user w Hrole Hfault.
  destruct (getProjects_reads env user w Hfault)
    as (items & Hrun & Hrows & _).
  assert (Hnot : AppRole_eqb (role_or_developer (fst (select_role env user w)))
                             admin = false).
  { destruct (fst (select_role env user w)) as [[| |]|]; try reflexivity.
    contradiction Hrole. reflexivity. }
  rewrite Hnot in Hrows. cbn [negb] in Hrows.
  exists items. split; [exact Hrun|].
  intros p. rewrite (map_li_project _ _ Hrows). split.
  - intros Hin. apply in_map_iff in Hin. destruct Hin as ([q ms] & Hq & Hin).
    cbn in Hq. subst q. apply filter_In in Hin. destruct Hin as [Hin Hkeep].
    apply in_map_iff in Hin. destruct Hin as (q & Hq & Hin).
    injection Hq as -> <-.
    split.
    + eapply Permutation_in; [apply order_created_at_desc_perm|exact Hin].
    + cbn [fst snd] in Hkeep. rewrite is_member_members_of in Hkeep.
      exact Hkeep.
  - intros [Hin Hkeep]. apply in_map_iff.
    exists (p, members_of (db w) (p_id p)). split; [reflexivity|].
    apply filter_In. split.
    + apply (in_map (fun q => (q, members_of (db w) (p_id q)))).
      eapply Permutation_in;
        [apply Permutation_sym, order_created_at_desc_perm|exact Hin].
    + cbn [fst snd]. rewrite is_member_members_of. exact Hkeep.
Qed.


Lemma filter_map_pairs :
  forall (A B : Type) (f : A * B -> bool) (g : A -> B) (l : list A),
    map fst (filter f (map (fun p => (p, g p)) l))
    = filter (fun p => f (p, g p)) l.
Proof.
  intros A B f g l. induction l as [|a l IH]; [reflexivity|].
  cbn. destruct (f (a, g a)); cbn; rewrite IH; reflexivity.
Qed.

Lemma StronglySorted_filter :
  forall (A : Type) (R : A -> A -> Prop) (f : A -> bool) (l : list A),
    StronglySorted R l -> StronglySorted R (filter f l).
Proof.
  intros A R f l Hs. induction Hs as [|a l Hs IH Ha]; cbn; [constructor|].
  destruct (f a); [|exact IH].
  constructor; [exact IH|].
  apply Forall_forall. intros x Hx. apply filter_In in Hx.
  rewrite Forall_forall in Ha. exact (Ha x (proj1 Hx)).
Qed.

(** X8.  For a caller whose role is not read as admin (a project lead, a
    developer, a user without a role row, or a failed read of the role)
    [getProjects] lists exactly the projects the caller leads or is a
    member of, the newest first. *)
Theorem getProjects_lists_led_and_member_projects :
  forall env user w,
    fst (select_role env user w) <> Some admin ->
    env_fault env at_select_projects = None ->
    exists items,
      getProjects env (Some user) w = (Success items, w)
      /\ (forall p,
             In p (map li_project items)
             <-> In p (projects (db w))
                 /\ (opt_eqb (p_lead_id p) user
                     || IsMemberOf (db w) user (p_id p)) = true)
      /\ StronglySorted newer_first (map li_project items).
Proof.
  intros env user w Hrole Hfault.
  destruct (getProjects_filter_spec env user w Hrole Hfault)
    as (items & Hrun & Hiff).
  exists items. split; [exact Hrun|]. split; [exact Hiff|].
  destruct (getProjects_reads env user w Hfault)
    as (items' & Hrun' & Hrows & _).
  rewrite Hrun in Hrun'. injection Hrun' as <-.
  assert (Hnot : AppRole_eqb (role_or_developer (fst (select_role env user w)))
                             admin = false).
  { destruct (fst (select_role env user w)) as [[| |]|]; try reflexivity.
    contradiction Hrole. reflexivity. }
  rewrite Hnot in Hrows. cbn [negb] in Hrows.
  rewrite (map_li_project _ _ Hrows).
  rewrite (filter_map_pairs Project (list ProjectMember)
             (fun p => opt_eqb (p_lead_id (fst p)) user
                       || is_member user (snd p))
             (fun p => members_of (db w) (p_id p))).
  apply StronglySorted_filter. apply order_created_at_desc_sorted.
Qed.

(** David, a developer and a member of the sample project, sees it;
    Dana, a developer outside it, does not. *)
Lemma getProjects_lists_led_and_member_projects_witness :
  fst (select_role sample_env david sample_world) <> Some admin
  /\ env_fault sample_env at_select_projects = None
  /\ exists items,
       getProjects sample_env (Some david) sample_world
       = (Success items, sample_world)
       /\ In quest_project (map li_project items).
Proof.
  assert (Hne : fst (select_role sample_env david sample_world) <> Some admin)
    by discriminate.
  split; [exact Hne|]. split; [reflexivity|].
  destruct (getProjects_lists_led_and_member_projects
              sample_env david sample_world Hne eq_refl)
    as (items & Hrun & Hiff & _).
  exists items. split; [exact Hrun|].
  apply Hiff. split; [left; reflexivity|reflexivity].
Defined.

Lemma getProject_reads :
  forall env user w project,
    project_key (db w) project ->
    env_fault env at_select_project = None ->
    exists detail,
      pd_project detail = project
      /\ getProject env (Some user) (p_id project) w
         = (if AppRole_eqb (role_or_developer (fst (select_role env user w)))
                           admin
               || opt_eqb (p_lead_id project) user
               || IsMemberOf (db w) user (p_id project)
            then Success detail
            else Failure "Access denied - you are not a member of this project",
            w).
Proof.
  intros env user w project Hkey Hfault.
  unfold getProject. unfold bind at 1. rewrite select_role_world.
  unfold bind at 1. unfold admin_select_project at 1.
  unfold project_key in Hkey. rewrite Hfault, Hkey. cbn [single fst snd].
  unfold bind at 1. read_lead env w lead.
  unfold bind at 1. read_profiles env w memberProfiles.
  cbn [fst]. rewrite is_member_members_of.
  match goal with
  | |- context [Success ?d] => exists d
  end.
  split; [reflexivity|].
  destruct (AppRole_eqb _ admin); [reflexivity|].
  destruct (opt_eqb (p_lead_id project) user); [reflexivity|].
  destruct (IsMemberOf (db w) user (p_id project)); reflexivity.
Qed.

(** X9.  [getProject] and [getProjects] agree: a caller is given the
    details of a project exactly when the list the same caller is given
    holds the project. *)
Theorem getProject_agrees_with_getProjects :
  forall env user w project,
    project_key (db w) project ->
    env_fault env at_select_project = None ->
    env_fault env at_select_projects = None ->
    exists items,
      getProjects env (Some user) w = (Success items, w)
      /\ ((exists detail,
              getProject env (Some user) (p_id project) w = (Success detail, w)
              /\ pd_project detail = project)
          <-> In project (map li_project items)).
Proof.
  intros env user w project Hkey Hone Hall.
  assert (Hin : In project (projects (db w))).
  { assert (H : In project (filter (has_id (p_id project)) (projects (db w))))
      by (rewrite Hkey; left; reflexivity).
    apply filter_In in H. exact (proj1 H). }
  destruct (getProject_reads env user w project Hkey Hone)
    as (detail & Hdetail & Hget).
  destruct (fst (select_role env user w)) as [[| |]|] eqn:Hrole.
  1: { destruct (getProjects_reads env user w Hall)
         as (items & Hrun & Hrows & _).
       rewrite Hrole in Hrows. cbn in Hrows.
       exists items. split; [exact Hrun|].
       rewrite Hget. cbn. split.
       - intros _. rewrite (map_li_project _ _ Hrows), map_map. cbn.
         rewrite map_id. eapply Permutation_in;
           [apply Permutation_sym, order_created_at_desc_perm|exact Hin].
       - intros _. exists detail. split; [reflexivity|exact Hdetail]. }
  all: assert (Hne : fst (select_role env user w) <> Some admin)
    by (rewrite Hrole; discriminate).
  all: destruct (getProjects_filter_spec
                   env user w Hne Hall) as (items & Hrun & Hiff).
  all: exists items; (split; [exact Hrun|]).
  all: rewrite Hget, Hiff; cbn [role_or_developer AppRole_eqb orb].
  all: destruct (opt_eqb (p_lead_id project) user
                 || IsMemberOf (db w) user (p_id project)).
  all: split.
  all: try (intros _; split; [exact Hin|reflexivity]).
  all: try (intros _; exists detail; split; [reflexivity|exact Hdetail]).
  all: try (intros (d & Hd & _); discriminate Hd).
  all: try (intros [_ Hd]; discriminate Hd).
Qed.


(** Nora belongs to the sample project. *)
Lemma getProject_agrees_with_getProjects_witness :
  project_key (db sample_world) quest_project
  /\ env_fault sample_env at_select_project = None
  /\ env_fault sample_env at_select_projects = None
  /\ exists items,
       getProjects sample_env (Some nora) sample_world
       = (Success items, sample_world)
       /\ ((exists detail,
               getProject sample_env (Some nora) (p_id quest_project)
                          sample_world = (Success detail, sample_world)
               /\ pd_project detail = quest_project)
           <-> In quest_project (map li_project items)).
Proof.
  split; [reflexivity|]. split; [reflexivity|]. split; [reflexivity|].
  exact (getProject_agrees_with_getProjects
           sample_env nora sample_world quest_project
           eq_refl eq_refl eq_refl).
Defined.

Lemma admin_allowed :
  forall st u a r c, RoleOf st u = Some admin -> Decide st u a r c = Allow.
Proof.
  intros st u a r c H. unfold Decide, HasPermission, IsAdmin, has_role.
  rewrite H. reflexivity.
Qed.

Lemma admin_permitted :
  forall st u a r c, RoleOf st u = Some admin -> permitted st u a r c = true.
Proof.
  intros st u a r c H. apply Decide_permitted, admin_allowed. exact H.
Qed.

(** No row is hidden from an admin. *)
Lemma update_rows_admin :
  forall st u id (f : Project -> Project) l,
    RoleOf st u = Some admin ->
    map (fun p => if has_id id p
                     && permitted st u update res_projects
                          (project_ctx (p_id p))
                  then f p else p) l
    = map (fun p => if has_id id p then f p else p) l.
Proof.
  intros st u id f l H. apply map_ext. intros p.
  rewrite admin_permitted by exact H. rewrite andb_true_r. reflexivity.
Qed.

Lemma truthy_truthy : forall o, truthy (truthy o) = truthy o.
Proof.
  intros [s|]; [|reflexivity]. cbn. destruct (s =? "") eqn:H; [reflexivity|].
  cbn. rewrite H. reflexivity.
Qed.

(** The effect of an update an admin sends, no status given. *)
Lemma update_project_admin :
  forall env user id pt w,
    RoleOf (db w) user = Some admin ->
    env_fault env at_update_project = None ->
    set_status pt = None ->
    update_project env user id pt w
    = (Data tt,
       with_db (set_projects
                  (map (fun p => if has_id id p
                                 then patch_project pt (p_status p) p else p)
                       (projects (db w))) (db w))
               (logged (ReqUpdateProject id) w)).
Proof.
  intros env user id pt w Hrole Hfault Hstatus.
  unfold update_project, external. run.
  rewrite Hfault, Hstatus. cbv zeta. cbn [db].
  rewrite (update_rows_admin (db w) user id
             (fun p => patch_project pt (p_status p) p)) by exact Hrole.
  reflexivity.
Qed.

(** The effect of an update an admin sends, with a status of the enum. *)
Lemma update_project_admin_status :
  forall env user id pt w s st,
    RoleOf (db w) user = Some admin ->
    env_fault env at_update_project = None ->
    set_status pt = Some s ->
    parse_status s = Some st ->
    update_project env user id pt w
    = (Data tt,
       with_db (set_projects
                  (map (fun p => if has_id id p
                                 then patch_project pt st p else p)
                       (projects (db w))) (db w))
               (logged (ReqUpdateProject id) w)).
Proof.
  intros env user id pt w s st Hrole Hfault Hstatus Hparse.
  unfold update_project, external. run.
  rewrite Hfault, Hstatus, Hparse. cbv zeta. cbn [db].
  rewrite (update_rows_admin (db w) user id (patch_project pt st))
    by exact Hrole.
  reflexivity.
Qed.

(** X10.  [updateProject] does not tell a blank field from a missing
    one: an empty name, description, deadline or status is left out of
    the update, so no field can be emptied, while an empty [lead_id]
    clears the lead.  The blank form sent by an admin succeeds and
    changes only the lead of the project, to none. *)
Theorem updateProject_blank_fields :
  forall env user id formData w,
    RoleOf (db w) user = Some admin ->
    env_fault env at_update_project = None ->
    updateProject env (Some user) id formData w
    = updateProject env (Some user) id (drop_empty formData) w
    /\ updateProject env (Some user) id blank_form w
       = (Success tt,
          with_db (set_projects
                     (map (fun p => if has_id id p then with_lead None p else p)
                          (projects (db w))) (db w))
                  (logged (ReqUpdateProject id) w)).
Proof.
  intros env user id formData w Hrole Hfault. split.
  - unfold updateProject, drop_empty.
    cbn [up_name up_description up_deadline up_status up_lead_id].
    rewrite !truthy_truthy. reflexivity.
  - unfold updateProject, blank_form.
    cbn [up_name up_description up_deadline up_status up_lead_id truthy
         String.eqb].
    unfold bind.
    match goal with
    | |- context [update_project env user id ?pt w] =>
        rewrite (update_project_admin env user id pt w Hrole Hfault eq_refl)
    end.
    reflexivity.
Qed.

(** Alice sends the blank form for the sample project: Lisa no longer
    leads it, and its name stays. *)
Lemma updateProject_blank_fields_witness :
  RoleOf (db sample_world) alice = Some admin
  /\ env_fault sample_env at_update_project = None
  /\ projects (db (snd (updateProject sample_env (Some alice) quest
                                      blank_form sample_world)))
     = [with_lead None quest_project].
Proof.
  split; [reflexivity|]. split; [reflexivity|].
  rewrite (proj2 (updateProject_blank_fields
                    sample_env alice quest blank_form sample_world
                    eq_refl eq_refl)).
  reflexivity.
Defined.

Lemma createProjectSchema_data :
  forall env f parsed,
    createProjectSchema env f = Data parsed ->
    parsed = f
    /\ (2 <= String.length (cp_name f) <= 100)%nat
    /\ (10 <= String.length (cp_description f) <= 2000)%nat
    /\ (exists t, env_date_parse env (cp_deadline f) = Some t
                  /\ (env_now env < t)%Z)
    /\ (forall l, truthy (cp_lead_id f) = Some l -> is_uuid l = true).
Proof.
  intros env f parsed. unfold createProjectSchema.
  destruct (Nat.ltb_spec (String.length (cp_name f)) 2); [discriminate|].
  destruct (Nat.ltb_spec 100 (String.length (cp_name f))); [discriminate|].
  destruct (Nat.ltb_spec (String.length (cp_description f)) 10);
    [discriminate|].
  destruct (Nat.ltb_spec 2000 (String.length (cp_description f)));
    [discriminate|].
  destruct (env_date_parse env (cp_deadline f)) as [t|]; [|discriminate].
  destruct (Z.ltb_spec (env_now env) t); [|discriminate]. cbn [negb].
  intros Hlead.
  assert (Hparsed : parsed = f).
  { destruct (cp_lead_id f) as [l|]; [|congruence].
    destruct (is_uuid l || (l =? "")); congruence. }
  repeat split; try lia; try exact Hparsed.
  - exists t. split; [reflexivity|assumption].
  - intros l Hl. destruct (cp_lead_id f) as [l'|]; [|discriminate Hl].
    cbn in Hl. destruct (l' =? "") eqn:Hempty; [discriminate Hl|].
    injection Hl as ->. rewrite orb_false_r in Hlead.
    destruct (is_uuid l); [reflexivity|discriminate Hlead].
Qed.

(** X11.  [createProject] never throws: the deadline it converts has
    passed the schema.  [updateProject] validates nothing and throws a
    RangeError exactly when a signed-in caller gives a deadline that is
    not blank and does not parse; nothing has been sent then. *)
Theorem updateProject_throws_on_unparseable_deadline :
  forall env session id w,
    (forall formData x,
        fst (createProject env session formData w) <> Thrown x)
    /\ (forall formData x,
           fst (updateProject env session id formData w) = Thrown x
           <-> session <> None
               /\ x = range_error
               /\ exists s, truthy (up_deadline formData) = Some s
                            /\ env_date_parse env s = None)
    /\ (forall formData x,
           fst (updateProject env session id formData w) = Thrown x ->
           snd (updateProject env session id formData w) = w).
Proof.
  intros env session id w.
  assert (Hsent : forall user pt,
             exists r, (r <- update_project env user id pt ;;
                        match r with
                        | Error m => ret (Failure m)
                        | Data _ => ret (Success tt)
                        end) w
                       = (r, snd (update_project env user id pt w))
                       /\ forall x, r <> Thrown x).
  { intros user pt. unfold bind.
    destruct (update_project env user id pt w) as [[[]|m] w1];
      eexists; (split; [reflexivity|discriminate]). }
  split; [|split].
  - intros formData x. unfold createProject.
    destruct (createProjectSchema env formData) as [parsed|m] eqn:Hschema;
      [|discriminate].
    destruct (createProjectSchema_data _ _ _ Hschema)
      as (-> & _ & _ & (t & Ht & _) & _).
    destruct session as [user|]; [|discriminate].
    rewrite Ht. unfold bind.
    destruct (insert_project env user _ w) as [[[]|m] w1]; discriminate.
  - intros formData x. unfold updateProject.
    destruct session as [user|].
    + destruct (truthy (up_deadline formData)) as [s|].
      * destruct (env_date_parse env s) as [t|] eqn:Hparse.
        -- destruct (Hsent user
                       {| set_name := truthy (up_name formData);
                          set_description := truthy (up_description formData);
                          set_deadline := Some (env_toISOString env t);
                          set_status := truthy (up_status formData);
                          set_lead_id :=
                            match up_lead_id formData with
                            | None => None
                            | Some l => Some (truthy (Some l))
                            end |}) as (r & -> & Hr).
           cbn [fst]. split.
           ++ intros H. destruct (Hr x H).
           ++ intros (_ & _ & s' & Hs' & Hnone).
              injection Hs' as <-. congruence.
        -- cbn. split.
           ++ intros H. injection H as <-.
              split; [discriminate|]. split; [reflexivity|].
              exists s. split; [reflexivity|exact Hparse].
           ++ intros (_ & -> & _). reflexivity.
      * destruct (Hsent user
                    {| set_name := truthy (up_name formData);
                       set_description := truthy (up_description formData);
                       set_deadline := None;
                       set_status := truthy (up_status formData);
                       set_lead_id :=
                         match up_lead_id formData with
                         | None => None
                         | Some l => Some (truthy (Some l))
                         end |}) as (r & -> & Hr).
        cbn [fst]. split.
        -- intros H. destruct (Hr x H).
        -- intros (_ & _ & s' & Hs' & _). discriminate Hs'.
    + cbn. split; [discriminate|]. intros (H & _). contradiction H.
      reflexivity.
  - intros formData x. unfold updateProject.
    destruct session as [user|]; [|reflexivity].
    destruct (truthy (up_deadline formData)) as [s|].
    + destruct (env_date_parse env s) as [t|]; [|reflexivity].
      match goal with
      | |- context [update_project env user id ?pt] =>
          destruct (Hsent user pt) as (r & -> & Hr)
      end.
      cbn [fst]. intros H. destruct (Hr x H).
    + match goal with
      | |- context [update_project env user id ?pt] =>
          destruct (Hsent user pt) as (r & -> & Hr)
      end.
      cbn [fst]. intros H. destruct (Hr x H).
Qed.

Lemma status_update :
  forall env user id w s st,
    RoleOf (db w) user = Some admin ->
    env_fault env at_update_project = None ->
    (s =? "") = false ->
    parse_status s = Some st ->
    updateProject env (Some user) id (status_only s) w
    = (Success tt,
       with_db (set_projects
                  (map (fun p => if has_id id p then with_status st p else p)
                       (projects (db w))) (db w))
               (logged (ReqUpdateProject id) w)).
Proof.
  intros env user id w s st Hrole Hfault Hs Hparse.
  unfold updateProject, status_only.
  cbn [up_name up_description up_deadline up_status up_lead_id truthy].
  rewrite Hs. unfold bind.
  match goal with
  | |- context [update_project env user id ?pt w] =>
      rewrite (update_project_admin_status env user id pt w s st
                 Hrole Hfault eq_refl Hparse)
  end.
  reflexivity.
Qed.

Lemma set_projects_same :
  forall d l, l = projects d -> set_projects l d = d.
Proof. intros [] l ->. reflexivity. Qed.

(** X12.  [markProjectComplete] sets the status of the project and
    nothing else, and [markProjectActive] undoes it: after both, sent by
    an admin for an active project, the tables are as before. *)
Theorem markProjectComplete_then_active_restores :
  forall env1 env2 user id w,
    RoleOf (db w) user = Some admin ->
    env_fault env1 at_update_project = None ->
    env_fault env2 at_update_project = None ->
    (forall p, In p (projects (db w)) -> has_id id p = true ->
               p_status p = active) ->
    fst (markProjectComplete env1 (Some user) id w) = Success tt
    /\ projects (db (snd (markProjectComplete env1 (Some user) id w)))
       = map (fun p => if has_id id p then with_status completed p else p)
             (projects (db w))
    /\ fst (markProjectActive env2 (Some user) id
              (snd (markProjectComplete env1 (Some user) id w))) = Success tt
    /\ db (snd (markProjectActive env2 (Some user) id
                  (snd (markProjectComplete env1 (Some user) id w))))
       = db w.
Proof.
  intros env1 env2 user id w Hrole Hf1 Hf2 Hactive.
  unfold markProjectComplete, markProjectActive.
  rewrite (status_update env1 user id w "completed" completed
             Hrole Hf1 eq_refl eq_refl).
  cbn [fst snd]. split; [reflexivity|]. split; [reflexivity|].
  match goal with
  | |- context [updateProject env2 (Some user) id (status_only "active") ?w1] =>
      assert (Hrole1 : RoleOf (db w1) user = Some admin) by exact Hrole;
      rewrite (status_update env2 user id w1 "active" active
                 Hrole1 Hf2 eq_refl eq_refl)
  end.
  cbn [fst snd]. split; [reflexivity|].
  cbn [db with_db logged set_projects projects auth_users profiles user_roles
       project_members documents document_versions].
  rewrite map_map.
  destruct (db w) as [au pr ur ps pm ds vs] eqn:Hdb.
  cbn [projects auth_users profiles user_roles project_members documents
       document_versions] in *.
  unfold set_projects.
  cbn [projects auth_users profiles user_roles project_members documents
       document_versions].
  f_equal.
  rewrite <- (map_id ps) at 2. apply map_ext_in. intros p Hp.
  destruct (has_id id p) eqn:Hid.
  - pose proof (Hactive p Hp Hid) as Hst.
    unfold has_id in *. cbn [with_status p_id]. rewrite Hid.
    destruct p; cbn in *. subst. reflexivity.
  - rewrite Hid. reflexivity.
Qed.

(** Alice completes and reopens the sample project. *)
Lemma markProjectComplete_then_active_restores_witness :
  RoleOf (db sample_world) alice = Some admin
  /\ env_fault sample_env at_update_project = None
  /\ (forall p, In p (projects (db sample_world)) -> has_id quest p = true ->
                p_status p = active)
  /\ projects (db (snd (markProjectComplete sample_env (Some alice) quest
                                            sample_world)))
     = [with_status completed quest_project]
  /\ db (snd (markProjectActive sample_env (Some alice) quest
                (snd (markProjectComplete sample_env (Some alice) quest
                                          sample_world))))
     = db sample_world.
Proof.
  assert (Hactive : forall p, In p (projects (db sample_world)) ->
                              has_id quest p = true -> p_status p = active).
  { intros p [<-|[]] _. reflexivity. }
  split; [reflexivity|]. split; [reflexivity|]. split; [exact Hactive|].
  destruct (markProjectComplete_then_active_restores
              sample_env sample_env alice quest sample_world
              eq_refl eq_refl eq_refl Hactive) as (_ & Hdone & _ & Hback).
  split; [exact Hdone|exact Hback].
Defined.

(** X13.  Every project [createProject] stores has passed the schema:
    the call succeeds only for a signed-in caller and a deadline in the
    future, and then exactly one row is added; it carries the name and
    description within their bounds, is active, was created by the
    caller, and has no lead or a lead that is a well-formed identifier. *)
Theorem createProject_stores_a_valid_project :
  forall env session formData w,
    fst (createProject env session formData w) = Success tt ->
    exists user t row,
      session = Some user
      /\ env_date_parse env (cp_deadline formData) = Some t
      /\ (env_now env < t)%Z
      /\ projects (db (snd (createProject env session formData w)))
         = projects (db w) ++ [row]
      /\ row = {| p_id := env_new_id env;
                  p_name := cp_name formData;
                  p_description := cp_description formData;
                  p_deadline := env_toISOString env t;
                  p_status := active;
                  p_created_by := user;
                  p_lead_id := truthy (cp_lead_id formData);
                  p_created_at := env_now env |}
      /\ (2 <= String.length (p_name row) <= 100)%nat
      /\ (10 <= String.length (p_description row) <= 2000)%nat
      /\ (forall l, p_lead_id row = Some l -> is_uuid l = true)
      /\ existsb (has_id (env_new_id env)) (projects (db w)) = false.
Proof.
  intros env session formData w. unfold createProject.
  destruct (createProjectSchema env formData) as [parsed|m] eqn:Hschema;
    [|discriminate].
  destruct (createProjectSchema_data _ _ _ Hschema)
    as (-> & Hname & Hdesc & (t & Ht & Hfuture) & Hlead).
  destruct session as [user|]; [|discriminate].
  rewrite Ht. unfold insert_project, guarded, external, guard. run.
  destruct (env_fault env at_insert_project); [discriminate|].
  match goal with
  | |- context [permitted ?d ?u ?a ?r ?c] => destruct (permitted d u a r c)
  end; [|discriminate].
  cbn [db p_id].
  destruct (existsb (has_id (env_new_id env)) (projects (db w))) eqn:Hfresh;
    [discriminate|].
  intros _. cbn [fst snd db with_db set_projects projects].
  exists user, t. eexists. repeat split; try reflexivity; cbn; try lia;
    try exact Ht; try exact Hlead.
Qed.

(** Alice creates a project without a lead. *)
Lemma createProject_stores_a_valid_project_witness :
  fst (createProject sample_env (Some alice) shooter_form sample_world)
  = Success tt
  /\ exists row,
       projects (db (snd (createProject sample_env (Some alice) shooter_form
                                        sample_world)))
       = projects (db sample_world) ++ [row]
       /\ p_status row = active /\ p_lead_id row = None.
Proof.
  split; [reflexivity|].
  destruct (createProject_stores_a_valid_project
              sample_env (Some alice) shooter_form sample_world eq_refl)
    as (user & t & row & _ & _ & _ & Hrows & Hrow & _).
  exists row. split; [exact Hrows|]. rewrite Hrow. split; reflexivity.
Defined.

Lemma negb_eqb_true :
  forall a b : string, negb (a =? b) = true <-> a <> b.
Proof.
  intros a b. destruct (String.eqb_spec a b); cbn; split;
    congruence.
Qed.

(** X14.  When an admin deletes a project, the rows of the project, its
    memberships, its documents and the versions of those documents are
    gone and every other row stays; the objects in the storage bucket
    are not touched, those of the deleted documents included. *)
Theorem deleteProject_cascades_and_keeps_the_bucket :
  forall env user id w,
    RoleOf (db w) user = Some admin ->
    env_fault env at_delete_project = None ->
    fst (deleteProject env (Some user) id w) = Success tt
    /\ (forall p, In p (projects (db (snd (deleteProject env (Some user) id w))))
                  <-> In p (projects (db w)) /\ p_id p <> id)
    /\ (forall m, In m (project_members
                          (db (snd (deleteProject env (Some user) id w))))
                  <-> In m (project_members (db w)) /\ pm_project_id m <> id)
    /\ (forall d, In d (documents (db (snd (deleteProject env (Some user) id w))))
                  <-> In d (documents (db w)) /\ d_project_id d <> id)
    /\ (forall v, In v (document_versions
                          (db (snd (deleteProject env (Some user) id w))))
                  <-> In v (document_versions (db w))
                      /\ forall d, In d (documents (db w)) ->
                                   d_id d = v_document_id v ->
                                   d_project_id d <> id)
    /\ bucket (snd (deleteProject env (Some user) id w)) = bucket w.
Proof.
  intros env user id w Hrole Hfault.
  assert (Hrun : deleteProject env (Some user) id w
                 = (Success tt,
                    with_db (cascade_delete_project id (db w))
                            (logged (ReqDeleteProject id) w))).
  { unfold deleteProject, delete_project, external. run.
    rewrite Hfault. cbn [db]. rewrite admin_permitted by exact Hrole.
    reflexivity. }
  rewrite Hrun. cbn [fst snd db with_db bucket logged].
  unfold cascade_delete_project.
  cbn [projects project_members documents document_versions].
  split; [reflexivity|].
  split; [|split; [|split; [|split; [|reflexivity]]]].
  - intros p. rewrite filter_In. unfold has_id. rewrite negb_eqb_true.
    reflexivity.
  - intros m. rewrite filter_In, negb_eqb_true. reflexivity.
  - intros d. rewrite filter_In, negb_eqb_true. reflexivity.
  - intros v. rewrite filter_In. apply and_iff_compat_l.
    rewrite negb_true_iff. split.
    + intros Hmem d Hd Hid Hproject.
      assert (Hin : mem (v_document_id v)
                        (map d_id (filter (fun doc => d_project_id doc =? id)
                                          (documents (db w)))) = true).
      { apply mem_In. apply in_map_iff. exists d. split; [exact Hid|].
        apply filter_In. split; [exact Hd|].
        rewrite Hproject. apply String.eqb_refl. }
      congruence.
    + intros Hnone. apply not_true_is_false. intros Hmem.
      apply mem_In in Hmem. apply in_map_iff in Hmem.
      destruct Hmem as (d & Hid & Hd). apply filter_In in Hd.
      destruct Hd as [Hd Hproject]. apply String.eqb_eq in Hproject.
      exact (Hnone d Hd Hid Hproject).
Qed.

(** Alice deletes the sample project: its document and the version row
    are gone, the stored file is still in the bucket. *)
Lemma deleteProject_cascades_and_keeps_the_bucket_witness :
  RoleOf (db sample_world) alice = Some admin
  /\ env_fault sample_env at_delete_project = None
  /\ documents (db (snd (deleteProject sample_env (Some alice) quest
                                       sample_world))) = []
  /\ document_versions (db (snd (deleteProject sample_env (Some alice) quest
                                               sample_world))) = []
  /\ bucket (snd (deleteProject sample_env (Some alice) quest sample_world))
     = [(design_v1_path, design_v1)].
Proof.
  split; [reflexivity|]. split; [reflexivity|].
  split; [reflexivity|]. split; [reflexivity|].
  exact (proj2 (proj2 (proj2 (proj2 (proj2
           (deleteProject_cascades_and_keeps_the_bucket
              sample_env alice quest sample_world eq_refl eq_refl)))))).
Defined.

(* ===================================================================== *)
(** * 20. Members                                                         *)
(* ===================================================================== *)

Lemma IsMemberOf_In :
  forall d u pid,
    IsMemberOf d u pid = true
    <-> In (pid, u) (map (fun m => (pm_project_id m, pm_user_id m))
                         (project_members d)).
Proof.
  intros d u pid. unfold IsMemberOf. rewrite existsb_exists, in_map_iff.
  split.
  - intros (m & Hm & Hb). apply andb_prop in Hb. destruct Hb as [Hp Hu].
    apply String.eqb_eq in Hp, Hu. exists m. split; [congruence|exact Hm].
  - intros (m & Hm & Hin). injection Hm as <- <-. exists m.
    split; [exact Hin|]. rewrite !String.eqb_refl. reflexivity.
Qed.

(** The ways [assignMember] ends. *)
Lemma assignMember_cases :
  forall env other user projectId userId w,
    (assignMember env other (Some user) projectId userId w
     = (Success tt,
        with_db (set_project_members
                   (project_members (db w)
                      ++ [ {| pm_id := env_new_id env;
                              pm_project_id := projectId;
                              pm_user_id := userId;
                              pm_assigned_at := env_now env |} ])
                   (db w)) w)
     /\ other at_insert_member = None
     /\ permitted (db w) user create res_project_members
                  (project_ctx projectId) = true
     /\ IsMemberOf (db w) userId projectId = false
     /\ existsb (has_id projectId) (projects (db w)) = true
     /\ existsb (fun a => au_id a =? userId) (auth_users (db w)) = true)
    \/ (exists m,
           assignMember env other (Some user) projectId userId w
           = (Failure m, w)
           /\ (m = already_assigned ->
               other at_insert_member = None ->
               IsMemberOf (db w) userId projectId = true)
           /\ (other at_insert_member = None ->
               permitted (db w) user create res_project_members
                         (project_ctx projectId) = true ->
               IsMemberOf (db w) userId projectId = true ->
               m = already_assigned)).
Proof.
  intros env other user projectId userId w.
  unfold assignMember, insert_member, guard. run.
  cbn [mi_project_id mi_user_id].
  destruct (other at_insert_member) as [m|].
  - right. exists m. cbn. repeat split; intros; discriminate.
  - destruct (permitted (db w) user create res_project_members
                        (project_ctx projectId)); cbn [fst].
    + destruct (IsMemberOf (db w) userId projectId).
      * right. eexists. cbn. repeat split; reflexivity.
      * destruct (existsb (has_id projectId) (projects (db w))).
        -- destruct (existsb (fun a => au_id a =? userId) (auth_users (db w))).
           ++ left. cbn. repeat split; reflexivity.
           ++ right. eexists. cbn. repeat split; intros; discriminate.
        -- right. eexists. cbn. repeat split; intros; discriminate.
    + right. eexists. cbn. repeat split; intros; discriminate.
Qed.

(** X15.  [assignMember] keeps the pair of project and user a key of
    [project_members], whoever calls it: a user who is a member already
    is not added again, the call fails and changes nothing, and the
    caller who may manage the members is told that the user is already
    assigned. *)
Theorem assignMember_keeps_memberships_unique :
  forall env other session projectId userId w,
    memberships_unique (db w) ->
    memberships_unique
      (db (snd (assignMember env other session projectId userId w)))
    /\ (IsMemberOf (db w) userId projectId = true ->
        rejected (fst (assignMember env other session projectId userId w))
        /\ snd (assignMember env other session projectId userId w) = w
        /\ forall user,
            session = Some user ->
            other at_insert_member = None ->
            Decide (db w) user create res_project_members
                   (project_ctx projectId) = Allow ->
            fst (assignMember env other session projectId userId w)
            = Failure already_assigned).
Proof.
  intros env other session projectId userId w Hunique.
  destruct session as [user|].
  2: { cbn. split; [exact Hunique|]. intros _.
       split; [exact I|]. split; [reflexivity|]. intros user H.
       discriminate H. }
  destruct (assignMember_cases env other user projectId userId w)
    as [(Hrun & _ & _ & Hnew & _)|(m & Hrun & _ & Hdup)]; rewrite Hrun;
    cbn [fst snd db with_db].
  - split.
    + unfold memberships_unique, set_project_members.
      cbn [project_members]. rewrite map_app. cbn [map].
      eapply Permutation_NoDup; [apply Permutation_cons_append|].
      constructor; [|exact Hunique].
      cbn [pm_project_id pm_user_id].
      intros Hin. apply IsMemberOf_In in Hin. congruence.
    + intros Hmember. congruence.
  - split; [exact Hunique|]. intros Hmember.
    split; [exact I|]. split; [reflexivity|].
    intros user' Huser Hfault Hallow. injection Huser as <-.
    rewrite (Hdup Hfault (Decide_permitted _ _ _ _ _ Hallow) Hmember).
    reflexivity.
Qed.

(** Lisa assigns David, who is a member of the sample project already. *)
Lemma assignMember_keeps_memberships_unique_witness :
  memberships_unique (db sample_world)
  /\ IsMemberOf (db sample_world) david quest = true
  /\ assignMember sample_env no_other_fault (Some lisa) quest david
                  sample_world
     = (Failure already_assigned, sample_world).
Proof.
  assert (Hunique : memberships_unique (db sample_world)).
  { unfold memberships_unique. cbn.
    constructor; [intros [H|[]]; discriminate H|].
    constructor; [intros []|constructor]. }
  split; [exact Hunique|]. split; [reflexivity|].
  destruct (assignMember_keeps_memberships_unique
              sample_env no_other_fault (Some lisa) quest david sample_world
              Hunique) as [_ H].
  destruct (H eq_refl) as (_ & Hworld & Hmessage).
  rewrite (surjective_pairing (assignMember _ _ _ _ _ _)).
  rewrite Hworld, (Hmessage lisa eq_refl eq_refl eq_refl). reflexivity.
Defined.

Lemma filter_fresh_row :
  forall (A : Type) (f : A -> bool) (l : list A) (x : A),
    existsb f l = false -> f x = true ->
    filter (fun y => negb (f y)) (l ++ [x]) = l.
Proof.
  intros A f l x Hl Hx. rewrite filter_app, filter_none by assumption.
  cbn. rewrite Hx. cbn. apply app_nil_r.
Qed.

(** Who may add members of a project may remove them, whatever the
    memberships are. *)
Lemma manage_members_stable :
  forall d l u c,
    permitted d u create res_project_members c = true ->
    permitted (set_project_members l d) u delete res_project_members c = true.
Proof.
  intros d l u c. unfold permitted, Decide, HasPermission, patch_policy.
  change (IsAdmin (set_project_members l d) u) with (IsAdmin d u).
  change (IsProjectLead (set_project_members l d) u) with (IsProjectLead d u).
  change (IsLeadOf (set_project_members l d) u (project_id c))
    with (IsLeadOf d u (project_id c)).
  change (token_role (set_project_members l d) u) with (token_role d u).
  change (get_my_led_project_ids (set_project_members l d) u)
    with (get_my_led_project_ids d u).
  cbn [is_read].
  destruct (IsAdmin d u); [reflexivity|].
  destruct (IsProjectLead d u && IsLeadOf d u (project_id c));
    [reflexivity|].
  rewrite !andb_false_r. cbn [orb andb].
  destruct (claims (token_role d u) "project_lead"
            && mem (project_id c) (get_my_led_project_ids d u));
    [reflexivity|discriminate].
Qed.

Lemma set_project_members_same :
  forall d l, l = project_members d -> set_project_members l d = d.
Proof. intros [] l ->. reflexivity. Qed.

(** X16.  [removeMember] undoes [assignMember]: after a successful
    assignment the same caller can remove the member, and the tables are
    then as they were before the assignment. *)
Theorem removeMember_undoes_assignMember :
  forall env other1 other2 user projectId userId w,
    fst (assignMember env other1 (Some user) projectId userId w) = Success tt ->
    other2 at_delete_member = None ->
    fst (removeMember other2 (Some user) projectId userId
           (snd (assignMember env other1 (Some user) projectId userId w)))
    = Success tt
    /\ db (snd (removeMember other2 (Some user) projectId userId
                  (snd (assignMember env other1 (Some user) projectId userId
                                     w))))
       = db w.
Proof.
  intros env other1 other2 user projectId userId w Hok Hfault.
  destruct (assignMember_cases env other1 user projectId userId w)
    as [(Hrun & _ & Hallow & Hnew & _)|(m & Hrun & _)];
    rewrite Hrun in Hok |- *; [|discriminate Hok].
  cbn [snd]. unfold removeMember, delete_member. run.
  cbn [db with_db].
  rewrite Hfault, (manage_members_stable _ _ _ _ Hallow).
  cbn [fst snd db with_db].
  split; [reflexivity|].
  unfold set_project_members at 1. cbn [project_members set_project_members].
  unfold IsMemberOf in Hnew.
  rewrite (filter_fresh_row ProjectMember
             (fun m => (pm_project_id m =? projectId)
                       && (pm_user_id m =? userId))).
  - destruct (db w); reflexivity.
  - exact Hnew.
  - cbn. rewrite !String.eqb_refl. reflexivity.
Qed.

(** Lisa adds Dana to the sample project and removes her again. *)
Lemma removeMember_undoes_assignMember_witness :
  fst (assignMember sample_env no_other_fault (Some lisa) quest dana
                    sample_world) = Success tt
  /\ no_other_fault at_delete_member = None
  /\ db (snd (removeMember no_other_fault (Some lisa) quest dana
                (snd (assignMember sample_env no_other_fault (Some lisa)
                                   quest dana sample_world))))
     = db sample_world.
Proof.
  split; [reflexivity|]. split; [reflexivity|].
  exact (proj2 (removeMember_undoes_assignMember
                  sample_env no_other_fault no_other_fault lisa quest dana
                  sample_world eq_refl eq_refl)).
Defined.

(** A member of a project finds it in the list. *)
Lemma member_is_listed :
  forall env user w project,
    project_key (db w) project ->
    IsMemberOf (db w) user (p_id project) = true ->
    env_fault env at_select_projects = None ->
    exists items,
      getProjects env (Some user) w = (Success items, w)
      /\ In project (map li_project items).
Proof.
  intros env user w project Hkey Hmember Hall.
  assert (Hin : In project (projects (db w))).
  { assert (H : In project (filter (has_id (p_id project)) (projects (db w))))
      by (rewrite Hkey; left; reflexivity).
    apply filter_In in H. exact (proj1 H). }
  destruct (getProjects_reads env user w Hall) as (items & Hrun & Hrows & _).
  exists items. split; [exact Hrun|].
  rewrite (map_li_project _ _ Hrows).
  assert (Hlisted : In (project, members_of (db w) (p_id project))
                       (map (fun p => (p, members_of (db w) (p_id p)))
                            (order_created_at_desc (projects (db w))))).
  { apply (in_map (fun q => (q, members_of (db w) (p_id q)))).
    eapply Permutation_in;
      [apply Permutation_sym, order_created_at_desc_perm|exact Hin]. }
  apply in_map_iff. exists (project, members_of (db w) (p_id project)).
  split; [reflexivity|].
  destruct (negb _); [|exact Hlisted].
  apply filter_In. split; [exact Hlisted|].
  cbn [fst snd]. rewrite is_member_members_of, Hmember. apply orb_true_r.
Qed.

(** X17.  An assignment takes effect at once, and whatever role the new
    member has: after a successful [assignMember] the assigned user is
    given the details of the project by [getProject] and finds it in the
    list of [getProjects]. *)
Theorem assignMember_grants_project_access :
  forall env other user userId w project env',
    project_key (db w) project ->
    fst (assignMember env other (Some user) (p_id project) userId w)
    = Success tt ->
    env_fault env' at_select_project = None ->
    env_fault env' at_select_projects = None ->
    exists detail items,
      fst (getProject env' (Some userId) (p_id project)
             (snd (assignMember env other (Some user) (p_id project) userId w)))
      = Success detail
      /\ pd_project detail = project
      /\ fst (getProjects env' (Some userId)
                (snd (assignMember env other (Some user) (p_id project)
                                   userId w)))
         = Success items
      /\ In project (map li_project items).
Proof.
  intros env other user userId w project env' Hkey Hok Hone Hall.
  destruct (assignMember_cases env other user (p_id project) userId w)
    as [(Hrun & _)|(m & Hrun & _)];
    rewrite Hrun in Hok |- *; [|discriminate Hok].
  cbn [snd].
  match goal with
  | |- context [getProject env' (Some userId) (p_id project) ?w1] =>
      set (w1' := w1)
  end.
  assert (Hkey1 : project_key (db w1') project) by exact Hkey.
  assert (Hmember : IsMemberOf (db w1') userId (p_id project) = true).
  { unfold IsMemberOf, w1'. cbn [db with_db set_project_members project_members].
    rewrite existsb_app. cbn. rewrite !String.eqb_refl. apply orb_true_r. }
  destruct (getProject_reads env' userId w1' project Hkey1 Hone)
    as (detail & Hdetail & Hget).
  rewrite Hmember, !orb_true_r in Hget.
  destruct (member_is_listed env' userId w1' project Hkey1 Hmember Hall)
    as (items & Hlist & Hin).
  exists detail, items. rewrite Hget, Hlist. cbn [fst].
  split; [reflexivity|]. split; [exact Hdetail|]. split; [reflexivity|].
  exact Hin.
Qed.

(** Lisa assigns Dana to the sample project; Dana opens it. *)
Lemma assignMember_grants_project_access_witness :
  project_key (db sample_world) quest_project
  /\ fst (assignMember sample_env no_other_fault (Some lisa)
                       (p_id quest_project) dana sample_world) = Success tt
  /\ exists detail,
       fst (getProject sample_env (Some dana) (p_id quest_project)
              (snd (assignMember sample_env no_other_fault (Some lisa)
                                 (p_id quest_project) dana sample_world)))
       = Success detail
       /\ pd_project detail = quest_project.
Proof.
  split; [reflexivity|]. split; [reflexivity|].
  destruct (assignMember_grants_project_access
              sample_env no_other_fault lisa dana sample_world quest_project
              sample_env eq_refl eq_refl eq_refl eq_refl)
    as (detail & items & Hget & Hdetail & _).
  exists detail. split; [exact Hget|exact Hdetail].
Defined.

Lemma existsb_filter_negb :
  forall (A : Type) (f : A -> bool) (l : list A),
    existsb f (filter (fun x => negb (f x)) l) = false.
Proof.
  intros A f l. induction l as [|a l IH]; [reflexivity|].
  cbn. destruct (f a) eqn:Ha; cbn; [exact IH|]. rewrite Ha. exact IH.
Qed.

(** The two ways [removeMember] ends for a signed-in caller when the
    call itself does not fail: the row is removed, or the caller may not
    remove it and nothing changes; the answer is success either way. *)
Lemma removeMember_cases :
  forall other user projectId userId w,
    other at_delete_member = None ->
    removeMember other (Some user) projectId userId w
    = (Success tt,
       if permitted (db w) user delete res_project_members
                    (project_ctx projectId)
       then with_db (set_project_members
                       (filter (fun m => negb ((pm_project_id m =? projectId)
                                               && (pm_user_id m =? userId)))
                               (project_members (db w)))
                       (db w)) w
       else w).
Proof.
  intros other user projectId userId w Hfault.
  unfold removeMember, delete_member. run. rewrite Hfault.
  destruct (permitted (db w) user delete res_project_members
                      (project_ctx projectId)); reflexivity.
Qed.

(** X18.  A removal by a caller who may remove members takes effect at
    once: after [removeMember] the removed user, unless their role is
    admin or they lead the project, is refused the details of the
    project.  A caller who may not remove members is answered success as
    well, and nothing has changed: the member is still served. *)
Theorem removeMember_revokes_project_access :
  forall other user userId w project env',
    project_key (db w) project ->
    other at_delete_member = None ->
    fst (select_role env' userId w) <> Some admin ->
    opt_eqb (p_lead_id project) userId = false ->
    env_fault env' at_select_project = None ->
    fst (removeMember other (Some user) (p_id project) userId w) = Success tt
    /\ (permitted (db w) user delete res_project_members
                  (project_ctx (p_id project)) = true ->
        fst (getProject env' (Some userId) (p_id project)
               (snd (removeMember other (Some user) (p_id project) userId w)))
        = Failure "Access denied - you are not a member of this project")
    /\ (permitted (db w) user delete res_project_members
                  (project_ctx (p_id project)) = false ->
        snd (removeMember other (Some user) (p_id project) userId w) = w
        /\ (IsMemberOf (db w) userId (p_id project) = true ->
            exists detail,
              fst (getProject env' (Some userId) (p_id project)
                     (snd (removeMember other (Some user) (p_id project)
                                        userId w)))
              = Success detail
              /\ pd_project detail = project)).
Proof.
  intros other user userId w project env' Hkey Hfault Hrole Hlead Hone.
  rewrite (removeMember_cases other user (p_id project) userId w Hfault).
  cbn [fst snd]. split; [reflexivity|]. split.
  - intros ->.
    match goal with
    | |- context [getProject env' (Some userId) (p_id project) ?w1] =>
        set (w1' := w1)
    end.
    assert (Hkey1 : project_key (db w1') project) by exact Hkey.
    destruct (getProject_reads env' userId w1' project Hkey1 Hone)
      as (detail & _ & Hget).
    rewrite Hget. cbn [fst].
    assert (Hgone : IsMemberOf (db w1') userId (p_id project) = false).
    { unfold IsMemberOf, w1'.
      cbn [db with_db set_project_members project_members].
      apply (existsb_filter_negb ProjectMember
               (fun m => (pm_project_id m =? p_id project)
                         && (pm_user_id m =? userId))). }
    assert (Hnot : AppRole_eqb
                     (role_or_developer (fst (select_role env' userId w1')))
                     admin = false).
    { revert Hrole. unfold select_role.
      destruct (env_fault env' at_select_role); cbn [fst]; [reflexivity|].
      change (RoleOf (db w1') userId) with (RoleOf (db w) userId).
      destruct (RoleOf (db w) userId) as [[| |]|]; try reflexivity.
      intros Hrole. contradiction Hrole. reflexivity. }
    rewrite Hnot, Hlead, Hgone. reflexivity.
  - intros ->. split; [reflexivity|]. intros Hmember.
    destruct (getProject_reads env' userId w project Hkey Hone)
      as (detail & Hdetail & Hget).
    exists detail. rewrite Hget, Hmember, !orb_true_r. cbn [fst].
    split; [reflexivity|exact Hdetail].
Qed.

(** Lisa removes David, a developer, from the sample project, and David
    is refused.  When David himself removes Nora, he is answered success
    and Nora is still a member. *)
Lemma removeMember_revokes_project_access_witness :
  project_key (db sample_world) quest_project
  /\ fst (getProject sample_env (Some david) (p_id quest_project)
            (snd (removeMember no_other_fault (Some lisa)
                               (p_id quest_project) david sample_world)))
     = Failure "Access denied - you are not a member of this project"
  /\ fst (removeMember no_other_fault (Some david) (p_id quest_project) nora
                       sample_world) = Success tt
  /\ snd (removeMember no_other_fault (Some david) (p_id quest_project) nora
                       sample_world) = sample_world.
Proof.
  split; [reflexivity|].
  assert (Hdavid : fst (select_role sample_env david sample_world)
                   <> Some admin) by discriminate.
  assert (Hnora : fst (select_role sample_env nora sample_world)
                  <> Some admin) by discriminate.
  destruct (removeMember_revokes_project_access
              no_other_fault lisa david sample_world quest_project sample_env
              eq_refl eq_refl Hdavid eq_refl eq_refl) as (_ & Hgone & _).
  destruct (removeMember_revokes_project_access
              no_other_fault david nora sample_world quest_project sample_env
              eq_refl eq_refl Hnora eq_refl eq_refl) as (Hok & _ & Hstays).
  split; [exact (Hgone eq_refl)|].
  split; [exact Hok|exact (proj1 (Hstays eq_refl))].
Defined.

Lemma mem_member_ids :
  forall d u pid,
    mem u (map pm_user_id (members_of d pid)) = IsMemberOf d u pid.
Proof.
  intros d u pid. rewrite <- is_member_members_of. unfold mem, is_member.
  induction (members_of d pid) as [|m l IH]; [reflexivity|].
  cbn. rewrite IH. reflexivity.
Qed.

(** X19.  The users [getAvailableMembers] offers for a project are the
    profiles that are neither members nor the lead, in the order of the
    profiles; assigning an offered user is never answered with "already
    assigned". *)
Theorem getAvailableMembers_offers_assignable_users :
  forall w projectId allProfiles lead available,
    getAvailableMembers
      (Data allProfiles)
      (Some (map pm_user_id (members_of (db w) projectId)))
      (Some lead)
    = Success available ->
    available
    = filter (fun p => negb (IsMemberOf (db w) (pr_id p) projectId)
                       && negb (opt_eqb lead (pr_id p))) allProfiles
    /\ forall p env other user,
        In p available ->
        other at_insert_member = None ->
        fst (assignMember env other (Some user) projectId (pr_id p) w)
        <> Failure already_assigned.
Proof.
  intros w projectId allProfiles lead available Hget.
  pose proof (fun p : Profile => mem_member_ids (db w) (pr_id p) projectId)
    as Hmem.
  unfold getAvailableMembers in Hget. cbn [or_else] in Hget.
  injection Hget as <-.
  split.
  - apply filter_ext. intros p. rewrite Hmem. reflexivity.
  - intros p env other user Hin Hfault Hfail.
    apply filter_In in Hin. destruct Hin as [_ Hp].
    apply andb_prop in Hp. destruct Hp as [Hp _].
    rewrite Hmem in Hp.
    destruct (assignMember_cases env other user projectId (pr_id p) w)
      as [(Hrun & _)|(m & Hrun & Hdup & _)]; rewrite Hrun in Hfail;
      [discriminate Hfail|].
    injection Hfail as ->. rewrite (Hdup eq_refl Hfault) in Hp.
    discriminate Hp.
Qed.

(** For the sample project only Alice and Dana are offered. *)
Lemma getAvailableMembers_offers_assignable_users_witness :
  getAvailableMembers
    (Data (profiles sample_db))
    (Some (map pm_user_id (members_of (db sample_world) quest)))
    (Some (Some lisa))
  = Success [profile alice "alice"; profile dana "dana"]
  /\ fst (assignMember sample_env no_other_fault (Some lisa) quest
                       (pr_id (profile dana "dana")) sample_world)
     <> Failure already_assigned.
Proof.
  split; [reflexivity|].
  apply (proj2 (getAvailableMembers_offers_assignable_users
                  sample_world quest (profiles sample_db) (Some lisa)
                  [profile alice "alice"; profile dana "dana"] eq_refl)
               (profile dana "dana") sample_env no_other_fault lisa).
  - right. left. reflexivity.
  - reflexivity.
Defined.

(* ===================================================================== *)
(** * 21. Further facts about the document actions                        *)
(* ===================================================================== *)

Lemma upload_data :
  forall env path file w w2,
    upload env path file w = (Data tt, w2) ->
    env_fault env at_upload = None
    /\ occupied path w = false
    /\ w2 = with_bucket (bucket w ++ [(path, file)])
                        (logged (ReqUpload path file) w).
Proof.
  intros env path file w w2. unfold upload. run.
  destruct (env_fault env at_upload); [discriminate|].
  change (occupied path
            {| db := db w; bucket := bucket w;
               requests := requests w ++ [ReqUpload path file] |})
    with (occupied path w).
  destruct (occupied path w); [discriminate|].
  intros H. injection H as <-. repeat split.
Qed.

Lemma insert_version_cases :
  forall env u v w,
    (insert_version env u v w
     = (Data tt,
        with_db (set_document_versions (document_versions (db w) ++ [v])
                                       (db w))
                (logged (ReqInsertVersion v) w)))
    \/ (exists m,
           insert_version env u v w
           = (Error m, logged (ReqInsertVersion v) w)).
Proof.
  intros env u v w. unfold insert_version, guarded, external, guard. run.
  destruct (env_fault env at_insert_version) as [m|];
    [right; exists m; reflexivity|].
  match goal with
  | |- context [permitted ?d ?x ?a ?r ?c] => destruct (permitted d x a r c)
  end; [left|right; eexists]; reflexivity.
Qed.

Lemma occupied_last :
  forall path file w b,
    occupied path {| db := db w; bucket := b ++ [(path, file)];
                     requests := requests w |} = true.
Proof.
  intros path file w b. unfold occupied. cbn [bucket].
  rewrite existsb_app. cbn. rewrite String.eqb_refl. apply orb_true_r.
Qed.

Lemma signs_occupied :
  forall env session path w,
    env_fault env at_sign_url = None ->
    occupied path w = true ->
    getDocumentDownloadUrl env session path w
    = (if may_download (db w) session path
       then Success {| su_path := path; su_expires_in := 3600 |}
       else Failure "Object not found", w).
Proof.
  intros env session path w Hsign Hocc.
  unfold getDocumentDownloadUrl, createSignedUrl. run.
  rewrite Hsign, Hocc.
  destruct (may_download (db w) session path); reflexivity.
Qed.

(** The document policies of the patch look at [lead_id] alone: David,
    a developer who has been handed the project, is denied the creation
    of a document by the engine and stores one all the same. *)
Lemma leading_developer_uploads :
  Decide david_leads david create res_documents (project_ctx quest) = Deny
  /\ fst (uploadDocument sample_env (Some david) quest "Level Design"
                         {| get_file := Some design_v2 |}
                         (with_db david_leads sample_world))
     = Success unused_id.
Proof. split; reflexivity. Qed.

(** Who is allowed to create documents in a project is allowed to read
    the versions of a document stored for it. *)
Lemma creator_reads_versions :
  forall st u doc c,
    Decide st u create res_documents (project_ctx (d_project_id doc)) = Allow ->
    In doc (documents st) ->
    document_id c = d_id doc ->
    HasPermission st u read res_document_versions c = true.
Proof.
  intros st u doc c Hallow Hin Hid. revert Hallow.
  unfold Decide, HasPermission, project_ctx. cbn [project_id is_read].
  destruct (IsAdmin st u); [reflexivity|]. cbn [orb].
  rewrite !andb_false_r, orb_false_r.
  destruct (IsProjectLead st u); [|discriminate]. cbn [andb].
  destruct (IsLeadOf st u (d_project_id doc)) eqn:Hlead; [|discriminate].
  intros _.
  assert (Hmem : mem (document_id c) (DocIdsInLeadProjects st u) = true).
  { apply mem_In. rewrite Hid. apply in_map.
    apply filter_In. split; [exact Hin|].
    rewrite <- IsLeadOf_led. exact Hlead. }
  rewrite Hmem. reflexivity.
Qed.

(** X20.  A successful [uploadDocument] leaves the document with
    [current_version = 1], one version row numbered 1 and the file in
    the bucket under [{projectId}/{documentId}/v1-{fileName}], the path
    the version row records.  [getDocumentDownloadUrl] signs that path
    for every caller who sees the object, the uploader among them when
    the decision allowed the creation of the document. *)
Theorem uploadDocument_stores_version_one :
  forall env session projectId title formData w id,
    fst (uploadDocument env session projectId title formData w) = Success id ->
    exists user file,
      session = Some user
      /\ get_file formData = Some file
      /\ id = env_new_id env
      /\ documents (db (snd (uploadDocument env session projectId title
                                            formData w)))
         = documents (db w)
             ++ [ {| d_id := id; d_project_id := projectId; d_title := title;
                     d_current_version := 1; d_created_by := user |} ]
      /\ document_versions (db (snd (uploadDocument env session projectId title
                                                    formData w)))
         = document_versions (db w)
             ++ [ {| v_document_id := id; v_version := 1;
                     v_storage_path :=
                       storage_path projectId id 1 (f_name file);
                     v_file_name := f_name file;
                     v_file_size := f_size file;
                     v_mime_type := mime_of file;
                     v_uploaded_by := user |} ]
      /\ bucket (snd (uploadDocument env session projectId title formData w))
         = bucket w ++ [(storage_path projectId id 1 (f_name file), file)]
      /\ (forall env' session',
             env_fault env' at_sign_url = None ->
             fst (getDocumentDownloadUrl
                    env' session' (storage_path projectId id 1 (f_name file))
                    (snd (uploadDocument env session projectId title formData
                                         w)))
             = if may_download
                    (db (snd (uploadDocument env session projectId title
                                             formData w)))
                    session' (storage_path projectId id 1 (f_name file))
               then Success {| su_path :=
                                 storage_path projectId id 1 (f_name file);
                               su_expires_in := 3600 |}
               else Failure "Object not found")
      /\ (Decide (db w) user create res_documents (project_ctx projectId)
          = Allow ->
          may_download
            (db (snd (uploadDocument env session projectId title formData w)))
            session (storage_path projectId id 1 (f_name file)) = true).
Proof.
  intros env session projectId title formData w id.
  destruct (uploadDocument env session projectId title formData w)
    as [r wout] eqn:Hrun.
  cbn [fst snd]. intros ->. revert Hrun.
  unfold uploadDocument.
  destruct session as [user|]; [|discriminate].
  destruct (get_file formData) as [file|]; [|discriminate].
  destruct (f_size file =? 0)%N; [discriminate|].
  destruct (Nat.ltb (String.length title) 2); [discriminate|].
  destruct (max_file_size <? f_size file)%N; [discriminate|].
  unfold bind at 1.
  destruct (insert_document env user projectId title w) as [[doc|m] w1] eqn:Hins;
    [|discriminate].
  destruct (insert_document_data _ _ _ _ _ _ _ Hins)
    as (Hdoc & _ & _ & Hw1).
  unfold bind at 1.
  change (projectId ++ "/" ++ d_id doc ++ "/v1-" ++ f_name file)%string
    with (storage_path projectId (d_id doc) 1 (f_name file)).
  destruct (upload env (storage_path projectId (d_id doc) 1 (f_name file))
                   file w1) as [[[]|m] w2] eqn:Hup.
  2: { unfold bind, ret.
       destruct (delete_document _ user (d_id doc) w2). discriminate. }
  destruct (upload_data _ _ _ _ _ Hup) as (_ & _ & Hw2).
  unfold bind at 1.
  match goal with
  | |- context [insert_version env user ?v w2] =>
      destruct (insert_version_cases env user v w2) as [Hv|[m Hv]];
      rewrite Hv
  end; [|discriminate].
  unfold ret. intros Hrun. injection Hrun as <- <-.
  assert (Hnew : d_id doc = env_new_id env) by (rewrite Hdoc; reflexivity).
  exists user, file. rewrite Hw2, Hw1.
  cbn [db bucket with_db with_bucket logged set_document_versions
       set_documents documents document_versions].
  split; [reflexivity|]. split; [reflexivity|]. split; [exact Hnew|].
  split; [rewrite Hdoc; reflexivity|]. split; [reflexivity|].
  split; [reflexivity|]. split.
  - intros env' session' Hsign.
    rewrite signs_occupied; [reflexivity|exact Hsign|].
    unfold occupied. cbn [bucket with_db with_bucket logged].
    rewrite existsb_app. cbn [existsb fst].
    rewrite String.eqb_refl. apply orb_true_r.
  - intros Hallow. unfold may_download. apply existsb_exists.
    eexists. split; [apply in_or_app; right; left; reflexivity|].
    cbn [v_storage_path v_document_id].
    rewrite String.eqb_refl. cbn [andb].
    apply (creator_reads_versions _ user doc); [| |reflexivity].
    + rewrite Hdoc. cbn [d_project_id]. exact Hallow.
    + apply in_or_app. right. left. reflexivity.
Qed.

(** Lisa adds a document to the sample project and asks for the URL of
    its file. *)
Lemma uploadDocument_stores_version_one_witness :
  fst (uploadDocument sample_env (Some lisa) quest "Level Design"
                      {| get_file := Some design_v2 |} sample_world)
  = Success unused_id
  /\ bucket (snd (uploadDocument sample_env (Some lisa) quest "Level Design"
                                 {| get_file := Some design_v2 |}
                                 sample_world))
     = bucket sample_world
         ++ [(storage_path quest unused_id 1 "design-rev.pdf", design_v2)]
  /\ fst (getDocumentDownloadUrl
            sample_env (Some lisa)
            (storage_path quest unused_id 1 "design-rev.pdf")
            (snd (uploadDocument sample_env (Some lisa) quest "Level Design"
                                 {| get_file := Some design_v2 |}
                                 sample_world)))
     = Success {| su_path := storage_path quest unused_id 1 "design-rev.pdf";
                  su_expires_in := 3600 |}.
Proof.
  split; [reflexivity|].
  destruct (uploadDocument_stores_version_one
              sample_env (Some lisa) quest "Level Design"
              {| get_file := Some design_v2 |} sample_world unused_id eq_refl)
    as (user & file & Huser & Hfile & _ & _ & _ & Hbucket & Hsign & Hmay).
  injection Hfile as <-. injection Huser as <-.
  split; [exact Hbucket|].
  pose proof (Hsign sample_env (Some lisa) eq_refl) as Hurl.
  rewrite (Hmay eq_refl) in Hurl. exact Hurl.
Defined.

(** X21.  When the insert of the version row fails after the upload,
    [uploadDocument] returns the error and undoes nothing: the document
    row stays without any version row, and the file stays in the bucket
    under a path no row records. *)
Theorem uploadDocument_failed_version_row_leaves_orphans :
  forall env user projectId title file w doc w1 w2 m w3,
    f_size file <> 0%N ->
    2 <= String.length title ->
    (f_size file <= 52428800)%N ->
    insert_document env user projectId title w = (Data doc, w1) ->
    upload env (storage_path projectId (d_id doc) 1 (f_name file)) file w1
    = (Data tt, w2) ->
    insert_version env user
      {| v_document_id := d_id doc; v_version := 1;
         v_storage_path := storage_path projectId (d_id doc) 1 (f_name file);
         v_file_name := f_name file; v_file_size := f_size file;
         v_mime_type := mime_of file; v_uploaded_by := user |} w2
    = (Error m, w3) ->
    fst (uploadDocument env (Some user) projectId title
                        {| get_file := Some file |} w)
    = Failure ("Version record failed: " ++ m)%string
    /\ documents (db (snd (uploadDocument env (Some user) projectId title
                                          {| get_file := Some file |} w)))
       = documents (db w) ++ [doc]
    /\ document_versions
         (db (snd (uploadDocument env (Some user) projectId title
                                  {| get_file := Some file |} w)))
       = document_versions (db w)
    /\ bucket (snd (uploadDocument env (Some user) projectId title
                                   {| get_file := Some file |} w))
       = bucket w
           ++ [(storage_path projectId (d_id doc) 1 (f_name file), file)].
Proof.
  intros env user projectId title file w doc w1 w2 m w3
         Hsize Htitle Hmax Hins Hup Hver.
  destruct (insert_document_data _ _ _ _ _ _ _ Hins) as (_ & _ & _ & Hw1).
  destruct (upload_data _ _ _ _ _ Hup) as (_ & _ & Hw2).
  assert (Hw3 : w3 = logged (ReqInsertVersion
                               {| v_document_id := d_id doc; v_version := 1;
                                  v_storage_path :=
                                    storage_path projectId (d_id doc) 1
                                                 (f_name file);
                                  v_file_name := f_name file;
                                  v_file_size := f_size file;
                                  v_mime_type := mime_of file;
                                  v_uploaded_by := user |}) w2).
  { match type of Hver with
    | insert_version env user ?v w2 = _ =>
        destruct (insert_version_cases env user v w2) as [H|[m' H]];
        rewrite H in Hver
    end; [discriminate Hver|]. injection Hver as _ <-. reflexivity. }
  assert (Hout : uploadDocument env (Some user) projectId title
                                {| get_file := Some file |} w
                 = (Failure ("Version record failed: " ++ m)%string, w3)).
  { unfold uploadDocument. cbn [get_file].
    destruct (N.eqb_spec (f_size file) 0); [contradiction|].
    destruct (Nat.ltb_spec (String.length title) 2); [lia|].
    destruct (N.ltb_spec max_file_size (f_size file)) as [Hbig|_];
      [unfold max_file_size in Hbig; lia|].
    unfold bind at 1. rewrite Hins. unfold bind at 1.
    change (projectId ++ "/" ++ d_id doc ++ "/v1-" ++ f_name file)%string
      with (storage_path projectId (d_id doc) 1 (f_name file)).
    rewrite Hup. unfold bind at 1. rewrite Hver. reflexivity. }
  rewrite Hout, Hw3, Hw2, Hw1. cbn. repeat split; reflexivity.
Qed.

(** Lisa uploads while the insert of version rows fails. *)
Lemma uploadDocument_failed_version_row_leaves_orphans_witness :
  fst (uploadDocument (sample_env_with versions_down) (Some lisa) quest
                      "Level Design" {| get_file := Some design_v2 |}
                      sample_world)
  = Failure "Version record failed: connection reset"
  /\ document_versions
       (db (snd (uploadDocument (sample_env_with versions_down) (Some lisa)
                                quest "Level Design"
                                {| get_file := Some design_v2 |}
                                sample_world)))
     = document_versions (db sample_world)
  /\ bucket (snd (uploadDocument (sample_env_with versions_down) (Some lisa)
                                 quest "Level Design"
                                 {| get_file := Some design_v2 |}
                                 sample_world))
     = bucket sample_world
         ++ [(storage_path quest unused_id 1 "design-rev.pdf", design_v2)].
Proof.
  destruct (uploadDocument_failed_version_row_leaves_orphans
              (sample_env_with versions_down) lisa quest "Level Design"
              design_v2 sample_world
              {| d_id := unused_id; d_project_id := quest;
                 d_title := "Level Design"; d_current_version := 1;
                 d_created_by := lisa |}
              _ _ "connection reset" _
              ltac:(discriminate) ltac:(cbn; lia) ltac:(cbn; lia)
              eq_refl eq_refl eq_refl)
    as (Hfail & _ & Hversions & Hbucket).
  split; [exact Hfail|]. split; [exact Hversions|exact Hbucket].
Defined.

Lemma select_document_same_tables :
  forall env u id w w',
    db w' = db w ->
    forall doc,
      select_document env u id w = (Data doc, w) ->
      select_document env u id w' = (Data doc, w').
Proof.
  intros env u id w w' Hdb doc. unfold select_document. rewrite Hdb.
  destruct (env_fault env at_select_document); [discriminate|].
  destruct (single _); [|discriminate].
  intros H. injection H as <-. reflexivity.
Qed.

(** X22.  A failed commit blocks the retry.  When [uploadNewVersion] has
    uploaded the file and the database function then fails, the tables
    are unchanged but the file stays in the bucket; the version number
    and with it the path of the next attempt are the same, so every
    later upload of a file of that name to the document is refused by
    the bucket, which never overwrites, before the database function is
    called again. *)
Theorem uploadNewVersion_failed_commit_blocks_retry :
  forall env1 env2 user1 user2 documentId file1 file2 doc w m,
    f_size file1 <> 0%N -> (f_size file1 <= 52428800)%N ->
    f_size file2 <> 0%N -> (f_size file2 <= 52428800)%N ->
    select_document env1 user1 documentId w = (Data doc, w) ->
    select_document env2 user2 documentId w = (Data doc, w) ->
    fst (uploadNewVersion env1 (Some user1) documentId
                          {| get_file := Some file1 |} w)
    = Failure ("Version creation failed: " ++ m)%string ->
    f_name file2 = f_name file1 ->
    env_fault env2 at_upload = None ->
    db (snd (uploadNewVersion env1 (Some user1) documentId
                              {| get_file := Some file1 |} w)) = db w
    /\ bucket (snd (uploadNewVersion env1 (Some user1) documentId
                                     {| get_file := Some file1 |} w))
       = bucket w
           ++ [(storage_path (d_project_id doc) documentId
                             (d_current_version doc + 1) (f_name file1),
                file1)]
    /\ fst (uploadNewVersion env2 (Some user2) documentId
              {| get_file := Some file2 |}
              (snd (uploadNewVersion env1 (Some user1) documentId
                                     {| get_file := Some file1 |} w)))
       = Failure "Upload failed: The resource already exists"
    /\ db (snd (uploadNewVersion env2 (Some user2) documentId
                  {| get_file := Some file2 |}
                  (snd (uploadNewVersion env1 (Some user1) documentId
                                         {| get_file := Some file1 |} w))))
       = db w.
Proof.
  intros env1 env2 user1 user2 documentId file1 file2 doc w m
         Hs1 Hm1 Hs2 Hm2 Hread1 Hread2 Hfail Hname Hup2.
  rewrite (uploadNewVersion_unfolds env1 user1 documentId file1 doc w
             Hs1 Hm1 Hread1) in Hfail |- *.
  destruct (upload_version_cases env1 file1
              (next_version user1 file1 doc documentId) w)
    as [(m1 & Hup & _)|(Hup & _ & _)]; rewrite Hup in Hfail |- *.
  { cbn in Hfail. discriminate Hfail. }
  match goal with
  | |- context [commit_version env1 user1 ?v ?w1] =>
      destruct (commit_version_cases env1 user1 v w1)
        as [(Hc & _)|(m2 & Hc)]; rewrite Hc in Hfail |- *
  end.
  { discriminate Hfail. }
  cbn [fst snd].
  split; [reflexivity|]. split; [reflexivity|].
  match goal with
  | |- context [uploadNewVersion env2 (Some user2) documentId _ ?w1] =>
      set (w1' := w1)
  end.
  assert (Hread : select_document env2 user2 documentId w1' = (Data doc, w1'))
    by (apply (select_document_same_tables env2 user2 documentId w w1');
        [reflexivity|exact Hread2]).
  rewrite (uploadNewVersion_unfolds env2 user2 documentId file2 doc w1'
             Hs2 Hm2 Hread).
  assert (Hocc : occupied (v_storage_path
                             (next_version user2 file2 doc documentId)) w1'
                 = true).
  { unfold next_version. cbn [v_storage_path]. rewrite Hname.
    unfold occupied, w1'. cbn [bucket with_bucket logged].
    rewrite existsb_app. cbn [existsb fst next_version v_storage_path].
    rewrite String.eqb_refl. apply orb_true_r. }
  unfold upload_version, upload. run. rewrite Hup2.
  match goal with
  | |- context [occupied ?p ?x] =>
      change (occupied p x)
        with (occupied (v_storage_path
                          (next_version user2 file2 doc documentId)) w1')
  end.
  rewrite Hocc. cbn. split; reflexivity.
Qed.

(** Lisa uploads a revision while the database function is down, then
    tries again when it is back. *)
Lemma uploadNewVersion_failed_commit_blocks_retry_witness :
  fst (uploadNewVersion (sample_env_with rpc_down) (Some lisa) design
                        {| get_file := Some design_v2 |} sample_world)
  = Failure "Version creation failed: connection reset"
  /\ fst (uploadNewVersion sample_env (Some lisa) design
            {| get_file := Some design_v2 |}
            (snd (uploadNewVersion (sample_env_with rpc_down) (Some lisa)
                                   design {| get_file := Some design_v2 |}
                                   sample_world)))
     = Failure "Upload failed: The resource already exists".
Proof.
  split; [reflexivity|].
  exact (proj1 (proj2 (proj2
           (uploadNewVersion_failed_commit_blocks_retry
              (sample_env_with rpc_down) sample_env lisa lisa design
              design_v2 design_v2 design_doc sample_world "connection reset"
              ltac:(discriminate) ltac:(cbn; lia)
              ltac:(discriminate) ltac:(cbn; lia)
              eq_refl eq_refl eq_refl eq_refl eq_refl)))).
Defined.

Lemma fetch_current_world :
  forall env session documentId formData w,
    snd (fetch_current env session documentId formData w) = w.
Proof.
  intros env session documentId formData w. unfold fetch_current.
  destruct session as [user|]; [|reflexivity].
  destruct (get_file formData) as [file|]; [|reflexivity].
  destruct (f_size file =? 0)%N; [reflexivity|].
  destruct (max_file_size <? f_size file)%N; [reflexivity|].
  unfold bind, select_document.
  destruct (env_fault env at_select_document); [reflexivity|].
  destruct (single _); reflexivity.
Qed.

(** One call of [uploadNewVersion] leaves the tables as they are, or
    succeeds and commits the version after the stored one. *)
Lemma uploadNewVersion_step :
  forall env session documentId formData w,
    (succeeded (fst (uploadNewVersion env session documentId formData w))
     = false
     /\ db (snd (uploadNewVersion env session documentId formData w)) = db w)
    \/ (fst (uploadNewVersion env session documentId formData w) = Success tt
        /\ exists v doc,
            v_document_id v = documentId
            /\ find (fun d => d_id d =? documentId) (documents (db w))
               = Some doc
            /\ v_version v = (d_current_version doc + 1)%Z
            /\ db (snd (uploadNewVersion env session documentId formData w))
               = commit_db v (db w)).
Proof.
  intros env session documentId formData w.
  destruct (uploadNewVersion env session documentId formData w)
    as [r wout] eqn:Hrun.
  cbn [fst snd]. revert Hrun. unfold uploadNewVersion.
  unfold bind at 1.
  pose proof (fetch_current_world env session documentId formData w) as Hw.
  destruct (fetch_current env session documentId formData w)
    as [[[[user file] doc]|e|x] w0]; cbn [snd] in Hw; subst w0.
  2, 3: intros Hrun; injection Hrun as <- <-; left; split; reflexivity.
  unfold bind at 1.
  destruct (upload_version_cases env file
              (next_version user file doc documentId) w)
    as [(m & Hup & _)|(Hup & _ & _)]; rewrite Hup.
  { intros Hrun; injection Hrun as <- <-. left. split; reflexivity. }
  match goal with
  | |- context [commit_version env user ?v ?w1] =>
      destruct (commit_version_cases env user v w1)
        as [(Hc & doc' & Hfind & Hv)|(m & Hc)]; rewrite Hc
  end; intros Hrun; injection Hrun as <- <-.
  - right. split; [reflexivity|].
    exists (next_version user file doc documentId), doc'.
    split; [reflexivity|]. split; [exact Hfind|]. split; [exact Hv|].
    reflexivity.
  - left. split; reflexivity.
Qed.

Lemma numbered_from :
  forall n k,
    map (fun i => (n + Z.of_nat i)%Z) (seq 2 k)
    = map (fun i => (n + 1 + Z.of_nat i)%Z) (seq 1 k).
Proof.
  intros n k. rewrite <- (seq_shift k 1), map_map.
  apply map_ext. intros i. lia.
Qed.

(** X23.  Version numbers count the successful uploads.  After any run
    of calls of [uploadNewVersion] on a document, by whatever callers and
    with whatever failures in between, [current_version] has grown by
    the number of calls that succeeded, and the version rows added are
    numbered consecutively from the old [current_version + 1]: a failed
    call uses up no number. *)
Theorem uploadNewVersions_number_consecutively :
  forall documentId calls w n,
    current_version (db w) documentId = Some n ->
    current_version (db (snd (uploadNewVersions documentId calls w)))
                    documentId
    = Some (n + Z.of_nat
                  (successes (fst (uploadNewVersions documentId calls w))))%Z
    /\ exists added,
        document_versions (db (snd (uploadNewVersions documentId calls w)))
        = document_versions (db w) ++ added
        /\ Forall (fun v => v_document_id v = documentId) added
        /\ map v_version added
           = map (fun i => (n + Z.of_nat i)%Z)
                 (seq 1 (successes
                           (fst (uploadNewVersions documentId calls w)))).
Proof.
  intros documentId calls. induction calls as [|c calls IH]; intros w n Hn.
  - cbn. rewrite Z.add_0_r. split; [exact Hn|].
    exists []. rewrite app_nil_r. repeat split. constructor.
  - assert (Hunfold :
              uploadNewVersions documentId (c :: calls) w
              = (let (r, w1) := uploadNewVersion (uc_env c) (uc_session c)
                                                 documentId (uc_formData c) w in
                 let (rs, w2) := uploadNewVersions documentId calls w1 in
                 (r :: rs, w2))) by reflexivity.
    rewrite Hunfold. clear Hunfold.
    pose proof (uploadNewVersion_step (uc_env c) (uc_session c) documentId
                                      (uc_formData c) w) as Hstep.
    destruct (uploadNewVersion (uc_env c) (uc_session c) documentId
                               (uc_formData c) w) as [r w1].
    cbn [fst snd] in Hstep.
    destruct Hstep as [[Hfail Hdb]|(Hok & v & doc & Hid & Hfind & Hv & Hdb)].
    + assert (Hn1 : current_version (db w1) documentId = Some n)
        by (rewrite Hdb; exact Hn).
      destruct (IH w1 n Hn1) as (Hcur & added & Hrows & Hall & Hnum).
      destruct (uploadNewVersions documentId calls w1) as [rs w2].
      cbn [fst snd] in *.
      unfold successes in *. cbn [filter]. rewrite Hfail.
      split; [exact Hcur|]. exists added. rewrite <- Hdb.
      repeat split; assumption.
    + subst r.
      assert (Hdoc : d_current_version doc = n).
      { unfold current_version in Hn. rewrite Hfind in Hn. cbn in Hn.
        congruence. }
      assert (Hn1 : current_version (db w1) documentId = Some (n + 1)%Z).
      { rewrite Hdb, <- Hid.
        rewrite (current_version_commit_db v (db w) doc)
          by (rewrite Hid; exact Hfind).
        rewrite Hv, Hdoc. reflexivity. }
      destruct (IH w1 (n + 1)%Z Hn1) as (Hcur & added & Hrows & Hall & Hnum).
      destruct (uploadNewVersions documentId calls w1) as [rs w2].
      cbn [fst snd] in *.
      unfold successes in *. cbn [filter succeeded List.length].
      split.
      * rewrite Hcur. f_equal. lia.
      * exists (v :: added). rewrite Hrows, Hdb.
        unfold commit_db. cbn [document_versions set_documents
                               set_document_versions].
        rewrite <- app_assoc. cbn [app].
        split; [reflexivity|]. split; [constructor; assumption|].
        cbn [map seq]. rewrite Hv, Hdoc, Hnum, numbered_from.
        f_equal.
Qed.

(** Lisa uploads a revision, Dana, who is outside the project, is told
    the document is not found, Alice uploads another file: the design
    document is at version 3 and has the versions 1, 2 and 3. *)
Lemma uploadNewVersions_number_consecutively_witness :
  current_version (db sample_world) design = Some 1%Z
  /\ fst (uploadNewVersions design three_uploads sample_world)
     = [Success tt; Failure "Document not found"; Success tt]
  /\ current_version
       (db (snd (uploadNewVersions design three_uploads sample_world))) design
     = Some 3%Z
  /\ map v_version
         (document_versions
            (db (snd (uploadNewVersions design three_uploads sample_world))))
     = [1; 2; 3]%Z.
Proof.
  split; [reflexivity|]. split; [reflexivity|].
  split; [|reflexivity].
  exact (proj1 (uploadNewVersions_number_consecutively
                  design three_uploads sample_world 1 eq_refl)).
Defined.

Lemma removed_not_occupied :
  forall paths path (b : list (string * File)),
    mem path paths = true ->
    existsb (fun o => fst o =? path)
            (filter (fun o => negb (mem (fst o) paths)) b) = false.
Proof.
  intros paths path b Hmem. apply not_true_is_false. intros H.
  apply existsb_exists in H. destruct H as (o & Ho & Heq).
  apply filter_In in Ho. destruct Ho as [_ Ho].
  apply String.eqb_eq in Heq. cbn beta in Ho.
  apply negb_true_iff in Ho. rewrite <- Heq in Hmem.
  exact (eq_true_false_abs _ Hmem Ho).
Qed.

(** [deleteDocument] up to the removal of the stored files: the tables
    and the log are untouched, no object is added, and the objects of the
    versions the caller can read are gone when both calls work. *)
Lemma deleteDocument_cleanup :
  forall other user documentId w,
    exists w1,
      (versions <- select_version_paths other user documentId ;;
       match versions with
       | Some (p :: ps) => remove_objects other (p :: ps)
       | _ => ret tt
       end) w = (tt, w1)
      /\ db w1 = db w
      /\ requests w1 = requests w
      /\ (forall o, In o (bucket w1) -> In o (bucket w))
      /\ (other at_select_versions = None ->
          other at_remove_objects = None ->
          HasPermission (db w) user read res_document_versions
                        (document_ctx (project_of_document (db w) documentId)
                                      documentId) = true ->
          forall v, In v (document_versions (db w)) ->
                    v_document_id v = documentId ->
                    occupied (v_storage_path v) w1 = false).
Proof.
  intros other user documentId w.
  unfold bind, select_version_paths.
  destruct (other at_select_versions) as [m|].
  { exists w. repeat split; try reflexivity; try (intros; assumption).
    intros H. discriminate H. }
  set (paths := map v_storage_path
                    (filter (fun v => (v_document_id v =? documentId)
                                      && permitted (db w) user read
                                           res_document_versions
                                           (document_ctx
                                              (project_of_document (db w)
                                                                   documentId)
                                              documentId))
                            (document_versions (db w)))).
  assert (Hpaths : HasPermission (db w) user read res_document_versions
                     (document_ctx (project_of_document (db w) documentId)
                                   documentId) = true ->
                   forall v, In v (document_versions (db w)) ->
                             v_document_id v = documentId ->
                             In (v_storage_path v) paths).
  { intros Hread v Hv Hid. apply in_map. apply filter_In.
    split; [exact Hv|].
    rewrite Hid, String.eqb_refl, (HasPermission_permitted _ _ _ _ _ Hread).
    reflexivity. }
  destruct paths as [|p ps] eqn:Hlist.
  { exists w. repeat split; try reflexivity; try (intros; assumption).
    intros _ _ Hread v Hv Hid. destruct (Hpaths Hread v Hv Hid). }
  unfold remove_objects. destruct (other at_remove_objects) as [m|].
  { exists w. repeat split; try reflexivity; try (intros; assumption).
    intros _ H. discriminate H. }
  eexists. split; [reflexivity|]. cbn [db bucket requests with_bucket].
  repeat split.
  - intros o Ho. apply filter_In in Ho. exact (proj1 Ho).
  - intros _ _ Hread v Hv Hid. unfold occupied. cbn [bucket].
    apply removed_not_occupied. apply mem_In. exact (Hpaths Hread v Hv Hid).
Qed.

(** X24.  [deleteDocument], called by a user who may delete the
    document, removes the document row and every version row of the
    document and no other row, whether or not the stored files could be
    removed; it adds nothing to the bucket, and when the caller can read
    the versions and the storage calls work, no file of a version of the
    document is left. *)
Theorem deleteDocument_removes_rows_and_objects :
  forall other user documentId projectId w doc,
    find (fun d => d_id d =? documentId) (documents (db w)) = Some doc ->
    Decide (db w) user delete res_documents
           (document_ctx (d_project_id doc) documentId) = Allow ->
    other at_delete_document = None ->
    fst (deleteDocument other (Some user) documentId projectId w) = Success tt
    /\ (forall d,
           In d (documents
                   (db (snd (deleteDocument other (Some user) documentId
                                            projectId w))))
           <-> In d (documents (db w)) /\ d_id d <> documentId)
    /\ (forall v,
           In v (document_versions
                   (db (snd (deleteDocument other (Some user) documentId
                                            projectId w))))
           <-> In v (document_versions (db w))
               /\ v_document_id v <> documentId)
    /\ (forall o,
           In o (bucket (snd (deleteDocument other (Some user) documentId
                                             projectId w))) ->
           In o (bucket w))
    /\ (other at_select_versions = None ->
        other at_remove_objects = None ->
        HasPermission (db w) user read res_document_versions
                      (document_ctx (project_of_document (db w) documentId)
                                    documentId) = true ->
        forall v, In v (document_versions (db w)) ->
                  v_document_id v = documentId ->
                  occupied (v_storage_path v)
                           (snd (deleteDocument other (Some user) documentId
                                                projectId w)) = false).
Proof.
  intros other user documentId projectId w doc Hfind Hallow Hfault.
  destruct (deleteDocument_cleanup other user documentId w)
    as (w1 & Hclean & Hdb & _ & Hbucket & Hgone).
  assert (Hrun : deleteDocument other (Some user) documentId projectId w
                 = (Success tt,
                    with_db (cascade_delete_document documentId (db w))
                            (logged (ReqDeleteDocument documentId) w1))).
  { unfold deleteDocument. revert Hclean. unfold bind.
    destruct (select_version_paths other user documentId w)
      as [versions w0].
    destruct (match versions with
              | Some (p :: ps) => remove_objects other (p :: ps)
              | _ => ret tt
              end w0) as [[] w1'].
    intros H. injection H as ->.
    unfold delete_document_row, delete_document. rewrite Hfault. run.
    rewrite Hdb, Hfind, (Decide_permitted _ _ _ _ _ Hallow). reflexivity. }
  rewrite Hrun. cbn [fst snd db bucket with_db logged].
  unfold cascade_delete_document.
  cbn [documents document_versions set_documents set_document_versions].
  split; [reflexivity|]. split; [|split; [|split]].
  - intros d. rewrite filter_In, negb_eqb_true. reflexivity.
  - intros v. rewrite filter_In, negb_eqb_true. reflexivity.
  - exact Hbucket.
  - intros Hsel Hrem Hread v Hv Hid.
    exact (Hgone Hsel Hrem Hread v Hv Hid).
Qed.

(** Lisa deletes the design document of the project she leads. *)
Lemma deleteDocument_removes_rows_and_objects_witness :
  find (fun d => d_id d =? design) (documents (db sample_world))
  = Some design_doc
  /\ Decide (db sample_world) lisa delete res_documents
            (document_ctx (d_project_id design_doc) design) = Allow
  /\ deleteDocument no_other_fault (Some lisa) design quest sample_world
     = (Success tt,
        {| db := cascade_delete_document design sample_db;
           bucket := [];
           requests := [ReqDeleteDocument design] |})
  /\ forall v,
       In v (document_versions
               (db (snd (deleteDocument no_other_fault (Some lisa) design
                                        quest sample_world))))
       <-> In v (document_versions (db sample_world))
           /\ v_document_id v <> design.
Proof.
  split; [reflexivity|]. split; [reflexivity|]. split; [reflexivity|].
  exact (proj1 (proj2 (proj2
           (deleteDocument_removes_rows_and_objects
              no_other_fault lisa design quest sample_world design_doc
              eq_refl eq_refl eq_refl)))).
Defined.

Lemma insert_version_desc_perm :
  forall v l, Permutation (insert_version_desc v l) (v :: l).
Proof.
  intros v l. induction l as [|x l IH]; cbn; [reflexivity|].
  destruct (v_version x <=? v_version v)%Z; [reflexivity|].
  rewrite IH. apply perm_swap.
Qed.

Lemma insert_version_desc_sorted :
  forall v l,
    StronglySorted newer_version l ->
    StronglySorted newer_version (insert_version_desc v l).
Proof.
  intros v l. induction l as [|x l IH]; intros Hs; cbn.
  - constructor; constructor.
  - inversion Hs as [|? ? Hl Hx]; subst.
    destruct (Z.leb_spec (v_version x) (v_version v)) as [Hle|Hlt].
    + constructor; [exact Hs|]. constructor; [exact Hle|].
      eapply Forall_impl; [|exact Hx].
      intros r Hr. unfold newer_version in *. lia.
    + constructor; [apply IH; exact Hl|].
      rewrite insert_version_desc_perm.
      constructor; [unfold newer_version; lia|exact Hx].
Qed.

(** X25.  [getProjectDocuments] hands every document on with the same
    version rows, the highest version first: the row the download button
    of a document reads, [versions[0]], is a version no other version of
    the list outnumbers. *)
Theorem getProjectDocuments_puts_the_latest_version_first :
  forall docs,
    exists out,
      getProjectDocuments (Data docs) = Success out
      /\ map fst out = map fst docs
      /\ Forall2 (fun doc sorted =>
                    Permutation (snd sorted) (snd doc)
                    /\ StronglySorted newer_version (snd sorted)
                    /\ forall v,
                        In v (snd doc) ->
                        exists latest,
                          latest_version (snd sorted) = Some latest
                          /\ (v_version v <= v_version latest)%Z)
                 docs out.
Proof.
  intros docs. eexists. split; [reflexivity|]. split.
  - rewrite map_map. reflexivity.
  - induction docs as [|[doc versions] docs IH]; cbn [map]; constructor;
      [|exact IH].
    cbn [fst snd].
    assert (Hperm : Permutation (sort_versions versions) versions).
    { induction versions as [|v l IHl]; cbn; [constructor|].
      rewrite insert_version_desc_perm. constructor. exact IHl. }
    assert (Hsorted : StronglySorted newer_version (sort_versions versions)).
    { clear Hperm. induction versions as [|v l IHl]; cbn; [constructor|].
      apply insert_version_desc_sorted. exact IHl. }
    split; [exact Hperm|]. split; [exact Hsorted|].
    intros v Hv.
    assert (Hin : In v (sort_versions versions))
      by (eapply Permutation_in; [apply Permutation_sym; exact Hperm|exact Hv]).
    destruct (sort_versions versions) as [|latest rest]; [destruct Hin|].
    exists latest. split; [reflexivity|].
    inversion Hsorted as [|? ? _ Hrest]; subst.
    destruct Hin as [<-|Hin]; [lia|].
    rewrite Forall_forall in Hrest. exact (Hrest v Hin).
Qed.

(* ===================================================================== *)
(** * 22. Further facts about the user actions                            *)
(* ===================================================================== *)

Lemma admin_insert_role_data :
  forall env r w w2,
    admin_insert_role env r w = (Data tt, w2) ->
    w2 = with_db (set_user_roles (user_roles (db w) ++ [r]) (db w))
                 (logged (ReqInsertRole r) w).
Proof.
  intros env r w w2. unfold admin_insert_role. run.
  destruct (env_fault env at_insert_role); [discriminate|].
  destruct (existsb (same_role_row r) (user_roles (db w))); [discriminate|].
  intros H. injection H as <-. reflexivity.
Qed.

Lemma createUserSchema_data :
  forall env f parsed,
    createUserSchema env f = Data parsed ->
    parse_role (cu_role f) = Some (pu_role parsed)
    /\ pu_email parsed = cu_email f
    /\ pu_full_name parsed = cu_full_name f
    /\ env_is_email env (cu_email f) = true
    /\ 8 <= String.length (cu_password f)
    /\ has_char is_lower (cu_password f) = true
    /\ has_char is_upper (cu_password f) = true
    /\ has_char is_digit (cu_password f) = true
    /\ has_char (fun c => negb (is_lower c || is_upper c || is_digit c))
                (cu_password f) = true
    /\ 2 <= String.length (cu_full_name f).
Proof.
  intros env f parsed. unfold createUserSchema.
  destruct (env_is_email env (cu_email f)); [|discriminate].
  destruct (Nat.ltb_spec (String.length (cu_password f)) 8); [discriminate|].
  destruct (has_char is_lower (cu_password f)); [|discriminate].
  destruct (has_char is_upper (cu_password f)); [|discriminate].
  destruct (has_char is_digit (cu_password f)); [|discriminate].
  cbn [negb].
  destruct (has_char (fun c => negb (is_lower c || is_upper c || is_digit c))
                     (cu_password f)); [|discriminate].
  cbn [negb].
  destruct (Nat.ltb_spec (String.length (cu_full_name f)) 2); [discriminate|].
  destruct (parse_role (cu_role f)) as [r|]; [|discriminate].
  intros Hdata. injection Hdata as <-. cbn.
  repeat split; try reflexivity; assumption.
Qed.

(** X26.  [createUser] succeeds only for a caller whose stored role is
    admin and for input that passed the schema: the password has eight
    characters or more, among them a lowercase letter, an uppercase
    letter, a digit and a character that is none of these.  The new account has then exactly one row in
    [user_roles], with the role that was asked for. *)
Theorem createUser_gives_the_new_account_one_role :
  forall env session formData w id,
    roles_reference_accounts (db w) ->
    fst (createUser env session formData w) = Success id ->
    exists user role,
      session = Some user
      /\ RoleOf (db w) user = Some admin
      /\ parse_role (cu_role formData) = Some role
      /\ 8 <= String.length (cu_password formData)
      /\ has_char is_lower (cu_password formData) = true
      /\ has_char is_upper (cu_password formData) = true
      /\ has_char is_digit (cu_password formData) = true
      /\ has_char (fun c => negb (is_lower c || is_upper c || is_digit c))
                  (cu_password formData) = true
      /\ id = env_new_id env
      /\ auth_users (db (snd (createUser env session formData w)))
         = auth_users (db w)
             ++ [ {| au_id := id; au_email := cu_email formData;
                     au_full_name := cu_full_name formData |} ]
      /\ role_rows (db (snd (createUser env session formData w))) id
         = [ {| ur_user_id := id; ur_role := role |} ]
      /\ RoleOf (db (snd (createUser env session formData w))) id = Some role.
Proof.
  intros env session formData w id Href.
  destruct (createUser env session formData w) as [r wout] eqn:Hrun.
  cbn [fst snd]. intros ->. revert Hrun. unfold createUser.
  destruct (createUserSchema env formData) as [parsed|m] eqn:Hschema;
    [|discriminate].
  destruct (createUserSchema_data _ _ _ Hschema)
    as (Hrole & Hemail & Hname & _ & Hlen & Hlower & Hupper & Hdigit
        & Hspecial & _).
  destruct session as [user|]; [|discriminate].
  unfold bind at 1. rewrite select_role_world.
  destruct (fst (select_role env user w)) as [[| |]|] eqn:Hcaller;
    try discriminate.
  cbn [not_admin AppRole_eqb negb].
  unfold bind at 1.
  destruct (admin_create_user env (pu_email parsed) (pu_full_name parsed) w)
    as [[[newUser|]|m] w1] eqn:Hcreate; try discriminate.
  destruct (admin_create_user_data _ _ _ _ _ _ Hcreate) as (Hid & Hnew & Hw1).
  unfold bind at 1.
  destruct (admin_insert_role env {| ur_user_id := au_id newUser;
                                     ur_role := pu_role parsed |} w1)
    as [[[]|m] w2] eqn:Hins; [|discriminate].
  pose proof (admin_insert_role_data _ _ _ _ Hins) as Hw2.
  unfold ret. intros H. injection H as <- <-.
  assert (Hadmin : RoleOf (db w) user = Some admin).
  { revert Hcaller. unfold select_role.
    destruct (env_fault env at_select_role); [discriminate|].
    intros H. exact H. }
  assert (HnewUser : newUser = {| au_id := au_id newUser;
                                  au_email := cu_email formData;
                                  au_full_name := cu_full_name formData |}).
  { revert Hcreate. unfold admin_create_user. run.
    destruct (env_fault env at_create_user); [discriminate|].
    match goal with
    | |- context [existsb ?f ?l] => destruct (existsb f l)
    end; [discriminate|].
    intros H. injection H as <- _. cbn. rewrite Hemail, Hname. reflexivity. }
  assert (Hrows : role_rows (db w2) (au_id newUser)
                  = [ {| ur_user_id := au_id newUser;
                         ur_role := pu_role parsed |} ]).
  { rewrite Hw2, Hw1. unfold role_rows.
    cbn [db with_db logged set_user_roles set_auth_users user_roles].
    rewrite filter_app.
    rewrite (new_account_has_no_rows (db w) (au_id newUser) Href)
      by (rewrite Hid; exact Hnew).
    cbn. rewrite String.eqb_refl. reflexivity. }
  exists user, (pu_role parsed).
  repeat split; try assumption.
  - rewrite Hw2, Hw1. cbn. rewrite <- HnewUser. reflexivity.
  - unfold RoleOf. rewrite Hrows. reflexivity.
Qed.

(** Alice creates the account of Eve, a developer. *)
Lemma createUser_gives_the_new_account_one_role_witness :
  roles_reference_accounts (db sample_world)
  /\ fst (createUser sample_env (Some alice) eve_form sample_world)
     = Success unused_id
  /\ RoleOf (db (snd (createUser sample_env (Some alice) eve_form
                                 sample_world))) unused_id
     = Some developer.
Proof.
  split; [exact sample_roles_reference_accounts|].
  split; [reflexivity|].
  destruct (createUser_gives_the_new_account_one_role
              sample_env (Some alice) eve_form sample_world unused_id
              sample_roles_reference_accounts eq_refl)
    as (user & role & _ & _ & Hrole & _ & _ & _ & _ & _ & _ & _ & _
        & Hstored).
  rewrite Hstored. f_equal. cbn in Hrole. congruence.
Defined.

(** The ways [deleteUser] ends. *)
Lemma deleteUser_cases :
  forall env other session userId w,
    (exists m, deleteUser env other session userId w = (Failure m, w))
    \/ (deleteUser env other session userId w
        = (Success tt, with_db (cascade_delete_user userId (db w)) w)
        /\ exists user,
            session = Some user
            /\ RoleOf (db w) user = Some admin
            /\ user <> userId
            /\ existsb (fun a => au_id a =? userId) (auth_users (db w)) = true).
Proof.
  intros env other session userId w.
  destruct (deleteUser env other session userId w) as [r wout] eqn:Hrun.
  revert Hrun. unfold deleteUser.
  destruct session as [user|].
  2: { intros H; injection H as <- <-. left; eexists; reflexivity. }
  unfold bind at 1. rewrite select_role_world.
  destruct (fst (select_role env user w)) as [[| |]|] eqn:Hcaller;
    cbn [not_admin AppRole_eqb negb];
    try (intros H; injection H as <- <-; left; eexists; reflexivity).
  destruct (String.eqb_spec userId user) as [Heq|Hne];
    [intros H; injection H as <- <-; left; eexists; reflexivity|].
  unfold bind, admin_delete_user.
  destruct (other at_delete_user);
    [intros H; injection H as <- <-; left; eexists; reflexivity|].
  destruct (existsb (fun a => au_id a =? userId) (auth_users (db w))) eqn:Hex;
    [|intros H; injection H as <- <-; left; eexists; reflexivity].
  intros H; injection H as <- <-.
  right. split; [reflexivity|]. exists user.
  repeat split; try congruence.
  revert Hcaller. unfold select_role.
  destruct (env_fault env at_select_role); [discriminate|].
  intros H. exact H.
Qed.

Lemma role_rows_after_delete :
  forall d target u,
    role_rows (set_user_roles
                 (filter (fun q => negb (ur_user_id q =? target))
                         (user_roles d)) d) u
    = if u =? target then [] else role_rows d u.
Proof.
  intros d target u. unfold role_rows. cbn [user_roles set_user_roles].
  destruct (String.eqb_spec u target) as [->|Hne].
  - apply filter_nothing. intros r Hr. apply filter_In in Hr.
    destruct Hr as [_ Hr]. apply negb_true_iff in Hr. exact Hr.
  - induction (user_roles d) as [|q l IH]; [reflexivity|].
    cbn [filter]. destruct (String.eqb_spec (ur_user_id q) target) as [Hq|Hq];
      cbn [negb filter].
    + destruct (String.eqb_spec (ur_user_id q) u); [congruence|exact IH].
    + destruct (ur_user_id q =? u); [f_equal|]; exact IH.
Qed.

Lemma existsb_filter_none :
  forall (A : Type) (f g : A -> bool) (l : list A),
    (forall x, g x = true -> f x = false) ->
    existsb f (filter g l) = false.
Proof.
  intros A f g l H. apply not_true_is_false. intros Hex.
  apply existsb_exists in Hex. destruct Hex as (x & Hx & Hf).
  apply filter_In in Hx. destruct Hx as [_ Hg].
  rewrite (H x Hg) in Hf. discriminate Hf.
Qed.

(** A row whose key is not among the keys of the rows that go has a row
    with its key among those that stay. *)
Lemma parent_stays :
  forall (A : Type) (key : A -> Uuid) (gone : A -> bool) (l : list A) k,
    existsb (fun x => key x =? k) l = true ->
    mem k (map key (filter gone l)) = false ->
    existsb (fun x => key x =? k) (filter (fun x => negb (gone x)) l) = true.
Proof.
  intros A key gone l k Hex Hmem.
  apply existsb_exists in Hex. destruct Hex as (x & Hx & Hk).
  apply existsb_exists. exists x. split; [|exact Hk].
  apply filter_In. split; [exact Hx|].
  destruct (gone x) eqn:Hgone; [|reflexivity].
  exfalso. apply String.eqb_eq in Hk.
  assert (Hin : mem k (map key (filter gone l)) = true).
  { apply mem_In. rewrite <- Hk. apply in_map. apply filter_In.
    split; assumption. }
  exact (eq_true_false_abs _ Hin Hmem).
Qed.

(** After the cascade no row names the account. *)
Lemma cascade_delete_user_names_nobody :
  forall id d, names_user id (cascade_delete_user id d) = false.
Proof.
  intros id d. unfold names_user, cascade_delete_user.
  cbn [auth_users profiles user_roles projects project_members documents
       document_versions].
  rewrite (existsb_filter_negb AuthUser (fun a => au_id a =? id)).
  rewrite (existsb_filter_negb Profile (fun p => pr_id p =? id)).
  rewrite (existsb_filter_negb UserRole (fun r => ur_user_id r =? id)).
  rewrite (existsb_filter_negb Project (references_user id)).
  rewrite (existsb_filter_none ProjectMember (fun m => pm_user_id m =? id)).
  2: { intros m H. apply negb_true_iff, orb_false_iff in H. exact (proj1 H). }
  rewrite (existsb_filter_none Document (fun doc => d_created_by doc =? id)).
  2: { intros doc H. apply negb_true_iff in H. unfold document_goes in H.
       apply orb_false_iff in H. exact (proj1 H). }
  rewrite (existsb_filter_none DocumentVersion
             (fun v => v_uploaded_by v =? id)).
  2: { intros v H. apply negb_true_iff, orb_false_iff in H. exact (proj1 H). }
  reflexivity.
Qed.

(** The cascade leaves no row without the row it belongs to. *)
Lemma cascade_delete_user_keeps_parents :
  forall id d,
    rows_have_parents d -> rows_have_parents (cascade_delete_user id d).
Proof.
  intros id d (Hmembers & Hdocs & Hversions).
  unfold rows_have_parents, cascade_delete_user.
  cbn [projects project_members documents document_versions].
  split; [|split].
  - intros m Hm. apply filter_In in Hm. destruct Hm as [Hm Hstays].
    apply negb_true_iff, orb_false_iff in Hstays.
    apply (parent_stays Project p_id (references_user id));
      [exact (Hmembers m Hm)|exact (proj2 Hstays)].
  - intros doc Hdoc. apply filter_In in Hdoc. destruct Hdoc as [Hdoc Hstays].
    apply negb_true_iff in Hstays. unfold document_goes in Hstays.
    apply orb_false_iff in Hstays.
    apply (parent_stays Project p_id (references_user id));
      [exact (Hdocs doc Hdoc)|exact (proj2 Hstays)].
  - intros v Hv. apply filter_In in Hv. destruct Hv as [Hv Hstays].
    apply negb_true_iff, orb_false_iff in Hstays.
    apply (parent_stays Document d_id (document_goes id d));
      [exact (Hversions v Hv)|exact (proj2 Hstays)].
Qed.

(** X27.  [deleteUser] never removes the account of its caller.  The
    call succeeds only for a caller whose stored role is admin and for
    another account; that account, its profile and its role rows are
    then gone and no others, no row of any table names the account any
    more, no row is left without the project or document it belongs to,
    the caller is still an admin and the bucket is untouched.  Every
    other call fails and changes nothing. *)
Theorem deleteUser_spares_the_caller :
  forall env other session userId w,
    (rejected (fst (deleteUser env other session userId w)) ->
     snd (deleteUser env other session userId w) = w)
    /\ (fst (deleteUser env other session userId w) = Success tt ->
        exists user,
          session = Some user
          /\ RoleOf (db w) user = Some admin
          /\ user <> userId
          /\ names_user userId
                        (db (snd (deleteUser env other session userId w)))
             = false
          /\ (forall a,
                In a (auth_users
                        (db (snd (deleteUser env other session userId w))))
                <-> In a (auth_users (db w)) /\ au_id a <> userId)
          /\ (forall p,
                In p (profiles
                        (db (snd (deleteUser env other session userId w))))
                <-> In p (profiles (db w)) /\ pr_id p <> userId)
          /\ (forall u,
                role_rows (db (snd (deleteUser env other session userId w))) u
                = if u =? userId then [] else role_rows (db w) u)
          /\ RoleOf (db (snd (deleteUser env other session userId w))) user
             = Some admin
          /\ (rows_have_parents (db w) ->
              rows_have_parents
                (db (snd (deleteUser env other session userId w))))
          /\ bucket (snd (deleteUser env other session userId w)) = bucket w)
    /\ (forall user a,
           session = Some user ->
           In a (auth_users (db w)) -> au_id a = user ->
           In a (auth_users (db (snd (deleteUser env other session userId w))))).
Proof.
  intros env other session userId w.
  destruct (deleteUser_cases env other session userId w)
    as [(m & Hrun)|(Hrun & user & Hsession & Hadmin & Hne & Hex)];
    rewrite Hrun; cbn [fst snd].
  - split; [reflexivity|]. split; [discriminate|].
    intros user a _ Ha _. exact Ha.
  - assert (Hrows : forall u,
               role_rows (cascade_delete_user userId (db w)) u
               = if u =? userId then [] else role_rows (db w) u).
    { intros u. apply role_rows_after_delete. }
    split; [intros []|]. split.
    + intros _. exists user. cbn [db with_db bucket].
      split; [exact Hsession|]. split; [exact Hadmin|]. split; [exact Hne|].
      split; [apply cascade_delete_user_names_nobody|].
      split; [|split; [|split; [|split; [|split]]]].
      * intros a. unfold cascade_delete_user. cbn [auth_users].
        rewrite filter_In, negb_eqb_true. reflexivity.
      * intros p. unfold cascade_delete_user. cbn [profiles].
        rewrite filter_In, negb_eqb_true. reflexivity.
      * exact Hrows.
      * unfold RoleOf. rewrite Hrows.
        destruct (String.eqb_spec user userId) as [Heq|_];
          [contradiction|exact Hadmin].
      * apply cascade_delete_user_keeps_parents.
      * reflexivity.
    + intros user' a Hsession' Ha Hid.
      cbn [db with_db cascade_delete_user auth_users].
      apply filter_In. split; [exact Ha|].
      apply negb_eqb_true. rewrite Hid. congruence.
Qed.

(** Alice deletes Lisa, who leads the sample project and created its
    document: the project and what belongs to it go with her account. *)
Lemma deleteUser_spares_the_caller_witness :
  fst (deleteUser sample_env no_other_fault (Some alice) lisa sample_world)
  = Success tt
  /\ names_user lisa
       (db (snd (deleteUser sample_env no_other_fault (Some alice) lisa
                            sample_world))) = false
  /\ RoleOf (db (snd (deleteUser sample_env no_other_fault (Some alice) lisa
                                 sample_world))) alice = Some admin
  /\ projects (db (snd (deleteUser sample_env no_other_fault (Some alice) lisa
                                   sample_world))) = []
  /\ document_versions
       (db (snd (deleteUser sample_env no_other_fault (Some alice) lisa
                            sample_world))) = [].
Proof.
  split; [reflexivity|].
  destruct (proj1 (proj2 (deleteUser_spares_the_caller
                            sample_env no_other_fault (Some alice) lisa
                            sample_world)) eq_refl)
    as (user & Hsession & _ & _ & Hnames & _ & _ & _ & Hadmin & _).
  injection Hsession as <-.
  split; [exact Hnames|]. split; [exact Hadmin|]. split; reflexivity.
Defined.

(** X28.  The fallback of [updateUserRole] replaces the role: when the
    upsert fails and the delete works, every role row of the user is
    removed; the insert then leaves the user with the one row of the new
    role, or, if it fails too, with no role at all and an error.  The
    rows of the other users stay. *)
Theorem updateUserRole_fallback_replaces_the_role :
  forall env caller target role w m,
    is_uuid target = true ->
    env_fault env at_select_role = None ->
    RoleOf (db w) caller = Some admin ->
    env_fault env at_upsert_role = Some m ->
    env_fault env at_delete_roles = None ->
    (forall u, u <> target ->
               role_rows (db (snd (updateUserRole
                                     env (Some caller)
                                     {| uf_user_id := target;
                                        uf_role := role_name role |} w))) u
               = role_rows (db w) u)
    /\ match env_fault env at_insert_role with
       | None =>
           fst (updateUserRole env (Some caller)
                               {| uf_user_id := target;
                                  uf_role := role_name role |} w)
           = Success tt
           /\ role_rows (db (snd (updateUserRole
                                    env (Some caller)
                                    {| uf_user_id := target;
                                       uf_role := role_name role |} w)))
                        target
              = [ {| ur_user_id := target; ur_role := role |} ]
       | Some m' =>
           fst (updateUserRole env (Some caller)
                               {| uf_user_id := target;
                                  uf_role := role_name role |} w)
           = Failure m'
           /\ role_rows (db (snd (updateUserRole
                                    env (Some caller)
                                    {| uf_user_id := target;
                                       uf_role := role_name role |} w)))
                        target
              = []
       end.
Proof.
  intros env caller target role w m Huuid Hsel Hadmin Hup Hdel.
  assert (Hparse : updateUserRoleSchema
                     {| uf_user_id := target; uf_role := role_name role |}
                   = Data {| ur_user_id := target; ur_role := role |}).
  { unfold updateUserRoleSchema. cbn [uf_user_id uf_role]. rewrite Huuid.
    destruct role; reflexivity. }
  assert (Hrun :
            updateUserRole env (Some caller)
                           {| uf_user_id := target;
                              uf_role := role_name role |} w
            = match env_fault env at_insert_role with
              | Some m' =>
                  (Failure m',
                   logged (ReqInsertRole
                             {| ur_user_id := target; ur_role := role |})
                     (with_db (set_user_roles
                                 (filter (fun q => negb (ur_user_id q =? target))
                                         (user_roles (db w))) (db w))
                        (logged (ReqDeleteRoles target)
                           (logged (ReqUpsertRole
                                      {| ur_user_id := target;
                                         ur_role := role |}) w))))
              | None =>
                  (Success tt,
                   with_db
                     (set_user_roles
                        (filter (fun q => negb (ur_user_id q =? target))
                                (user_roles (db w))
                           ++ [ {| ur_user_id := target; ur_role := role |} ])
                        (set_user_roles
                           (filter (fun q => negb (ur_user_id q =? target))
                                   (user_roles (db w))) (db w)))
                     (logged (ReqInsertRole
                                {| ur_user_id := target; ur_role := role |})
                        (with_db
                           (set_user_roles
                              (filter (fun q => negb (ur_user_id q =? target))
                                      (user_roles (db w))) (db w))
                           (logged (ReqDeleteRoles target)
                              (logged (ReqUpsertRole
                                         {| ur_user_id := target;
                                            ur_role := role |}) w)))))
              end).
  { unfold updateUserRole. rewrite Hparse.
    unfold bind at 1. rewrite (select_role_reads env caller w Hsel), Hadmin.
    cbn [not_admin AppRole_eqb negb].
    unfold admin_upsert_role, admin_delete_roles, admin_insert_role. run.
    rewrite Hup, Hdel. cbn [ur_user_id].
    destruct (env_fault env at_insert_role) as [m'|]; [reflexivity|].
    cbn [db with_db set_user_roles user_roles].
    assert (Hfresh : existsb (same_role_row {| ur_user_id := target;
                                               ur_role := role |})
                             (filter (fun q => negb (ur_user_id q =? target))
                                     (user_roles (db w))) = false).
    { apply not_true_is_false. intros H. apply existsb_exists in H.
      destruct H as (q & Hq & Hsame). apply filter_In in Hq.
      destruct Hq as [_ Hq]. unfold same_role_row in Hsame.
      cbn [ur_user_id] in Hsame. apply andb_prop in Hsame.
      destruct Hsame as [Hsame _]. rewrite Hsame in Hq. discriminate Hq. }
    rewrite Hfresh. reflexivity. }
  rewrite Hrun.
  destruct (env_fault env at_insert_role) as [m'|]; cbn [fst snd].
  - split.
    + intros u Hu. cbn [db logged with_db].
      rewrite role_rows_after_delete.
      destruct (String.eqb_spec u target); [contradiction|reflexivity].
    + split; [reflexivity|]. cbn [db logged with_db].
      rewrite role_rows_after_delete, String.eqb_refl. reflexivity.
  - pose proof (role_rows_after_delete (db w) target) as Hdeleted.
    unfold role_rows in *. cbn [db logged with_db set_user_roles user_roles]
      in *.
    split.
    + intros u Hu. rewrite filter_app, Hdeleted. cbn [filter ur_user_id].
      destruct (String.eqb_spec u target) as [|_]; [contradiction|].
      destruct (String.eqb_spec target u); [congruence|]. apply app_nil_r.
    + split; [reflexivity|].
      rewrite filter_app, Hdeleted, String.eqb_refl. cbn [filter ur_user_id].
      rewrite String.eqb_refl. reflexivity.
Qed.

(** Alice makes David a project lead while upserts fail: David has the
    one row of the new role. *)
Lemma updateUserRole_fallback_replaces_the_role_witness :
  is_uuid david = true
  /\ RoleOf (db sample_world) alice = Some admin
  /\ env_fault (sample_env_with upsert_down) at_upsert_role
     = Some "connection reset"
  /\ role_rows (db (snd (updateUserRole
                           (sample_env_with upsert_down) (Some alice)
                           {| uf_user_id := david;
                              uf_role := role_name project_lead |}
                           sample_world))) david
     = [ {| ur_user_id := david; ur_role := project_lead |} ].
Proof.
  split; [reflexivity|]. split; [reflexivity|]. split; [reflexivity|].
  exact (proj2 (proj2 (updateUserRole_fallback_replaces_the_role
                         (sample_env_with upsert_down) alice david
                         project_lead sample_world "connection reset"
                         eq_refl eq_refl eq_refl eq_refl eq_refl))).
Defined.

(** X29.  The three user actions touch nothing unless the stored role
    of the caller is admin: for a caller who is not signed in, has
    another role or none, or whose role cannot be read, [createUser],
    [updateUserRole] and [deleteUser] fail, send no request through the
    service-role client and leave the world as it is. *)
Theorem user_actions_require_admin :
  forall env other session w,
    (forall user, session = Some user ->
                  fst (select_role env user w) <> Some admin) ->
    (forall formData,
        rejected (fst (createUser env session formData w))
        /\ snd (createUser env session formData w) = w)
    /\ (forall formData,
           rejected (fst (updateUserRole env session formData w))
           /\ snd (updateUserRole env session formData w) = w)
    /\ (forall userId,
           rejected (fst (deleteUser env other session userId w))
           /\ snd (deleteUser env other session userId w) = w).
Proof.
  intros env other session w Hnot.
  assert (Hcaller : forall user,
             session = Some user ->
             not_admin (fst (select_role env user w)) = true).
  { intros user Hs. specialize (Hnot user Hs).
    destruct (fst (select_role env user w)) as [[| |]|]; try reflexivity.
    contradiction Hnot. reflexivity. }
  split; [|split].
  - intros formData. unfold createUser.
    destruct (createUserSchema env formData); [|split; [exact I|reflexivity]].
    destruct session as [user|]; [|split; [exact I|reflexivity]].
    unfold bind. rewrite select_role_world, (Hcaller user eq_refl).
    split; [exact I|reflexivity].
  - intros formData. unfold updateUserRole.
    destruct (updateUserRoleSchema formData); [|split; [exact I|reflexivity]].
    destruct session as [user|]; [|split; [exact I|reflexivity]].
    unfold bind. rewrite select_role_world, (Hcaller user eq_refl).
    split; [exact I|reflexivity].
  - intros userId. unfold deleteUser.
    destruct session as [user|]; [|split; [exact I|reflexivity]].
    unfold bind. rewrite select_role_world, (Hcaller user eq_refl).
    split; [exact I|reflexivity].
Qed.

(** Lisa, a project lead, tries to create an account. *)
Lemma user_actions_require_admin_witness :
  (forall user, Some lisa = Some user ->
                fst (select_role sample_env user sample_world) <> Some admin)
  /\ createUser sample_env (Some lisa) eve_form sample_world
     = (Failure "Only admins can create users", sample_world).
Proof.
  assert (Hnot : forall user,
             Some lisa = Some user ->
             fst (select_role sample_env user sample_world) <> Some admin).
  { intros user Hs. injection Hs as <-. discriminate. }
  split; [exact Hnot|].
  pose proof (proj1 (user_actions_require_admin
                       sample_env no_other_fault (Some lisa) sample_world
                       Hnot) eve_form) as [_ Hworld].
  rewrite (surjective_pairing (createUser _ _ _ _)), Hworld. reflexivity.
Defined.

Lemma roleMap_get_push :
  forall u r m id,
    roleMap_get (push_role u r m) id
    = if u =? id
      then Some (or_else (roleMap_get m id) [] ++ [r])
      else roleMap_get m id.
Proof.
  intros u r m id. unfold roleMap_get.
  induction m as [|[k rs] m IH]; cbn [push_role find fst].
  - cbn. rewrite String.eqb_sym. destruct (id =? u); reflexivity.
  - destruct (String.eqb_spec k u) as [->|Hk]; cbn [find fst].
    + destruct (String.eqb_spec u id) as [->|Hid].
      * reflexivity.
      * reflexivity.
    + destruct (String.eqb_spec k id) as [->|Hkid].
      * destruct (String.eqb_spec u id); [congruence|reflexivity].
      * exact IH.
Qed.

Lemma roleMap_get_fold :
  forall roles m id,
    or_else (roleMap_get
               (fold_left (fun m r => push_role (ur_user_id r) (ur_role r) m)
                          roles m) id) []
    = or_else (roleMap_get m id) []
        ++ map ur_role (filter (fun r => ur_user_id r =? id) roles).
Proof.
  intros roles. induction roles as [|r roles IH]; intros m id.
  - cbn. rewrite app_nil_r. reflexivity.
  - cbn [fold_left filter]. rewrite IH, roleMap_get_push.
    destruct (ur_user_id r =? id); cbn [or_else map].
    + rewrite <- app_assoc. reflexivity.
    + reflexivity.
Qed.

(** X30.  [getUsers] returns the profiles in the order they were read,
    each with exactly the roles of its own rows of [user_roles], in the
    order of the table, and with no role when it has no row.  The role
    the user table shows for a user with one role row is that role. *)
Theorem getUsers_attaches_each_users_roles :
  forall profiles roles,
    exists users,
      getUsers (Data profiles) (Data roles) = Success users
      /\ map uw_profile users = profiles
      /\ Forall (fun u =>
                   uw_user_roles u
                   = map ur_role
                         (filter (fun r => ur_user_id r =? pr_id (uw_profile u))
                                 roles)
                   /\ forall r,
                       single (filter (fun r => ur_user_id r
                                                =? pr_id (uw_profile u))
                                      roles) = Some r ->
                       userRole u = ur_role r)
                users.
Proof.
  intros profiles roles. eexists. split; [reflexivity|]. split.
  - rewrite map_map. cbn. apply map_id.
  - apply Forall_forall. intros u Hu. apply in_map_iff in Hu.
    destruct Hu as (p & <- & _). cbn [uw_profile uw_user_roles].
    assert (Hroles : or_else (roleMap_get (roleMap_of roles) (pr_id p)) []
                     = map ur_role
                           (filter (fun r => ur_user_id r =? pr_id p) roles)).
    { unfold roleMap_of. rewrite roleMap_get_fold. reflexivity. }
    split; [exact Hroles|].
    intros r Hr. unfold userRole. cbn [uw_user_roles]. rewrite Hroles.
    destruct (filter (fun r0 => ur_user_id r0 =? pr_id p) roles)
      as [|r1 [|r2 l]]; try discriminate Hr.
    injection Hr as <-. reflexivity.
Qed.
